(** * QSA: style translation and project consistency engine

    A shallow embedding of [qsa_api/project.py], [qsa_api/raster/renderer.py]
    and of the handlers of [qsa_api/api/projects.py] that create a
    project and that add, list, restyle and remove its layers and
    styles, followed by the properties of the specification that
    concern them and by further properties of the code.

    Python values are embedded as a JSON tree, Python exceptions as a
    result type, and the persisted state (project descriptor, style
    files, default-style table, cache mirror) as one record threaded
    through every engine operation. *)

From Stdlib Require Import ZArith String Ascii List Bool QArith Qcanon.
From stdpp Require Import base option list strings pretty gmap.

Set Warnings "-register-all".

Local Open Scope string_scope.
Local Open Scope list_scope.

(** ** Python results *)

Module Py.

(** The exceptions the embedded code can raise. *)
Inductive exc : Type :=
| KeyError (key : string)
| IndexError
| TypeError
| ValueError
| AttributeError
| OverflowError
| ValidationError
| Exception (msg : string).

(** Outcome of a Python expression: a value, or a raised exception. *)
Inductive res (A : Type) : Type :=
| Ok (a : A)
| Raise (e : exc).
Arguments Ok {A} a.
Arguments Raise {A} e.

#[global] Instance res_ret : MRet res := fun A a => Ok a.
#[global] Instance res_bind : MBind res := fun A B f m =>
  match m with
  | Ok a => f a
  | Raise e => Raise e
  end.
#[global] Instance res_fmap : FMap res := fun A B f m =>
  match m with
  | Ok a => Ok (f a)
  | Raise e => Raise e
  end.


(** Python floats.  The engine only stores, copies and compares the
    floats it handles (band bounds, gamma, opacity); it never computes
    with them.  They are rationals, the two infinities, and the
    not-a-number value that the rendering library uses for a bound that
    was never computed. *)
Inductive float : Type :=
| Fin (q : Qc)
| Inf (negative : bool)
| NaN.

#[global] Instance float_eq_dec : EqDecision float.
Proof. solve_decision. Defined.

Definition float_of_Z (n : Z) : float := Fin (Q2Qc (inject_Z n)).

(** [int(x)] on a float truncates toward zero and rejects the
    infinities and NaN. *)
Definition trunc (x : float) : res Z :=
  match x with
  | Fin q => Ok (Z.quot (Qnum (this q)) (Z.pos (Qden (this q))))
  | Inf _ => Raise OverflowError
  | NaN => Raise ValueError
  end.

(** The magnitude from which a number is too large for a double:
    2^1024 - 2^970. *)
Definition double_bound : Z := (2 ^ 1024 - 2 ^ 970)%Z.

(** *** Strings *)

(** A Python string is held as the bytes of its UTF-8 encoding. *)
Definition of_bytes (l : list nat) : string :=
  foldr (fun n s => String (ascii_of_nat n) s) EmptyString l.


(** The ASCII characters for which [str.isspace] holds: U+0009 to
    U+000D, U+001C to U+001F and the space. *)
Definition is_whitespace (c : ascii) : bool :=
  let n := nat_of_ascii c in
  ((9 <=? n)%nat && (n <=? 13)%nat) || ((28 <=? n)%nat && (n <=? 32)%nat).

(** The other characters for which [str.isspace] holds, encoded:
    U+0085, U+00A0, U+1680, U+2000 to U+200A, U+2028, U+2029, U+202F,
    U+205F and U+3000. *)
Definition unicode_whitespace : list string :=
  of_bytes <$>
    [[194; 133]; [194; 160]; [225; 154; 128];
     [226; 128; 128]; [226; 128; 129]; [226; 128; 130]; [226; 128; 131];
     [226; 128; 132]; [226; 128; 133]; [226; 128; 134]; [226; 128; 135];
     [226; 128; 136]; [226; 128; 137]; [226; 128; 138];
     [226; 128; 168]; [226; 128; 169]; [226; 128; 175]; [226; 129; 159];
     [227; 128; 128]]%nat.

(** [s] without the prefix [p], when it starts with it. *)
Fixpoint drop_prefix (p s : string) : option string :=
  match p, s with
  | EmptyString, _ => Some s
  | String a p', String b s' => if Ascii.eqb a b then drop_prefix p' s' else None
  | String _ _, EmptyString => None
  end.

(** [s] without its first character, when that is whitespace: [sp]
    tells the whitespace of ASCII and [ws] lists the encodings of the
    whitespace outside it. *)
Definition drop_whitespace (sp : ascii → bool) (ws : list string) (s : string)
    : option string :=
  match s with
  | EmptyString => None
  | String c s' =>
      if sp c then Some s'
      else list_find is_Some ((fun w => drop_prefix w s) <$> ws) ≫= snd
  end.

(** Leading whitespace is dropped one character at a time; the length
    of the string bounds the number of rounds. *)
Fixpoint lstrip_go (sp : ascii → bool) (ws : list string) (fuel : nat) (s : string)
    : string :=
  match fuel with
  | O => s
  | S fuel' =>
      match drop_whitespace sp ws s with
      | Some s' => lstrip_go sp ws fuel' s'
      | None => s
      end
  end.

(** Whitespace dropped at both ends; the end of the string is handled
    on the reversed bytes, with the encodings reversed. *)
Definition strip_with (sp : ascii → bool) (s : string) : string :=
  let s := lstrip_go sp unicode_whitespace (String.length s) s in
  String.rev (lstrip_go sp (String.rev <$> unicode_whitespace) (String.length s)
                (String.rev s)).

(** [s.strip()] *)
Definition strip (s : string) : string := strip_with is_whitespace s.

Definition lower_ascii (c : ascii) : ascii :=
  let n := nat_of_ascii c in
  if (65 <=? n)%nat && (n <=? 90)%nat then ascii_of_nat (n + 32) else c.

(** [s.lower()], on ASCII letters *)
Fixpoint lower (s : string) : string :=
  match s with
  | String c s' => String (lower_ascii c) (lower s')
  | EmptyString => EmptyString
  end.

(** [s.split(sep)] for a one-character separator: always at least one
    field, empty fields are kept. *)
Fixpoint split (sep : ascii) (s : string) : list string :=
  match s with
  | EmptyString => [EmptyString]
  | String c s' =>
      if Ascii.eqb c sep then EmptyString :: split sep s'
      else match split sep s' with
           | f :: fs => String c f :: fs
           | [] => [String c EmptyString]
           end
  end.

Fixpoint replace_go (old new : string) (skip : nat) (s : string) : string :=
  match s with
  | EmptyString => EmptyString
  | String c s' =>
      match skip with
      | S k => replace_go old new k s'
      | O =>
          if String.prefix old s
          then new +:+ replace_go old new (String.length old - 1) s'
          else String c (replace_go old new 0 s')
      end
  end.

(** [s.replace(old, new)] for a non-empty [old]: occurrences are replaced
    from left to right, without overlap. *)
Definition replace (old new s : string) : string := replace_go old new 0 s.

(** [sub in s] on strings *)
Fixpoint contains (sub s : string) : bool :=
  String.prefix sub s ||
  match s with
  | String _ s' => contains sub s'
  | EmptyString => false
  end.

(** [l[i]] on a list *)
Definition index {A} (l : list A) (i : nat) : res A :=
  match l !! i with
  | Some a => Ok a
  | None => Raise IndexError
  end.

(** *** Number literals

    [int] and [float] read the ASCII digits; the decimal digits that
    Unicode has outside ASCII, which they read as well, are not
    modelled, so that a literal written with them is rejected here. *)

(** The whitespace that [int] and [float] drop around a literal: of
    ASCII, U+0009 to U+000D and the space (the four separators U+001C
    to U+001F are not dropped), and the whitespace outside ASCII. *)
Definition is_c_space (c : ascii) : bool :=
  let n := nat_of_ascii c in
  ((9 <=? n)%nat && (n <=? 13)%nat) || (n =? 32)%nat.

Definition strip_number (s : string) : string := strip_with is_c_space s.

Definition digit_of (c : ascii) : option Z :=
  let n := nat_of_ascii c in
  if (48 <=? n)%nat && (n <=? 57)%nat then Some (Z.of_nat (n - 48)) else None.

(** The digits of a literal: at least one, and a single underscore may
    separate two of them.  [prev] tells whether the previous character
    was a digit, [acc] is the value read so far and [n] the number of
    digits read; the result is the value and the number of digits. *)
Fixpoint digits_go (prev : bool) (acc : Z) (n : nat) (s : string) : option (Z * nat) :=
  match s with
  | EmptyString => if prev then Some (acc, n) else None
  | String c s' =>
      match digit_of c with
      | Some d => digits_go true (10 * acc + d)%Z (S n) s'
      | None =>
          if Ascii.eqb c "_" && prev
          then match s' with
               | String c' _ =>
                   match digit_of c' with
                   | Some _ => digits_go false acc n s'
                   | None => None
                   end
               | EmptyString => None
               end
          else None
      end
  end.

Definition digits (s : string) : option (Z * nat) := digits_go false 0%Z 0%nat s.

(** The longest literal that [int] converts: 4300 digits. *)
Definition max_str_digits : nat := 4300.

Definition int_digits (s : string) : option Z :=
  '(n, len) ← digits s;
  if (len <=? max_str_digits)%nat then Some n else None.

(** [int(s)] on a string: surrounding whitespace is dropped, one sign is
    allowed, then decimal digits, no more than 4300 of them. *)
Definition int_of_string (s : string) : option Z :=
  match strip_number s with
  | String "-" ds => Z.opp <$> int_digits ds
  | String "+" ds => int_digits ds
  | ds => int_digits ds
  end.

(** The digits before the exponent of a decimal literal: an integral
    part, a fractional part, or both, around at most one point. *)
Definition mantissa (s : string) : option Qc :=
  match split "." s with
  | [a] => (fun n => Q2Qc (inject_Z (fst n))) <$> digits a
  | [a; b] =>
      if String.eqb a "" && String.eqb b "" then None
      else
        n ← (if String.eqb a "" then Some (0%Z, 0%nat) else digits a);
        f ← (if String.eqb b "" then Some (0%Z, 0%nat) else digits b);
        let scale := Pos.pow 10 (Pos.of_nat (snd f)) in
        Some (if String.eqb b "" then Q2Qc (inject_Z (fst n))
              else Q2Qc (Qmake (fst n * Z.pos scale + fst f) scale))
  | _ => None
  end.

Definition exponent (s : string) : option Z :=
  match s with
  | String "-" ds => (fun n => Z.opp (fst n)) <$> digits ds
  | String "+" ds => fst <$> digits ds
  | ds => fst <$> digits ds
  end.

Definition pow10 (e : Z) : Qc :=
  match e with
  | Z0 => Q2Qc 1
  | Zpos p => Q2Qc (inject_Z (Z.pos (Pos.pow 10 p)))
  | Zneg p => Q2Qc (Qmake 1 (Pos.pow 10 p))
  end.

(** A magnitude as a double: infinite from [double_bound] on. *)
Definition magnitude (q : Qc) : float :=
  match (q ?= Q2Qc (inject_Z double_bound))%Qc with
  | Lt => Fin q
  | _ => Inf false
  end.

(** A literal without sign, in lower case. *)
Definition unsigned_float (t : string) : option float :=
  if String.eqb t "inf" || String.eqb t "infinity" then Some (Inf false)
  else if String.eqb t "nan" then Some NaN
  else match split "e" t with
       | [m] => magnitude <$> mantissa m
       | [m; e] =>
           q ← mantissa m;
           x ← exponent e;
           Some (magnitude (q * pow10 x)%Qc)
       | _ => None
       end.

Definition negate (x : float) : float :=
  match x with
  | Fin q => Fin (- q)%Qc
  | Inf b => Inf (negb b)
  | NaN => NaN
  end.

(** [float(s)] on a string: surrounding whitespace is dropped, one sign
    is allowed, then [inf], [infinity] or [nan] in any case, or a
    decimal literal with or without exponent ([12], [-0.5], [3.],
    [1e-05]); a literal too large for a double is infinite. *)
Definition float_of_string (s : string) : option float :=
  match lower (strip_number s) with
  | String "-" t => negate <$> unsigned_float t
  | String "+" t => unsigned_float t
  | t => unsigned_float t
  end.

(** *** JSON values

    Request bodies and style descriptions are Python objects built from
    JSON: dictionaries are association lists in key order. *)
Inductive json : Type :=
| JNull
| JBool (b : bool)
| JInt (n : Z)
| JReal (x : float)
| JStr (s : string)
| JList (l : list json)
| JDict (d : list (string * json)).

Fixpoint assoc {A} (k : string) (d : list (string * A)) : option A :=
  match d with
  | [] => None
  | (k', v) :: d' => if String.eqb k k' then Some v else assoc k d'
  end.

(** [k in d] on a dictionary *)
Definition has_key {A} (k : string) (d : list (string * A)) : bool :=
  match assoc k d with Some _ => true | None => false end.

(** [d[k]] on a dictionary *)
Definition dict_get (d : list (string * json)) (k : string) : res json :=
  match assoc k d with
  | Some v => Ok v
  | None => Raise (KeyError k)
  end.

(** [v[k]] with a string key: only dictionaries accept it. *)
Definition getitem (v : json) (k : string) : res json :=
  match v with
  | JDict d => dict_get d k
  | _ => Raise TypeError
  end.

Definition is_str (s : string) (v : json) : bool :=
  match v with
  | JStr s' => String.eqb s s'
  | _ => false
  end.

(** [k in v] for a string [k]: key of a dictionary, element of a list,
    substring of a string. *)
Definition py_in (k : string) (v : json) : res bool :=
  match v with
  | JDict d => Ok (has_key k d)
  | JList l => Ok (existsb (is_str k) l)
  | JStr s => Ok (contains k s)
  | _ => Raise TypeError
  end.

Fixpoint chars (s : string) : list json :=
  match s with
  | EmptyString => []
  | String c s' => JStr (String c EmptyString) :: chars s'
  end.

(** The sequence a [for] loop runs over. *)
Definition iter (v : json) : res (list json) :=
  match v with
  | JList l => Ok l
  | JDict d => Ok (map (fun kv => JStr (fst kv)) d)
  | JStr s => Ok (chars s)
  | _ => Raise TypeError
  end.

(** [int(v)] *)
Definition py_int (v : json) : res Z :=
  match v with
  | JInt n => Ok n
  | JBool b => Ok (if b then 1 else 0)%Z
  | JReal x => trunc x
  | JStr s =>
      match int_of_string s with
      | Some n => Ok n
      | None => Raise ValueError
      end
  | _ => Raise TypeError
  end.

(** An integer is converted to a double when it is below
    [double_bound] in absolute value, and raises from there on. *)
Definition float_of_int (n : Z) : res float :=
  if (Z.abs n <? double_bound)%Z then Ok (float_of_Z n)
  else Raise OverflowError.

(** An integer handed to the rendering library where it takes a C
    [int]: the binding raises outside 32 bits. *)
Definition c_int (n : Z) : res Z :=
  if ((- 2 ^ 31 <=? n) && (n <? 2 ^ 31))%Z then Ok n else Raise OverflowError.

(** [float(v)] *)
Definition py_float (v : json) : res float :=
  match v with
  | JInt n => float_of_int n
  | JBool b => Ok (float_of_Z (if b then 1 else 0))
  | JReal x => Ok x
  | JStr s =>
      match float_of_string s with
      | Some x => Ok x
      | None => Raise ValueError
      end
  | _ => Raise TypeError
  end.

Fixpoint fraction_digits (fuel : nat) (r d : Z) : string :=
  match fuel with
  | O => ""
  | S fuel' =>
      if (r =? 0)%Z then ""
      else pretty (10 * r / d)%Z +:+ fraction_digits fuel' ((10 * r) mod d)%Z d
  end.

(** Decimal rendering of a float, to seventeen fractional digits. *)
Definition float_repr (x : float) : string :=
  match x with
  | NaN => "nan"
  | Inf b => if b then "-inf" else "inf"
  | Fin q =>
      let n := Qnum (this q) in
      let d := Z.pos (Qden (this q)) in
      let frac := fraction_digits 17 (Z.abs n mod d)%Z d in
      (if (n <? 0)%Z then "-" else "") +:+ pretty (Z.abs n / d)%Z +:+ "." +:+
      (if String.eqb frac "" then "0" else frac)
  end.

Definition join_with (sep : string) (l : list string) : string :=
  match l with
  | [] => ""
  | x :: xs => fold_left (fun acc y => acc +:+ sep +:+ y) xs x
  end.

(** [repr(v)]; a string is shown between single quotes, without escape
    sequences. *)
Fixpoint repr (v : json) : string :=
  match v with
  | JNull => "None"
  | JBool b => if b then "True" else "False"
  | JInt n => pretty n
  | JReal x => float_repr x
  | JStr s => "'" +:+ s +:+ "'"
  | JList l => "[" +:+ join_with ", " (map repr l) +:+ "]"
  | JDict d =>
      "{" +:+ join_with ", " (map (fun kv => "'" +:+ fst kv +:+ "': " +:+ repr (snd kv)) d) +:+ "}"
  end.

(** [str(v)] *)
Definition py_str (v : json) : string :=
  match v with
  | JStr s => s
  | _ => repr v
  end.

(** *** Stateful computations

    A computation over a mutable state [S] returns the state it leaves
    behind together with its outcome: what was changed before an
    exception was raised stays changed. *)
Definition st (S A : Type) : Type := S → res A * S.

#[global] Instance st_ret {S} : MRet (st S) := fun A a s => (Ok a, s).
#[global] Instance st_bind {S} : MBind (st S) := fun A B f m s =>
  match m s with
  | (Ok a, s') => f a s'
  | (Raise e, s') => (Raise e, s')
  end.

Definition get {S} : st S S := fun s => (Ok s, s).
Definition put {S} (s : S) : st S unit := fun _ => (Ok tt, s).
Definition modify {S} (f : S → S) : st S unit := fun s => (Ok tt, f s).
Definition lift {S A} (r : res A) : st S A := fun s => (r, s).
Definition raise {S A} (e : exc) : st S A := fun s => (Raise e, s).

End Py.

Import Py.

(** ** The rendering library

    The part of the QGIS raster API that the engine drives: renderers
    are records of the settings their accessors read and write. *)

Module Qgs.

Inductive ContrastEnhancementAlgorithm : Type :=
| NoEnhancement
| StretchToMinimumMaximum
| StretchAndClipToMinimumMaximum
| ClipToMinimumMaximum
| UserDefinedEnhancement.

(** [QgsRasterMinMaxOrigin.Limits] *)
Inductive Limits : Type :=
| None_
| MinMax
| StdDev
| CumulativeCut.

#[global] Instance alg_eq_dec : EqDecision ContrastEnhancementAlgorithm.
Proof. solve_decision. Defined.
#[global] Instance limits_eq_dec : EqDecision Limits.
Proof. solve_decision. Defined.

Record QgsContrastEnhancement : Type := {
  minimumValue : float;
  maximumValue : float;
  contrastEnhancementAlgorithm : ContrastEnhancementAlgorithm;
}.

(** [setMinimumValue] and [setMaximumValue] store the bound; the
    limits of the band's data type, within which the library keeps it,
    are not modelled. *)
Definition setMinimumValue (v : float) (ce : QgsContrastEnhancement) :=
  {| minimumValue := v;
     maximumValue := maximumValue ce;
     contrastEnhancementAlgorithm := contrastEnhancementAlgorithm ce |}.

Definition setMaximumValue (v : float) (ce : QgsContrastEnhancement) :=
  {| minimumValue := minimumValue ce;
     maximumValue := v;
     contrastEnhancementAlgorithm := contrastEnhancementAlgorithm ce |}.

Inductive Gradient : Type :=
| BlackToWhite
| WhiteToBlack.

#[global] Instance gradient_eq_dec : EqDecision Gradient.
Proof. solve_decision. Defined.

Record QgsSingleBandGrayRenderer : Type := {
  grayBand : Z;
  gradient : Gradient;
  contrastEnhancement : option QgsContrastEnhancement;
  grayLimits : Limits;
}.

Record QgsMultiBandColorRenderer : Type := {
  redBand : Z;
  greenBand : Z;
  blueBand : Z;
  redContrastEnhancement : option QgsContrastEnhancement;
  greenContrastEnhancement : option QgsContrastEnhancement;
  blueContrastEnhancement : option QgsContrastEnhancement;
  multiLimits : Limits;
}.

(** [QgsColorRampShader.Type] *)
Inductive ShaderType : Type :=
| Interpolated
| Discrete
| Exact.

(** A raster shader around a colour-ramp function: the name the ramp
    was looked up under in the default style, and its kind. *)
Record QgsRasterShader : Type := {
  sourceColorRamp : string;
  colorRampType : ShaderType;
}.

Record QgsSingleBandPseudoColorRenderer : Type := {
  band : Z;
  shader : option QgsRasterShader;
  classificationMin : float;
  classificationMax : float;
  pseudoLimits : Limits;
}.

(** The renderers of a raster layer.  [OtherRenderer] stands for the
    kinds the engine has no codec for (paletted, hillshade, ...). *)
Inductive QgsRasterRenderer : Type :=
| Gray (r : QgsSingleBandGrayRenderer)
| Multi (r : QgsMultiBandColorRenderer)
| Pseudo (r : QgsSingleBandPseudoColorRenderer)
| OtherRenderer (type_name : string) (limits : Limits).

(** [renderer.type()] *)
Definition renderer_type (r : QgsRasterRenderer) : string :=
  match r with
  | Gray _ => "singlebandgray"
  | Multi _ => "multibandcolor"
  | Pseudo _ => "singlebandpseudocolor"
  | OtherRenderer n _ => n
  end.

(** [renderer.minMaxOrigin().limits()] *)
Definition limits (r : QgsRasterRenderer) : Limits :=
  match r with
  | Gray g => grayLimits g
  | Multi m => multiLimits m
  | Pseudo p => pseudoLimits p
  | OtherRenderer _ l => l
  end.

(** [QgsSingleBandGrayRenderer(None, 1)] *)
Definition new_gray : QgsSingleBandGrayRenderer :=
  {| grayBand := 1; gradient := BlackToWhite; contrastEnhancement := None;
     grayLimits := None_ |}.

(** [QgsMultiBandColorRenderer(None, 1, 1, 1)] *)
Definition new_multi : QgsMultiBandColorRenderer :=
  {| redBand := 1; greenBand := 1; blueBand := 1;
     redContrastEnhancement := None; greenContrastEnhancement := None;
     blueContrastEnhancement := None; multiLimits := None_ |}.

(** [QgsSingleBandPseudoColorRenderer(None, 1)] *)
Definition new_pseudo : QgsSingleBandPseudoColorRenderer :=
  {| band := 1; shader := None; classificationMin := NaN;
     classificationMax := NaN; pseudoLimits := None_ |}.

(** What the data provider of a raster computes from the pixels: the
    minimum and maximum of a band under each way of choosing limits. *)
Record DataProvider : Type := {
  bandStatistics : Z → float * float;
  stdDevRange : Z → float * float;
  cumulativeCut : Z → float * float;
}.

(** A raster layer, as far as styling goes: renderer, the two pipe
    filters, and the provider behind it. *)
Record QgsRasterLayer : Type := {
  renderer : QgsRasterRenderer;
  brightness : Z;
  contrast : Z;
  gamma : float;
  saturation : Z;
  dataProvider : DataProvider;
}.

Definition setRenderer (r : QgsRasterRenderer) (l : QgsRasterLayer) :=
  {| renderer := r; brightness := brightness l; contrast := contrast l;
     gamma := gamma l; saturation := saturation l;
     dataProvider := dataProvider l |}.

(** [QgsRasterLayer.computeMinMax]: no limits, no bounds. *)
Definition computeMinMax (p : DataProvider) (b : Z) (l : Limits) : float * float :=
  match l with
  | None_ => (NaN, NaN)
  | MinMax => bandStatistics p b
  | StdDev => stdDevRange p b
  | CumulativeCut => cumulativeCut p b
  end.

Definition fresh_enhancement (p : DataProvider) (alg : ContrastEnhancementAlgorithm)
    (l : Limits) (b : Z) : QgsContrastEnhancement :=
  {| minimumValue := fst (computeMinMax p b l);
     maximumValue := snd (computeMinMax p b l);
     contrastEnhancementAlgorithm := alg |}.

(** [layer.setContrastEnhancement(algorithm, limits)]: every band of
    the renderer gets a new enhancement with that algorithm and the
    bounds computed under [limits], which becomes the renderer's
    min/max origin.  Other renderers are left alone. *)
Definition setContrastEnhancement (alg : ContrastEnhancementAlgorithm)
    (l : Limits) (lyr : QgsRasterLayer) : QgsRasterLayer :=
  let p := dataProvider lyr in
  match renderer lyr with
  | Gray g =>
      setRenderer (Gray
        {| grayBand := grayBand g; gradient := gradient g;
           contrastEnhancement := Some (fresh_enhancement p alg l (grayBand g));
           grayLimits := l |}) lyr
  | Multi m =>
      setRenderer (Multi
        {| redBand := redBand m; greenBand := greenBand m; blueBand := blueBand m;
           redContrastEnhancement := Some (fresh_enhancement p alg l (redBand m));
           greenContrastEnhancement := Some (fresh_enhancement p alg l (greenBand m));
           blueContrastEnhancement := Some (fresh_enhancement p alg l (blueBand m));
           multiLimits := l |}) lyr
  | Pseudo r =>
      setRenderer (Pseudo
        {| band := band r; shader := shader r;
           classificationMin := fst (computeMinMax p (band r) l);
           classificationMax := snd (computeMinMax p (band r) l);
           pseudoLimits := l |}) lyr
  | OtherRenderer _ _ => lyr
  end.

(** *** Vector symbology *)

(** [QColor(r, g, b, a)]: the four channels are C [int]s, so that the
    call raises for an integer outside 32 bits; a colour built from
    channels outside 0..255 is the invalid colour. *)
Inductive QColor : Type :=
| Rgba (r g b a : Z)
| InvalidColor.

Definition channel_ok (c : Z) : bool := (0 <=? c)%Z && (c <=? 255)%Z.

Definition mkQColor (r g b a : Z) : res QColor :=
  r ← c_int r;
  g ← c_int g;
  b ← c_int b;
  a ← c_int a;
  Ok (if channel_ok r && channel_ok g && channel_ok b && channel_ok a
      then Rgba r g b a else InvalidColor).

Inductive RenderUnit : Type :=
| RenderMillimeters
| RenderMapUnits
| RenderPixels.

Record QgsSvgMarkerSymbolLayer : Type := {
  svgPath : string;
  svgColor : QColor;
  svgStrokeColor : QColor;
  svgSize : float;
  svgSizeUnit : RenderUnit;
}.

(** [QgsSvgMarkerSymbolLayer(path)]: black fill and stroke, the default
    size of 4, millimetres. *)
Definition new_svg (path : string) : QgsSvgMarkerSymbolLayer :=
  {| svgPath := path; svgColor := Rgba 0 0 0 255; svgStrokeColor := Rgba 0 0 0 255;
     svgSize := float_of_Z 4; svgSizeUnit := RenderMillimeters |}.

(** The symbol layer at position 0 of a marker symbol. *)
Inductive MarkerLayer : Type :=
| SimpleMarker (props : list (string * json)) (unit : RenderUnit)
| SvgMarker (l : QgsSvgMarkerSymbolLayer).

(** Symbols.  [createSimple] keeps the property dictionary it is given;
    interpreting the properties is the rendering library's business. *)
Inductive QgsSymbol : Type :=
| FillSymbol (props : list (string * json))
| LineSymbol (props : list (string * json))
| MarkerSymbol (layer0 : MarkerLayer).

(** [symbol.setSizeUnit(u)]: sets the unit of the layers the symbol has
    at that moment. *)
Definition setSizeUnit (u : RenderUnit) (s : QgsSymbol) : QgsSymbol :=
  match s with
  | MarkerSymbol (SimpleMarker p _) => MarkerSymbol (SimpleMarker p u)
  | MarkerSymbol (SvgMarker l) =>
      MarkerSymbol (SvgMarker
        {| svgPath := svgPath l; svgColor := svgColor l;
           svgStrokeColor := svgStrokeColor l; svgSize := svgSize l;
           svgSizeUnit := u |})
  | _ => s
  end.

(** [symbol.changeSymbolLayer(0, layer)] *)
Definition changeSymbolLayer0 (l : QgsSvgMarkerSymbolLayer) (s : QgsSymbol) : QgsSymbol :=
  match s with
  | MarkerSymbol _ => MarkerSymbol (SvgMarker l)
  | _ => s
  end.

Record QgsRendererCategory : Type := {
  categoryValue : json;
  categorySymbol : QgsSymbol;
  categoryLabel : string;
}.

Record QgsRendererRange : Type := {
  lowerValue : float;
  upperValue : float;
  rangeSymbol : QgsSymbol;
  rangeLabel : string;
}.

Inductive GraduatedMode : Type :=
| EqualInterval
| Custom.

Inductive QgsFeatureRenderer : Type :=
| QgsSingleSymbolRenderer (symbol : QgsSymbol)
| QgsGraduatedSymbolRenderer (attr : string) (ranges : list QgsRendererRange)
    (mode : GraduatedMode)
| QgsCategorizedSymbolRenderer (attr : string)
    (categories : list QgsRendererCategory).

(** *** Style documents

    The content of a [.qml] file.  A vector style saved with the
    [Symbology] category holds the feature renderer; a raster style
    saved with all categories holds the renderer and the settings of
    the brightness and saturation filters. *)
Record RasterStyle : Type := {
  styleRenderer : QgsRasterRenderer;
  styleBrightness : Z;
  styleContrast : Z;
  styleGamma : float;
  styleSaturation : Z;
}.

Inductive Qml : Type :=
| VectorQml (r : QgsFeatureRenderer)
| RasterQml (r : RasterStyle).

(** [layer.saveNamedStyle(path, AllStyleCategories)] writes: *)
Definition raster_style_of (l : QgsRasterLayer) : RasterStyle :=
  {| styleRenderer := renderer l; styleBrightness := brightness l;
     styleContrast := contrast l; styleGamma := gamma l;
     styleSaturation := saturation l |}.

(** [layer.loadNamedStyle(path)] on a raster layer: a raster document
    replaces the layer's styling, anything else leaves it as it was. *)
Definition load_raster_style (d : option Qml) (l : QgsRasterLayer) : QgsRasterLayer :=
  match d with
  | Some (RasterQml s) =>
      {| renderer := styleRenderer s; brightness := styleBrightness s;
         contrast := styleContrast s; gamma := styleGamma s;
         saturation := styleSaturation s; dataProvider := dataProvider l |}
  | _ => l
  end.

End Qgs.

(** ** [raster/renderer.py] *)

Module RasterSymbologyRenderer.
Import Qgs.

(** [RasterSymbologyRenderer.Type]; the value of a member is the type
    name its QGIS renderer reports. *)
Inductive Type_ : Type :=
| SINGLE_BAND_GRAY
| SINGLE_BAND_PSEUDOCOLOR
| MULTI_BAND_COLOR.

Definition value (t : Type_) : string :=
  match t with
  | SINGLE_BAND_GRAY => renderer_type (Gray new_gray)
  | SINGLE_BAND_PSEUDOCOLOR => renderer_type (Pseudo new_pseudo)
  | MULTI_BAND_COLOR => renderer_type (Multi new_multi)
  end.

(** The instance attributes.  The eight (with the pseudocolour loader,
    ten) optional bounds [gray_min], [gray_max], [red_min], ... are kept
    by attribute name; an absent name is an attribute that is [None]. *)
Record t : Type := {
  renderer : option QgsRasterRenderer;
  contrast_algorithm : option ContrastEnhancementAlgorithm;
  contrast_limits : Limits;
  bounds : gmap string float;
}.

Definition with_renderer (r : QgsRasterRenderer) (self : t) : t :=
  {| renderer := Some r; contrast_algorithm := contrast_algorithm self;
     contrast_limits := contrast_limits self; bounds := bounds self |}.

Definition with_algorithm (a : ContrastEnhancementAlgorithm) (self : t) : t :=
  {| renderer := renderer self; contrast_algorithm := Some a;
     contrast_limits := contrast_limits self; bounds := bounds self |}.

Definition with_limits (l : Limits) (self : t) : t :=
  {| renderer := renderer self; contrast_algorithm := contrast_algorithm self;
     contrast_limits := l; bounds := bounds self |}.

Definition with_bound (name : string) (v : float) (self : t) : t :=
  {| renderer := renderer self; contrast_algorithm := contrast_algorithm self;
     contrast_limits := contrast_limits self;
     bounds := <[name := v]> (bounds self) |}.

(** [__init__] *)
Definition init (name : json) : t :=
  {| renderer :=
       if is_str (value SINGLE_BAND_GRAY) name then Some (Gray new_gray)
       else if is_str (value MULTI_BAND_COLOR) name then Some (Multi new_multi)
       else if is_str (value SINGLE_BAND_PSEUDOCOLOR) name then Some (Pseudo new_pseudo)
       else None;
     contrast_algorithm := None;
     contrast_limits := MinMax;
     bounds := ∅ |}.

(** The [type] property: reading it on an instance without renderer
    calls [type()] on [None]. *)
Definition type (self : t) : res (option Type_) :=
  match renderer self with
  | None => Raise AttributeError
  | Some r =>
      let n := renderer_type r in
      Ok (if String.eqb n (value SINGLE_BAND_GRAY) then Some SINGLE_BAND_GRAY
          else if String.eqb n (value MULTI_BAND_COLOR) then Some MULTI_BAND_COLOR
          else if String.eqb n (value SINGLE_BAND_PSEUDOCOLOR)
               then Some SINGLE_BAND_PSEUDOCOLOR
          else None)
  end.

(** [_load_contrast_enhancement] *)
Definition _load_contrast_enhancement (self : t) (properties : json) : res t :=
  alg ← getitem properties "algorithm";
  let self :=
    if is_str "StretchToMinimumMaximum" alg
    then with_algorithm StretchToMinimumMaximum self
    else if is_str "NoEnhancement" alg
    then with_algorithm NoEnhancement self
    else self in
  limits ← getitem properties "limits_min_max";
  Ok (if is_str "UserDefined" limits then with_limits None_ self
      else if is_str "MinMax" limits then with_limits MinMax self
      else self).

(** The block shared by the three property loaders: under user-defined
    limits, the [min] and [max] of a band description are read into the
    named attributes. *)
Definition load_min_max (self : t) (b : json) (min_name max_name : string) : res t :=
  if decide (contrast_limits self = None_) then
    has_min ← py_in "min" b;
    self ← (if has_min : bool
            then v ← getitem b "min" ≫= py_float; Ok (with_bound min_name v self)
            else Ok self);
    has_max ← py_in "max" b;
    if has_max : bool
    then v ← getitem b "max" ≫= py_float; Ok (with_bound max_name v self)
    else Ok self
  else Ok self.

Definition update_multi (f : QgsMultiBandColorRenderer → QgsMultiBandColorRenderer)
    (self : t) : res t :=
  match renderer self with
  | Some (Multi m) => Ok (with_renderer (Multi (f m)) self)
  | _ => Raise AttributeError
  end.

Definition update_gray (f : QgsSingleBandGrayRenderer → QgsSingleBandGrayRenderer)
    (self : t) : res t :=
  match renderer self with
  | Some (Gray g) => Ok (with_renderer (Gray (f g)) self)
  | _ => Raise AttributeError
  end.

Definition update_pseudo
    (f : QgsSingleBandPseudoColorRenderer → QgsSingleBandPseudoColorRenderer)
    (self : t) : res t :=
  match renderer self with
  | Some (Pseudo p) => Ok (with_renderer (Pseudo (f p)) self)
  | _ => Raise AttributeError
  end.

Definition setRedBand (b : Z) (m : QgsMultiBandColorRenderer) :=
  {| redBand := b; greenBand := greenBand m; blueBand := blueBand m;
     redContrastEnhancement := redContrastEnhancement m;
     greenContrastEnhancement := greenContrastEnhancement m;
     blueContrastEnhancement := blueContrastEnhancement m;
     multiLimits := multiLimits m |}.

Definition setGreenBand (b : Z) (m : QgsMultiBandColorRenderer) :=
  {| redBand := redBand m; greenBand := b; blueBand := blueBand m;
     redContrastEnhancement := redContrastEnhancement m;
     greenContrastEnhancement := greenContrastEnhancement m;
     blueContrastEnhancement := blueContrastEnhancement m;
     multiLimits := multiLimits m |}.

Definition setBlueBand (b : Z) (m : QgsMultiBandColorRenderer) :=
  {| redBand := redBand m; greenBand := greenBand m; blueBand := b;
     redContrastEnhancement := redContrastEnhancement m;
     greenContrastEnhancement := greenContrastEnhancement m;
     blueContrastEnhancement := blueContrastEnhancement m;
     multiLimits := multiLimits m |}.

Definition setGrayBand (b : Z) (g : QgsSingleBandGrayRenderer) :=
  {| grayBand := b; gradient := gradient g;
     contrastEnhancement := contrastEnhancement g; grayLimits := grayLimits g |}.

Definition setGradient (d : Gradient) (g : QgsSingleBandGrayRenderer) :=
  {| grayBand := grayBand g; gradient := d;
     contrastEnhancement := contrastEnhancement g; grayLimits := grayLimits g |}.

Definition setBand (b : Z) (p : QgsSingleBandPseudoColorRenderer) :=
  {| band := b; shader := shader p; classificationMin := classificationMin p;
     classificationMax := classificationMax p; pseudoLimits := pseudoLimits p |}.

Definition setShader (s : QgsRasterShader) (p : QgsSingleBandPseudoColorRenderer) :=
  {| band := band p; shader := Some s; classificationMin := classificationMin p;
     classificationMax := classificationMax p; pseudoLimits := pseudoLimits p |}.

(** One colour channel of [_load_multibandcolor_properties]. *)
Definition load_channel (key : string)
    (set_band : Z → QgsMultiBandColorRenderer → QgsMultiBandColorRenderer)
    (min_name max_name : string) (self : t) (properties : json) : res t :=
  present ← py_in key properties;
  if present : bool then
    c ← getitem properties key;
    b ← getitem c "band" ≫= py_int;
    self ← update_multi (set_band b) self;
    load_min_max self c min_name max_name
  else Ok self.

(** [_load_multibandcolor_properties]: red, then blue, then green. *)
Definition _load_multibandcolor_properties (self : t) (properties : json) : res t :=
  self ← load_channel "red" setRedBand "red_min" "red_max" self properties;
  self ← load_channel "blue" setBlueBand "blue_min" "blue_max" self properties;
  load_channel "green" setGreenBand "green_min" "green_max" self properties.

(** [_load_singlebandgray_properties] *)
Definition _load_singlebandgray_properties (self : t) (properties : json) : res t :=
  has_gray ← py_in "gray" properties;
  self ← (if has_gray : bool then
            gray ← getitem properties "gray";
            b ← getitem gray "band" ≫= py_int;
            self ← update_gray (setGrayBand b) self;
            load_min_max self gray "gray_min" "gray_max"
          else Ok self);
  has_gradient ← py_in "color_gradient" properties;
  if has_gradient : bool then
    g ← getitem properties "color_gradient";
    if is_str "blacktowhite" g then update_gray (setGradient BlackToWhite) self
    else if is_str "whitetoblack" g then update_gray (setGradient WhiteToBlack) self
    else Ok self
  else Ok self.

(** [QgsStyle().defaultStyle().colorRamp(name)] takes a string. *)
Definition colorRamp (name : json) : res string :=
  match name with
  | JStr n => Ok n
  | _ => Raise TypeError
  end.

(** [_load_singlebandpseudocolor_properties] *)
Definition _load_singlebandpseudocolor_properties (self : t) (properties : json) : res t :=
  has_band ← py_in "band" properties;
  self ← (if has_band : bool then
            b ← getitem properties "band";
            n ← getitem b "band" ≫= py_int;
            self ← update_pseudo (setBand n) self;
            load_min_max self b "band_min" "band_max"
          else Ok self);
  has_ramp ← py_in "ramp" properties;
  if has_ramp : bool then
    ramp ← getitem properties "ramp";
    has_interpolation ← py_in "interpolation" ramp;
    shader_type ← (if has_interpolation : bool then
                     i ← getitem ramp "interpolation";
                     Ok (if is_str "Discrete" i then Discrete
                         else if is_str "Exact" i then Exact
                         else Interpolated)
                   else Ok Interpolated);
    has_name ← py_in "name" ramp;
    color_ramp ← (if has_name : bool then getitem ramp "name" ≫= colorRamp
                  else Ok "Spectral");
    update_pseudo
      (setShader {| sourceColorRamp := color_ramp; colorRampType := shader_type |})
      self
  else Ok self.

(** [load]: returns the instance as the call leaves it, and the pair the
    method returns. *)
Definition load (self : t) (properties : json) : res (t * (bool * string)) :=
  match renderer self with
  | None => Ok (self, (false, "Invalid renderer"))
  | Some _ =>
      has_ce ← py_in "contrast_enhancement" properties;
      self ← (if has_ce : bool
              then getitem properties "contrast_enhancement"
                     ≫= _load_contrast_enhancement self
              else Ok self);
      ty ← type self;
      self ← match ty with
             | Some MULTI_BAND_COLOR => _load_multibandcolor_properties self properties
             | Some SINGLE_BAND_GRAY => _load_singlebandgray_properties self properties
             | Some SINGLE_BAND_PSEUDOCOLOR =>
                 _load_singlebandpseudocolor_properties self properties
             | None => Ok self
             end;
      Ok (self, (true, ""))
  end.

(** [QgsContrastEnhancement(ce)]: the copy constructor does not take
    [None]. *)
Definition copy_enhancement (ce : option QgsContrastEnhancement)
    : res QgsContrastEnhancement :=
  match ce with
  | Some c => Ok c
  | None => Raise TypeError
  end.

(** Accessors that exist on one renderer class only. *)
Definition as_gray (r : QgsRasterRenderer) : res QgsSingleBandGrayRenderer :=
  match r with Gray g => Ok g | _ => Raise AttributeError end.

Definition as_multi (r : QgsRasterRenderer) : res QgsMultiBandColorRenderer :=
  match r with Multi m => Ok m | _ => Raise AttributeError end.

Definition setGrayEnhancement (ce : QgsContrastEnhancement)
    (g : QgsSingleBandGrayRenderer) :=
  {| grayBand := grayBand g; gradient := gradient g;
     contrastEnhancement := Some ce; grayLimits := grayLimits g |}.

Definition setEnhancements (r g b : QgsContrastEnhancement)
    (m : QgsMultiBandColorRenderer) :=
  {| redBand := redBand m; greenBand := greenBand m; blueBand := blueBand m;
     redContrastEnhancement := Some r;
     greenContrastEnhancement := Some g;
     blueContrastEnhancement := Some b;
     multiLimits := multiLimits m |}.

(** The "early break" test of the two refreshers. *)
Definition nothing_to_stretch (alg : ContrastEnhancementAlgorithm) : bool :=
  bool_decide (alg = NoEnhancement) || bool_decide (alg = UserDefinedEnhancement).

Definition with_stats (stats : float * float) (ce : QgsContrastEnhancement) :=
  setMaximumValue (snd stats) (setMinimumValue (fst stats) ce).

(** [_refresh_min_max_singlebandgray] *)
Definition _refresh_min_max_singlebandgray : st QgsRasterLayer unit :=
  layer ← get;
  g ← lift (as_gray (Qgs.renderer layer));
  ce ← lift (copy_enhancement (contrastEnhancement g));
  if nothing_to_stretch (contrastEnhancementAlgorithm ce) then mret tt
  else
    let ce :=
      if decide (grayLimits g = MinMax)
      then with_stats (bandStatistics (dataProvider layer) 1) ce
      else ce in
    put (setRenderer (Gray (setGrayEnhancement ce g)) layer).

(** [_refresh_min_max_multibandcolor] *)
Definition _refresh_min_max_multibandcolor : st QgsRasterLayer unit :=
  layer ← get;
  m ← lift (as_multi (Qgs.renderer layer));
  red_ce ← lift (copy_enhancement (redContrastEnhancement m));
  green_ce ← lift (copy_enhancement (greenContrastEnhancement m));
  blue_ce ← lift (copy_enhancement (blueContrastEnhancement m));
  if nothing_to_stretch (contrastEnhancementAlgorithm red_ce) then mret tt
  else
    let p := dataProvider layer in
    let '(red_ce, green_ce, blue_ce) :=
      if decide (multiLimits m = MinMax)
      then (with_stats (bandStatistics p (redBand m)) red_ce,
            with_stats (bandStatistics p (greenBand m)) green_ce,
            with_stats (bandStatistics p (blueBand m)) blue_ce)
      else (red_ce, green_ce, blue_ce) in
    put (setRenderer (Multi (setEnhancements red_ce green_ce blue_ce m)) layer).

(** [_refresh_min_max_singlebandpseudocolor] *)
Definition _refresh_min_max_singlebandpseudocolor : st QgsRasterLayer unit :=
  mret tt.

(** [refresh_min_max] *)
Definition refresh_min_max (self : t) : st QgsRasterLayer unit :=
  layer ← get;
  if decide (limits (Qgs.renderer layer) = None_) then mret tt
  else
    ty ← lift (type self);
    match ty with
    | Some SINGLE_BAND_GRAY => _refresh_min_max_singlebandgray
    | Some MULTI_BAND_COLOR => _refresh_min_max_multibandcolor
    | Some SINGLE_BAND_PSEUDOCOLOR => _refresh_min_max_singlebandpseudocolor
    | None => mret tt
    end.

Definition limits_name (l : Limits) : json :=
  JStr (if decide (l = MinMax) then "MinMax" else "UserDefined").

Definition algorithm_name (a : ContrastEnhancementAlgorithm) : json :=
  JStr (if decide (a = StretchToMinimumMaximum)
        then "StretchToMinimumMaximum" else "NoEnhancement").

Definition band_json (b : Z) (ce : QgsContrastEnhancement) : json :=
  JDict [("band", JInt b); ("min", JReal (minimumValue ce));
         ("max", JReal (maximumValue ce))].

(** [_multibandcolor_properties] *)
Definition _multibandcolor_properties (r : QgsRasterRenderer) : res json :=
  m ← as_multi r;
  match redContrastEnhancement m with
  | Some red_ce =>
      blue_ce ← copy_enhancement (blueContrastEnhancement m);
      green_ce ← copy_enhancement (greenContrastEnhancement m);
      Ok (JDict
        [("contrast_enhancement",
          JDict [("limits_min_max", limits_name (multiLimits m));
                 ("algorithm", algorithm_name (contrastEnhancementAlgorithm red_ce))]);
         ("red", band_json (redBand m) red_ce);
         ("blue", band_json (blueBand m) blue_ce);
         ("green", band_json (greenBand m) green_ce)])
  | None =>
      Ok (JDict
        [("contrast_enhancement",
          JDict [("limits_min_max", limits_name (multiLimits m));
                 ("algorithm", JStr "StretchToMinimumMaximum")]);
         ("red", JDict [("band", JInt (redBand m))]);
         ("blue", JDict [("band", JInt (blueBand m))]);
         ("green", JDict [("band", JInt (greenBand m))])])
  end.

(** [_singlebandgray_properties] *)
Definition _singlebandgray_properties (r : QgsRasterRenderer) : res json :=
  g ← as_gray r;
  match contrastEnhancement g with
  | None => Raise AttributeError
  | Some ce =>
      Ok (JDict
        [("gray", band_json (grayBand g) ce);
         ("color_gradient",
          JStr (match gradient g with
                | BlackToWhite => "BlackToWhite"
                | WhiteToBlack => "WhiteToBlack"
                end));
         ("contrast_enhancement",
          JDict [("algorithm", algorithm_name (contrastEnhancementAlgorithm ce));
                 ("limits_min_max", limits_name (grayLimits g))])])
  end.

(** [_singlebandpseudocolor_properties] *)
Definition _singlebandpseudocolor_properties (r : QgsRasterRenderer) : res json :=
  Ok (JDict []).

(** [style_to_json(path)]: [name] is the stem of the path, [doc] the
    document found there, [empty] the layer opened on the bundled
    [empty.tif]. *)
Definition style_to_json (empty : QgsRasterLayer) (name : string)
    (doc : option Qml) : res (json * string) :=
  let rl := load_raster_style doc empty in
  let r := Qgs.renderer rl in
  renderer_type ← type (init (JStr (Qgs.renderer_type r)));
  props ← match renderer_type with
          | Some SINGLE_BAND_GRAY => _singlebandgray_properties r
          | Some MULTI_BAND_COLOR => _multibandcolor_properties r
          | Some SINGLE_BAND_PSEUDOCOLOR => _singlebandpseudocolor_properties r
          | None => Ok (JDict [])
          end;
  Ok (JDict
        [("name", JStr name);
         ("type", JStr "raster");
         ("symbology",
          JDict [("type", JStr (Qgs.renderer_type r)); ("properties", props)]);
         ("rendering",
          JDict [("brightness", JInt (brightness rl));
                 ("contrast", JInt (contrast rl));
                 ("gamma", JReal (gamma rl));
                 ("saturation", JInt (saturation rl))])],
      "").

End RasterSymbologyRenderer.

(** ** Layers, projects and the persisted state *)

Module Store.
Import Qgs.

Inductive StorageBackend : Type :=
| FILESYSTEM
| POSTGRESQL.

(** [Qgis.LayerType], for the two kinds the engine creates *)
Inductive LayerType : Type :=
| Vector
| Raster.

#[global] Instance layer_type_eq_dec : EqDecision LayerType.
Proof. solve_decision. Defined.

(** [Qgis.GeometryType] *)
Inductive GeometryType : Type :=
| Point
| Line
| Polygon
| Unknown
| Null.

(** [geometryType().name.lower()] *)
Definition geometry_name (g : GeometryType) : string :=
  match g with
  | Point => "point"
  | Line => "line"
  | Polygon => "polygon"
  | Unknown => "unknown"
  | Null => "null"
  end.

(** A valid [QDateTime], as an instant. *)
Definition QDateTime : Type := Z.

(** *** Name-keyed maps of the rendering library

    [QgsMapLayerStyleManager] keeps its styles in a map ordered by
    name, and [styles()] lists the names in that order. *)
Fixpoint qmap_insert {A} (k : string) (v : A) (m : list (string * A))
    : list (string * A) :=
  match m with
  | [] => [(k, v)]
  | (k', v') :: m' =>
      match String.compare k k' with
      | Lt => (k, v) :: m
      | Eq => (k, v) :: m'
      | Gt => (k', v') :: qmap_insert k v m'
      end
  end.

Definition qmap_remove {A} (k : string) (m : list (string * A)) : list (string * A) :=
  filter (fun kv => negb (String.eqb k (fst kv))) m.

Definition keys {A} (m : list (string * A)) : list string := map fst m.

Definition contains_key {A} (k : string) (m : list (string * A)) : bool :=
  existsb (String.eqb k) (keys m).

(** *** Map layers *)

(** What a layer currently draws with. *)
Inductive Styling : Type :=
| VectorStyling (r : QgsFeatureRenderer)
| RasterStyling (l : QgsRasterLayer).

(** [QgsMapLayerStyle.readFromLayer] *)
Definition readFromLayer (s : Styling) : Qml :=
  match s with
  | VectorStyling r => VectorQml r
  | RasterStyling l => RasterQml (raster_style_of l)
  end.

(** Applying a style document to a layer ([loadNamedStyle],
    [QgsMapLayerStyle.writeToLayer]): a document of the layer's kind
    replaces its styling; a missing document or one of the other kind
    leaves the layer as it was. *)
Definition apply_document (d : option Qml) (s : Styling) : Styling :=
  match s, d with
  | VectorStyling _, Some (VectorQml r) => VectorStyling r
  | RasterStyling l, Some (RasterQml _) => RasterStyling (load_raster_style d l)
  | _, _ => s
  end.

(** The stored entry of the current style holds no data ([None]): the
    layer itself is the current style. *)
Record QgsMapLayerStyleManager : Type := {
  mStyles : list (string * option Qml);
  mCurrentStyle : string;
}.

(** A new layer has the single style ["default"], which is current. *)
Definition new_manager : QgsMapLayerStyleManager :=
  {| mStyles := [("default", None)]; mCurrentStyle := "default" |}.

Record QgsMapLayer : Type := {
  id : string;
  name : string;
  source : string;
  providerType : string;
  isValid : bool;
  error : string;
  crs : string;
  extent : string;
  geometryType : GeometryType;
  temporalRange : option (QDateTime * QDateTime);
  styling : Styling;
  styleManager : QgsMapLayerStyleManager;
}.

(** [layer.type()] *)
Definition type (l : QgsMapLayer) : LayerType :=
  match styling l with
  | VectorStyling _ => Vector
  | RasterStyling _ => Raster
  end.

Definition setCrs (c : string) (l : QgsMapLayer) : QgsMapLayer :=
  {| id := id l; name := name l; source := source l; providerType := providerType l;
     isValid := isValid l; error := error l; crs := c; extent := extent l;
     geometryType := geometryType l; temporalRange := temporalRange l;
     styling := styling l; styleManager := styleManager l |}.

Definition setFixedTemporalRange (r : QDateTime * QDateTime) (l : QgsMapLayer)
    : QgsMapLayer :=
  {| id := id l; name := name l; source := source l; providerType := providerType l;
     isValid := isValid l; error := error l; crs := crs l; extent := extent l;
     geometryType := geometryType l; temporalRange := Some r;
     styling := styling l; styleManager := styleManager l |}.

Definition with_style (s : Styling) (m : QgsMapLayerStyleManager) (l : QgsMapLayer)
    : QgsMapLayer :=
  {| id := id l; name := name l; source := source l; providerType := providerType l;
     isValid := isValid l; error := error l; crs := crs l; extent := extent l;
     geometryType := geometryType l; temporalRange := temporalRange l;
     styling := s; styleManager := m |}.

(** [styleManager().styles()] *)
Definition styles (l : QgsMapLayer) : list string := keys (mStyles (styleManager l)).

(** [styleManager().currentStyle()] *)
Definition currentStyle (l : QgsMapLayer) : string := mCurrentStyle (styleManager l).

(** [styleManager().style(name)]: the current style is read off the
    layer, another one out of the map. *)
Definition style (n : string) (l : QgsMapLayer) : option Qml :=
  if String.eqb n (currentStyle l) then Some (readFromLayer (styling l))
  else default None (assoc n (mStyles (styleManager l))).

(** [styleManager().addStyle(name, style)]: refused for a name already
    there; a style without data is replaced by the layer's own. *)
Definition addStyle (n : string) (s : option Qml) (l : QgsMapLayer) : QgsMapLayer :=
  let m := styleManager l in
  if contains_key n (mStyles m) then l
  else
    let s := match s with Some q => q | None => readFromLayer (styling l) end in
    with_style (styling l)
      {| mStyles := qmap_insert n (Some s) (mStyles m);
         mCurrentStyle := mCurrentStyle m |} l.

(** [styleManager().setCurrentStyle(name)]: the layer's styling is saved
    under the old name, the named style is applied to the layer and its
    stored data dropped. *)
Definition setCurrentStyle (n : string) (l : QgsMapLayer) : QgsMapLayer :=
  let m := styleManager l in
  if negb (contains_key n (mStyles m)) then l
  else if String.eqb n (mCurrentStyle m) then l
  else
    let saved := qmap_insert (mCurrentStyle m) (Some (readFromLayer (styling l)))
                   (mStyles m) in
    with_style (apply_document (default None (assoc n saved)) (styling l))
      {| mStyles := qmap_insert n None saved; mCurrentStyle := n |} l.

(** [styleManager().removeStyle(name)]: refused for an unknown name and
    for the last style; removing the current style makes the first
    remaining one current. *)
Definition removeStyle (n : string) (l : QgsMapLayer) : QgsMapLayer :=
  let m := styleManager l in
  if negb (contains_key n (mStyles m)) then l
  else if (length (mStyles m) =? 1)%nat then l
  else
    let rest := qmap_remove n (mStyles m) in
    if String.eqb n (mCurrentStyle m) then
      match rest with
      | (n', s') :: _ =>
          with_style (apply_document s' (styling l))
            {| mStyles := qmap_insert n' None rest; mCurrentStyle := n' |} l
      | [] => l
      end
    else with_style (styling l) {| mStyles := rest; mCurrentStyle := mCurrentStyle m |} l.

(** [layer.clone()]: same data and styling, a style manager of its own
    that receives the styles of the original by [addStyle]. *)
Definition clone (l : QgsMapLayer) : QgsMapLayer :=
  fold_left (fun c n => addStyle n (style n l) c) (styles l)
    (with_style (styling l) new_manager l).

(** [layer.loadNamedStyle(path)], given the document at [path] if any *)
Definition loadNamedStyle (d : option Qml) (l : QgsMapLayer) : QgsMapLayer :=
  with_style (apply_document d (styling l)) (styleManager l) l.

(** *** Projects *)

Record QgsProject : Type := {
  mapLayers : list QgsMapLayer;
  projectCrs : string;
  author : string;
}.

(** [QgsProject()] *)
Definition new_project : QgsProject :=
  {| mapLayers := []; projectCrs := ""; author := "" |}.

Definition with_layers (ls : list QgsMapLayer) (p : QgsProject) : QgsProject :=
  {| mapLayers := ls; projectCrs := projectCrs p; author := author p |}.

(** [project.mapLayersByName(name)] *)
Definition mapLayersByName (n : string) (p : QgsProject) : list QgsMapLayer :=
  filter (fun l => String.eqb (name l) n) (mapLayers p).

(** [project.addMapLayer(layer)].  The project keeps its layers in a
    map keyed by layer identifier; the list here keeps them in the
    order in which they were added. *)
Definition addMapLayer (l : QgsMapLayer) (p : QgsProject) : QgsProject :=
  with_layers (mapLayers p ++ [l]) p.

(** [project.removeMapLayers(ids)] *)
Definition removeMapLayers (ids : list string) (p : QgsProject) : QgsProject :=
  with_layers (filter (fun l => negb (existsb (String.eqb (id l)) ids)) (mapLayers p)) p.

(** A method called on the first layer of a given name changes that
    layer inside the project it was read from. *)
Fixpoint update_first (n : string) (l' : QgsMapLayer) (ls : list QgsMapLayer)
    : list QgsMapLayer :=
  match ls with
  | [] => []
  | l :: ls' => if String.eqb (name l) n then l' :: ls' else l :: update_first n l' ls'
  end.

End Store.

(** ** The deployment and the persisted state *)

Module World.
Import Qgs Store.

(** What opening a vector datasource yields. *)
Record VectorSource : Type := {
  vectorValid : bool;
  vectorError : string;
  vectorCrs : string;
  vectorExtent : string;
  vectorGeometry : GeometryType;
  vectorRenderer : QgsFeatureRenderer;
}.

(** Modelled from the spec: [RasterOverview] ([raster/overview.py]) is
    not among the sources.  Per §4.4 an overview is built when one is
    requested and no pyramid exists, and building may fail with an
    error message: [is_valid] tells whether a pyramid exists, [build]
    is the pair that building returns. *)
Record RasterOverview : Type := {
  is_valid : bool;
  build : bool * string;
}.

(** What opening a raster datasource yields. *)
Record RasterSource : Type := {
  rasterValid : bool;
  rasterError : string;
  rasterCrs : string;
  rasterExtent : string;
  rasterLayer : QgsRasterLayer;
  rasterOverview : RasterOverview;
}.

(** The deployment: process-wide configuration ([utils.config],
    [StorageBackend]) and the collaborators outside the engine. *)
Record Env : Type := {
  (** [StorageBackend.type()] *)
  storage_backend : StorageBackend;
  (** [config().mapproxy_projects_dir]; empty when there is no cache *)
  mapproxy_projects_dir : string;
  (** [QgsDataSourceUri]: the connection string of table [t], geometry
      column [wkb_geometry], schema [public], in the configured
      database *)
  datasource_uri : string → string;
  (** [QgsVectorLayer(uri, name, provider)] *)
  vector_source : string → string → VectorSource;
  (** [QgsRasterLayer(uri, name, provider)] *)
  raster_source : string → string → RasterSource;
  (** the identifier a new layer of that name receives *)
  new_layer_id : string → string;
  (** [crs.createFromString(definition)]: the authority identifier of
      the resulting reference system, empty when there is none *)
  crs_from_string : string → string;
  (** the layer opened on the bundled [empty.tif] *)
  empty_tif : QgsRasterLayer;
  (** whether the project storage accepts a write, and the error the
      project reports when it does not *)
  storage_writable : bool;
  storage_error : string;
  (** whether the cache mirror accepts a write *)
  mirror_writable : bool;
  (** [QDateTime.fromString(text, format)], [None] for an invalid date *)
  fromString : string → string → option QDateTime;
  (** whether an enumeration member of value 0, here [NoEnhancement],
      counts as true in a condition; this depends on the binding *)
  zero_member_truthy : bool;
}.

(** The three rows of table [styles_default] of [qsa.db].  No statement
    of the engine adds or deletes a row. *)
Record DefaultStyles : Type := {
  line : string;
  polygon : string;
  point : string;
}.

(** Modelled from the spec: the cache mirror ([mapproxy.py]) is not
    among the sources.  Per §3 and §6 it is a document keyed by layer
    name, each entry holding a bounding box, a numeric CRS code, a
    raster flag and an optional temporal instant. *)
Record CacheMirrorEntry : Type := {
  bbox : list float;
  epsg : Z;
  is_raster : bool;
  temporal : option QDateTime;
}.

(** Everything an operation on one project can read and change. *)
Record t : Type := {
  (** the directory of the project exists *)
  project_dir : bool;
  (** the directory of all projects exists *)
  projects_dir : bool;
  (** the project is listed by the relational catalog *)
  listed : bool;
  (** the descriptor that [project.read] finds, if any *)
  descriptor : option QgsProject;
  (** the [.qml] files of the project directory, by stem *)
  qml : gmap string Qml;
  (** [qsa.db], once created *)
  qsa_db : option DefaultStyles;
  (** the cache mirror document, when there is a readable one *)
  mirror : option (list (string * CacheMirrorEntry));
  (** the layers that have tiles in the cache *)
  tiles : list string;
}.

Definition set_dirs (pd psd ls : bool) (w : t) : t :=
  {| project_dir := pd; projects_dir := psd; listed := ls;
     descriptor := descriptor w; qml := qml w; qsa_db := qsa_db w;
     mirror := mirror w; tiles := tiles w |}.

Definition set_descriptor (d : option QgsProject) (w : t) : t :=
  {| project_dir := project_dir w; projects_dir := projects_dir w; listed := listed w;
     descriptor := d; qml := qml w; qsa_db := qsa_db w;
     mirror := mirror w; tiles := tiles w |}.

Definition set_qml (q : gmap string Qml) (w : t) : t :=
  {| project_dir := project_dir w; projects_dir := projects_dir w; listed := listed w;
     descriptor := descriptor w; qml := q; qsa_db := qsa_db w;
     mirror := mirror w; tiles := tiles w |}.

Definition set_qsa_db (d : option DefaultStyles) (w : t) : t :=
  {| project_dir := project_dir w; projects_dir := projects_dir w; listed := listed w;
     descriptor := descriptor w; qml := qml w; qsa_db := d;
     mirror := mirror w; tiles := tiles w |}.

Definition set_mirror (m : option (list (string * CacheMirrorEntry))) (w : t) : t :=
  {| project_dir := project_dir w; projects_dir := projects_dir w; listed := listed w;
     descriptor := descriptor w; qml := qml w; qsa_db := qsa_db w;
     mirror := m; tiles := tiles w |}.

Definition set_tiles (ts : list string) (w : t) : t :=
  {| project_dir := project_dir w; projects_dir := projects_dir w; listed := listed w;
     descriptor := descriptor w; qml := qml w; qsa_db := qsa_db w;
     mirror := mirror w; tiles := ts |}.

End World.

(** ** The cache synchronizer *)

Module QSAMapProxy.
Import Qgs Store World.

(** Modelled from the spec: the instance attribute of [QSAMapProxy]
    ([mapproxy.py], not among the sources) is the configuration
    document once [read] has loaded it. *)
Definition t : Type := option (list (string * CacheMirrorEntry)).

(** Modelled from the spec: [QSAMapProxy(name)] of [mapproxy.py]; a new
    instance has loaded nothing. *)
Definition init : t := None.

(** Modelled from the spec: [create()] of [mapproxy.py]; §4.4: project
    creation "creates an empty CacheMirrorEntry set". *)
Definition create (env : Env) : st World.t unit :=
  modify (fun w => if mirror_writable env then set_mirror (Some []) w else w).

(** Modelled from the spec: [read()] of [mapproxy.py]; §6 lists [read()]
    and the callers take a (success, message) pair from it: it succeeds
    exactly when there is a readable document. *)
Definition read (mp : t) : st World.t (t * (bool * string)) :=
  w ← get;
  match mirror w with
  | Some cfg => mret (Some cfg, (true, ""))
  | None => mret (mp, (false, "Cannot read the cache mirror"))
  end.

(** Modelled from the spec: [add_layer(...)] of [mapproxy.py]; §4.4: "a
    CacheMirrorEntry is derived from the layer's bounding box and
    numeric CRS code".  It needs a loaded document. *)
Definition add_layer (mp : t) (n : string) (b : list float) (code : Z)
    (raster : bool) (dt : option QDateTime) : t * (bool * string) :=
  match mp with
  | Some cfg =>
      (Some (filter (fun kv => negb (String.eqb n (fst kv))) cfg ++
             [(n, {| bbox := b; epsg := code; is_raster := raster; temporal := dt |})]),
       (true, ""))
  | None => (None, (false, "Invalid cache mirror configuration"))
  end.

(** Modelled from the spec: [remove_layer(name)] of [mapproxy.py]; §4.4:
    "retracts its CacheMirrorEntry". *)
Definition remove_layer (mp : t) (n : string) : t :=
  filter (fun kv => negb (String.eqb n (fst kv))) <$> mp.

(** Modelled from the spec: [write()] of [mapproxy.py]; §6 lists
    [write()]: the loaded document replaces the mirror. *)
Definition write (env : Env) (mp : t) : st World.t unit :=
  modify (fun w =>
    match mp with
    | Some cfg => if mirror_writable env then set_mirror (Some cfg) w else w
    | None => w
    end).

(** Modelled from the spec: [clear_cache(layer_name)] of [mapproxy.py];
    §4.4: "invalidates any existing cache tiles for this layer". *)
Definition clear_cache (layer_name : string) : st World.t unit :=
  modify (fun w =>
    set_tiles (filter (fun n => negb (String.eqb layer_name n)) (tiles w)) w).

(** Modelled from the spec: [remove()] of [mapproxy.py]; §4.4: removing
    a project "deletes the cache mirror". *)
Definition remove (env : Env) : st World.t unit :=
  modify (fun w => if mirror_writable env then set_mirror None w else w).

End QSAMapProxy.

(** ** [project.py] *)

Module QSAProject.
Import Qgs Store World.

(** What a method hands back to its caller: the (success, message) pair
    of its annotation, or a bare boolean. *)
Inductive ret : Type :=
| Bare (b : bool)
| Pair (b : bool) (msg : string).

Definition dquote : string := String (ascii_of_nat 34) EmptyString.

(** [_layer_type] *)
Definition _layer_type (layer_type : string) : option LayerType :=
  if String.eqb (lower layer_type) "vector" then Some Vector
  else if String.eqb (lower layer_type) "raster" then Some Raster
  else None.

(** [_layer_provider] *)
Definition _layer_provider (t : LayerType) (datasource : string) : string :=
  match t with
  | Vector => if contains "table=" datasource then "postgres" else "ogr"
  | Raster => "gdal"
  end.

Definition int_str (s : string) : res Z :=
  match int_of_string s with
  | Some n => Ok n
  | None => Raise ValueError
  end.

Definition float_str (s : string) : res float :=
  match float_of_string s with
  | Some x => Ok x
  | None => Raise ValueError
  end.

(** [_layer_epsg_code] *)
Definition _layer_epsg_code (lyr : QgsMapLayer) : res Z :=
  let authid_items := split ":" (crs lyr) in
  if (length authid_items <? 2)%nat then Ok (-1)%Z
  else index authid_items 1 ≫= int_str.

(** [list(map(float, wkt.replace(",", "").split(" ")))] *)
Definition floats_of_wkt (wkt : string) : res (list float) :=
  foldr (fun s acc => x ← float_str s; xs ← acc; Ok (x :: xs)) (Ok [])
    (split " " (replace "," "" wkt)).

(** [_layer_bbox] *)
Definition _layer_bbox (lyr : QgsMapLayer) : res (list float) :=
  floats_of_wkt (extent lyr).

(** *** The vector codec *)

(** A number handed to the rendering library where it takes a double. *)
Definition py_number (v : json) : res float :=
  match v with
  | JInt n => float_of_int n
  | JReal x => Ok x
  | JBool b => Ok (float_of_Z (if b then 1 else 0))
  | _ => Raise TypeError
  end.

(** A value handed to the rendering library where it takes a string. *)
Definition py_string (v : json) : res string :=
  match v with
  | JStr s => Ok s
  | _ => Raise TypeError
  end.

(** The marker common to the three styles: the colour string is split
    at commas and its first four fields are read as integers; the
    fourth one is read again for the stroke.  The single-symbol style
    reads the colour before the icon path, the other two after it; the
    categorized style sets the size unit after installing the layer,
    the other two before. *)
Definition svg_marker (color symbol_path size : res json)
    (color_first unit_first : bool) : res QgsSymbol :=
  '(c, path) ← (if color_first
                then c ← color; p ← symbol_path ≫= py_string; Ok (c, p)
                else p ← symbol_path ≫= py_string; c ← color; Ok (c, p));
  let testSplit := split "," (py_str c) in
  let symbol := MarkerSymbol (SimpleMarker [] RenderMillimeters) in
  let svg_layer := new_svg path in
  r ← index testSplit 0 ≫= int_str;
  g ← index testSplit 1 ≫= int_str;
  b ← index testSplit 2 ≫= int_str;
  a ← index testSplit 3 ≫= int_str;
  color ← mkQColor r g b a;
  let svg_layer :=
    {| svgPath := svgPath svg_layer; svgColor := color;
       svgStrokeColor := svgStrokeColor svg_layer; svgSize := svgSize svg_layer;
       svgSizeUnit := svgSizeUnit svg_layer |} in
  a' ← index testSplit 3 ≫= int_str;
  stroke ← mkQColor 0 0 0 a';
  let svg_layer :=
    {| svgPath := svgPath svg_layer; svgColor := svgColor svg_layer;
       svgStrokeColor := stroke; svgSize := svgSize svg_layer;
       svgSizeUnit := svgSizeUnit svg_layer |} in
  sz ← size ≫= py_number;
  let svg_layer :=
    {| svgPath := svgPath svg_layer; svgColor := svgColor svg_layer;
       svgStrokeColor := svgStrokeColor svg_layer; svgSize := sz;
       svgSizeUnit := svgSizeUnit svg_layer |} in
  Ok (if unit_first
      then changeSymbolLayer0 svg_layer (setSizeUnit RenderMillimeters symbol)
      else setSizeUnit RenderMillimeters (changeSymbolLayer0 svg_layer symbol)).

(** [_create_single_symbol_style]; [None] is the Python [None] of an
    unsupported symbol. *)
Definition _create_single_symbol_style (symbology : list (string * json))
    : res (option QgsFeatureRenderer) :=
  symbol ← dict_get symbology "symbol";
  properties ← dict_get symbology "properties";
  if is_str "fill" symbol then
    ow ← getitem properties "outline_width";
    os ← getitem properties "outline_style";
    oc ← getitem properties "outline_color";
    c ← getitem properties "color";
    Ok (Some (QgsSingleSymbolRenderer (FillSymbol
      [("outline_width", ow); ("outline_style", os); ("outline_color", oc);
       ("color", c); ("outline_width_unit", JStr "MM")])))
  else if is_str "line" symbol then
    ow ← getitem properties "outline_width";
    os ← getitem properties "outline_style";
    oc ← getitem properties "outline_color";
    Ok (Some (QgsSingleSymbolRenderer (LineSymbol
      [("line_width", ow); ("line_style", os); ("color", oc);
       ("capstyle", JStr "round"); ("line_width_unit", JStr "MM");
       ("joinstyle", JStr "round")])))
  else if is_str "marker" symbol then
    s ← svg_marker (getitem properties "color") (getitem properties "symbol_path")
          (getitem properties "size") true true;
    Ok (Some (QgsSingleSymbolRenderer s))
  else Ok None.

(** The body of a [for] loop that appends to [ranges] *)
Definition for_each {A} (body : json → res A) (l : list json) : res (list A) :=
  foldr (fun v acc => x ← body v; xs ← acc; Ok (x :: xs)) (Ok []) l.

Definition category (categorized_value : json) (symbol : QgsSymbol)
    : res QgsRendererCategory :=
  v ← getitem categorized_value "value";
  Ok {| categoryValue := v; categorySymbol := symbol; categoryLabel := "test" |}.

(** [_create_categorized_style] *)
Definition _create_categorized_style (symbology : list (string * json))
    : res (option QgsFeatureRenderer) :=
  symbol ← dict_get symbology "symbol";
  properties ← dict_get symbology "properties";
  attribut ← getitem properties "attributs";
  ranges ←
    (if is_str "fill" symbol then
       vs ← getitem properties "list_categorized" ≫= iter;
       Some <$> for_each (fun categorized_value =>
         ow ← getitem categorized_value "outline_width";
         os ← getitem categorized_value "outline_style";
         oc ← getitem categorized_value "outline_color";
         c ← getitem categorized_value "color";
         category categorized_value (FillSymbol
           [("outline_width", ow); ("outline_style", os); ("outline_color", oc);
            ("color", c)])) vs
     else if is_str "line" symbol then
       vs ← getitem properties "list_categorized" ≫= iter;
       Some <$> for_each (fun categorized_value =>
         ow ← getitem categorized_value "outline_width";
         os ← getitem categorized_value "outline_style";
         oc ← getitem categorized_value "outline_color";
         category categorized_value (LineSymbol
           [("line_width", ow); ("line_style", os); ("color", oc);
            ("outline_width_unit", JStr "MM")])) vs
     else if is_str "marker" symbol then
       vs ← getitem properties "list_categorized" ≫= iter;
       Some <$> for_each (fun categorized_value =>
         s ← svg_marker (getitem categorized_value "color")
               (getitem categorized_value "symbol_path")
               (getitem categorized_value "size") false false;
         category categorized_value s) vs
     else Ok None);
  match ranges with
  | None => Ok None
  | Some ranges =>
      a ← py_string attribut;
      Ok (Some (QgsCategorizedSymbolRenderer a ranges))
  end.

Definition range (graduated_value : json) (symbol : QgsSymbol)
    : res QgsRendererRange :=
  lo ← getitem graduated_value "min" ≫= py_number;
  hi ← getitem graduated_value "max" ≫= py_number;
  Ok {| lowerValue := lo; upperValue := hi; rangeSymbol := symbol;
        rangeLabel := "test" |}.

(** [_create_graduated_style] *)
Definition _create_graduated_style (symbology : list (string * json))
    : res (option QgsFeatureRenderer) :=
  symbol ← dict_get symbology "symbol";
  properties ← dict_get symbology "properties";
  attribut ← getitem properties "attributs";
  ranges ←
    (if is_str "fill" symbol then
       vs ← getitem properties "list_graduated" ≫= iter;
       Some <$> for_each (fun graduated_value =>
         ow ← getitem graduated_value "outline_width";
         os ← getitem graduated_value "outline_style";
         oc ← getitem graduated_value "outline_color";
         c ← getitem graduated_value "color";
         range graduated_value (FillSymbol
           [("outline_width", ow); ("outline_style", os); ("outline_color", oc);
            ("outline_width_unit", JStr "MM"); ("color", c)])) vs
     else if is_str "line" symbol then
       vs ← getitem properties "list_graduated" ≫= iter;
       Some <$> for_each (fun graduated_value =>
         ow ← getitem graduated_value "outline_width";
         os ← getitem graduated_value "outline_style";
         oc ← getitem graduated_value "outline_color";
         range graduated_value (LineSymbol
           [("line_width", ow); ("line_style", os); ("color", oc);
            ("line_width_unit", JStr "MM")])) vs
     else if is_str "marker" symbol then
       vs ← getitem properties "list_graduated" ≫= iter;
       Some <$> for_each (fun graduated_value =>
         s ← svg_marker (getitem graduated_value "color")
               (getitem graduated_value "symbol_path")
               (getitem graduated_value "size") false true;
         range graduated_value s) vs
     else Ok None);
  match ranges with
  | None => Ok None
  | Some ranges =>
      a ← py_string attribut;
      Ok (Some (QgsGraduatedSymbolRenderer a ranges Custom))
  end.

(** The decoding step of [_add_style_vector]: the [match] on
    [symbology["type"]]. *)
Definition vector_render (symbology : list (string * json))
    : res (option QgsFeatureRenderer) :=
  ty ← dict_get symbology "type";
  if is_str "single_symbol" ty then _create_single_symbol_style symbology
  else if is_str "graduated" ty then _create_graduated_style symbology
  else if is_str "categorized" ty then _create_categorized_style symbology
  else Ok None.

Section Engine.

Context (env : Env).

(** [_mapproxy_enabled] *)
Definition _mapproxy_enabled : bool :=
  negb (String.eqb (mapproxy_projects_dir env) "").

(** [project.read(uri)]: without a descriptor the project stays empty. *)
Definition read (w : World.t) : QgsProject :=
  default new_project (descriptor w).

(** [project.write()] *)
Definition write (p : QgsProject) : st World.t bool :=
  if storage_writable env then
    modify (fun w =>
      set_descriptor (Some p)
        (match storage_backend env with
         | FILESYSTEM => w
         | POSTGRESQL => set_dirs (project_dir w) (projects_dir w) true w
         end));;
    mret true
  else mret false.

Definition mkdir_project_dir : st World.t unit :=
  modify (fun w => set_dirs true true (listed w) w).

(** The [sqlite_db] property: the database is created with its three
    rows on first access. *)
Definition sqlite_db : st World.t DefaultStyles :=
  w ← get;
  match qsa_db w with
  | Some d => mret d
  | None =>
      let d := {| line := "default"; polygon := "default"; point := "default" |} in
      mkdir_project_dir;;
      modify (set_qsa_db (Some d));;
      mret d
  end.

(** The [styles] property *)
Definition styles (w : World.t) : list string := (map_to_list (qml w)).*1.

(** The [layers] property *)
Definition layers (w : World.t) : list string := map name (mapLayers (read w)).

(** The two statements below are built by writing the geometry and the
    style between single quotes into the text of the statement.  They
    are modelled for the strings that this leaves a string literal:
    those without quote and without NUL character. *)
Definition sql_text (s : string) : bool :=
  negb (contains "'" s) && negb (contains (String "000" "") s).

(** [SELECT style FROM styles_default WHERE geometry = ...] followed by
    [fetchone()[0]]: without a row, [None] is subscripted. *)
Definition select_style (geometry : string) (d : DefaultStyles) : res string :=
  if String.eqb geometry "line" then Ok (line d)
  else if String.eqb geometry "polygon" then Ok (polygon d)
  else if String.eqb geometry "point" then Ok (point d)
  else Raise TypeError.

(** [UPDATE styles_default SET style = ... WHERE geometry = ...] *)
Definition update_style (geometry style : string) (d : DefaultStyles) : DefaultStyles :=
  {| line := if String.eqb geometry "line" then style else line d;
     polygon := if String.eqb geometry "polygon" then style else polygon d;
     point := if String.eqb geometry "point" then style else point d |}.

(** [style_default] *)
Definition style_default (geometry : string) : st World.t string :=
  d ← sqlite_db;
  lift (select_style geometry d).

(** [style_update] *)
Definition style_update (geometry style : string) : st World.t unit :=
  d ← sqlite_db;
  modify (set_qsa_db (Some (update_style geometry style d))).

(** The raster block of [layer_update_style]: a renderer wrapper of the
    layer's renderer type refreshes the layer's bounds. *)
Definition refresh (layer : QgsMapLayer) : res QgsMapLayer :=
  match styling layer with
  | RasterStyling rl =>
      let renderer :=
        RasterSymbologyRenderer.init (JStr (renderer_type (Qgs.renderer rl))) in
      match RasterSymbologyRenderer.refresh_min_max renderer rl with
      | (Ok _, rl') => Ok (with_style (RasterStyling rl') (styleManager layer) layer)
      | (Raise e, _) => Raise e
      end
  | VectorStyling _ => Ok layer
  end.

(** [layer_update_style] *)
Definition layer_update_style (layer_name style_name : string) (current : bool)
    : st World.t (bool * string) :=
  QSAMapProxy.clear_cache layer_name;;
  w ← get;
  let project := read w in
  layer ← lift (index (mapLayersByName (strip layer_name) project) 0);
  let layer :=
    if negb (existsb (String.eqb style_name) (Store.styles layer)) then
      let l := loadNamedStyle (qml w !! style_name) (clone layer) in
      addStyle style_name (style "default" l) layer
    else layer in
  layer ← (if current then lift (refresh (setCurrentStyle style_name layer))
           else mret layer);
  write (with_layers (update_first (strip layer_name) layer (mapLayers project)) project);;
  mret (true, "").

(** [layer_exists], through what [layer(name)] finds *)
Definition layer_exists (n : string) (w : World.t) : bool :=
  match mapLayersByName n (read w) with
  | [] => false
  | _ :: _ => true
  end.

(** [remove_layer] *)
Definition remove_layer (n : string) : st World.t bool :=
  w ← get;
  let project := read w in
  let ids := map id (mapLayersByName n project) in
  rc ← write (removeMapLayers ids project);
  if _mapproxy_enabled then
    '(mp, (rc, err)) ← QSAMapProxy.read QSAMapProxy.init;
    if negb rc then mret false
    else
      QSAMapProxy.write env (QSAMapProxy.remove_layer mp n);;
      mret rc
  else mret rc.

(** [exists] *)
Definition exists_ : st World.t bool :=
  w ← get;
  match storage_backend env with
  | FILESYSTEM => mret (project_dir w)
  | POSTGRESQL =>
      (if listed w then modify (fun w => set_dirs (project_dir w) true (listed w) w)
       else mret tt);;
      w ← get;
      mret (listed w && projects_dir w)
  end.

(** [create] *)
Definition create (author : string) : st World.t ret :=
  present ← exists_;
  if present : bool then mret (Bare false)
  else
    mkdir_project_dir;;
    let project :=
      {| mapLayers := []; projectCrs := crs_from_string env "EPSG:3857";
         Store.author := author |} in
    rc ← write project;
    (if _mapproxy_enabled then QSAMapProxy.create env else mret tt);;
    sqlite_db;;
    mret (Pair rc (if rc then "" else storage_error env)).

(** The condition [if renderer.contrast_algorithm:] *)
Definition algorithm_set (a : option ContrastEnhancementAlgorithm) : bool :=
  match a with
  | None => false
  | Some NoEnhancement => zero_member_truthy env
  | Some _ => true
  end.

Definition with_filters (b c : Z) (g : float) (s : Z) (l : QgsRasterLayer)
    : QgsRasterLayer :=
  {| Qgs.renderer := Qgs.renderer l; brightness := b; contrast := c; gamma := g;
     saturation := s; dataProvider := dataProvider l |}.

(** [std::clamp(v, lo, hi)] on integers. *)
Definition clamp (lo hi v : Z) : Z :=
  if (v <? lo)%Z then lo else if (hi <? v)%Z then hi else v.

(** [std::clamp(g, 0.1, 10.0)]; not-a-number compares false and is kept. *)
Definition clamp_gamma (g : float) : float :=
  match g with
  | NaN => NaN
  | Inf b => if b then Fin (Q2Qc (1 # 10)) else Fin (Q2Qc 10)
  | Fin q =>
      match (q ?= Q2Qc (1 # 10))%Qc with
      | Lt => Fin (Q2Qc (1 # 10))
      | _ => match (Q2Qc 10 ?= q)%Qc with
             | Lt => Fin (Q2Qc 10)
             | _ => Fin q
             end
      end
  end.

(** The setters of the two filters: [setGamma] keeps its argument
    within 0.1 and 10, [setBrightness] within -255 and 255,
    [setContrast] and [setSaturation] within -100 and 100; the three
    integer setters take a C [int]. *)
Definition setGamma (g : float) (l : QgsRasterLayer) : QgsRasterLayer :=
  with_filters (brightness l) (contrast l) (clamp_gamma g) (saturation l) l.

Definition setBrightness (b : Z) (l : QgsRasterLayer) : res QgsRasterLayer :=
  b ← c_int b;
  Ok (with_filters (clamp (-255) 255 b) (contrast l) (gamma l) (saturation l) l).

Definition setContrast (c : Z) (l : QgsRasterLayer) : res QgsRasterLayer :=
  c ← c_int c;
  Ok (with_filters (brightness l) (clamp (-100) 100 c) (gamma l) (saturation l) l).

Definition setSaturation (s : Z) (l : QgsRasterLayer) : res QgsRasterLayer :=
  s ← c_int s;
  Ok (with_filters (brightness l) (contrast l) (gamma l) (clamp (-100) 100 s) l).

(** The "config rendering" block of [_add_style_raster] *)
Definition config_rendering (rendering : list (string * json)) (rl : QgsRasterLayer)
    : res QgsRasterLayer :=
  rl ← (if has_key "gamma" rendering
        then g ← dict_get rendering "gamma" ≫= py_float; Ok (setGamma g rl)
        else Ok rl);
  rl ← (if has_key "brightness" rendering
        then b ← dict_get rendering "brightness" ≫= py_int; setBrightness b rl
        else Ok rl);
  rl ← (if has_key "contrast" rendering
        then c ← dict_get rendering "contrast" ≫= py_int; setContrast c rl
        else Ok rl);
  if has_key "saturation" rendering
  then s ← dict_get rendering "saturation" ≫= py_int; setSaturation s rl
  else Ok rl.

(** One enhancement of the "user defined min/max" block: a copy of the
    renderer's enhancement receives the bounds that were loaded. *)
Definition user_bounds (lo hi : option float) (ce : option QgsContrastEnhancement)
    : res QgsContrastEnhancement :=
  ce ← RasterSymbologyRenderer.copy_enhancement ce;
  let ce := match lo with Some v => setMinimumValue v ce | None => ce end in
  Ok (match hi with Some v => setMaximumValue v ce | None => ce end).

(** The "user defined min/max" block of [_add_style_raster] *)
Definition user_defined_min_max (renderer : RasterSymbologyRenderer.t)
    (rl : QgsRasterLayer) : res QgsRasterLayer :=
  let bound n := RasterSymbologyRenderer.bounds renderer !! n in
  ty ← RasterSymbologyRenderer.type renderer;
  match ty with
  | Some RasterSymbologyRenderer.SINGLE_BAND_GRAY =>
      g ← RasterSymbologyRenderer.as_gray (Qgs.renderer rl);
      ce ← user_bounds (bound "gray_min") (bound "gray_max") (contrastEnhancement g);
      Ok (setRenderer (Gray (RasterSymbologyRenderer.setGrayEnhancement ce g)) rl)
  | Some RasterSymbologyRenderer.MULTI_BAND_COLOR =>
      m ← RasterSymbologyRenderer.as_multi (Qgs.renderer rl);
      red_ce ← user_bounds (bound "red_min") (bound "red_max")
                 (redContrastEnhancement m);
      green_ce ← user_bounds (bound "green_min") (bound "green_max")
                   (greenContrastEnhancement m);
      blue_ce ← user_bounds (bound "blue_min") (bound "blue_max")
                  (blueContrastEnhancement m);
      Ok (setRenderer
            (Multi (RasterSymbologyRenderer.setEnhancements red_ce green_ce blue_ce m))
            rl)
  | _ => Ok rl
  end.

(** The decoding part of [_add_style_raster], from the renderer wrapper
    to the layer whose style is saved; [None] when the type names no
    renderer. *)
Definition raster_layer_of (symbology rendering : list (string * json))
    : res (option QgsRasterLayer) :=
  let rl := empty_tif env in
  ty ← dict_get symbology "type";
  let renderer := RasterSymbologyRenderer.init ty in
  properties ← dict_get symbology "properties";
  '(renderer, _) ← RasterSymbologyRenderer.load renderer properties;
  rl ← config_rendering rendering rl;
  match RasterSymbologyRenderer.renderer renderer with
  | Some r =>
      let rl := setRenderer r rl in
      if algorithm_set (RasterSymbologyRenderer.contrast_algorithm renderer) then
        let alg := default NoEnhancement
                     (RasterSymbologyRenderer.contrast_algorithm renderer) in
        let limits := RasterSymbologyRenderer.contrast_limits renderer in
        let rl := setContrastEnhancement alg limits rl in
        if decide (limits = None_)
        then Some <$> user_defined_min_max renderer rl
        else Ok (Some rl)
      else Ok (Some rl)
  | None => Ok None
  end.

(** The two functions below end with [saveNamedStyle] on the path
    [name.qml] of the project directory, whose result they do not look
    at.  The style documents being kept by file stem, the write is
    modelled for a name that is the stem of that file, not empty and
    without path separator or NUL character, and for a directory that
    takes the file. *)
Definition file_stem (n : string) : bool :=
  negb (String.eqb n "") && negb (contains "/" n)
  && negb (contains (String "000" "") n).

(** [_add_style_raster] *)
Definition _add_style_raster (name : string) (symbology rendering : list (string * json))
    : st World.t (bool * string) :=
  if negb (has_key "type" symbology)
  then mret (false, "`type` is missing in `symbology`")
  else if negb (has_key "properties" symbology)
  then mret (false, "`properties` is missing in `symbology`")
  else
    rl ← lift (raster_layer_of symbology rendering);
    match rl with
    | Some rl =>
        modify (fun w => set_qml (<[name := RasterQml (raster_style_of rl)]> (qml w)) w);;
        mret (true, "")
    | None => mret (false, "Error")
    end.

(** [_add_style_vector] *)
Definition _add_style_vector (name : string) (symbology rendering : list (string * json))
    : st World.t (bool * string) :=
  if negb (has_key "type" symbology)
  then mret (false, "`type` is missing in `symbology`")
  else if negb (has_key "symbol" symbology)
  then mret (false, "`symbol` is missing in `symbology`")
  else if negb (has_key "properties" symbology)
  then mret (false, "`properties` is missing in `symbology`")
  else
    render ← lift (vector_render symbology);
    (if has_key "opacity" rendering
     then lift (dict_get rendering "opacity" ≫= py_float);; mret tt
     else mret tt);;
    match render with
    | Some r =>
        modify (fun w => set_qml (<[name := VectorQml r]> (qml w)) w);;
        mret (true, "")
    | None => mret (false, "Error")
    end.

(** [add_style] *)
Definition add_style (name layer_type : string) (symbology rendering : list (string * json))
    : st World.t (bool * string) :=
  match _layer_type layer_type with
  | Some Vector => _add_style_vector name symbology rendering
  | Some Raster => _add_style_raster name symbology rendering
  | None => mret (false, "Invalid layer type")
  end.

(** [remove_style] *)
Definition remove_style (name : string) : st World.t (bool * string) :=
  w ← get;
  if negb (bool_decide (name ∈ styles w))
  then mret (false, "Style '" +:+ name +:+ "' does not exist")
  else
    let p := read w in
    match find (fun layer => String.eqb name (currentStyle layer)) (mapLayers p) with
    | Some layer => mret (false, "Style is used by " +:+ Store.name layer)
    | None =>
        let p := with_layers (map (removeStyle name) (mapLayers p)) p in
        modify (fun w => set_qml (delete name (qml w)) w);;
        write p;;
        mret (true, "")
    end.

(** The layer object that [add_layer] builds for a vector datasource *)
Definition vector_layer (datasource name provider : string) : res QgsMapLayer :=
  tableName ←
    (if contains "wkb_geometry" datasource then
       t ← index (split "." datasource) 1;
       Ok (datasource_uri env
             (strip (replace "(wkb_geometry)" "" (replace dquote "" t))))
     else Ok datasource);
  let s := vector_source env tableName provider in
  Ok {| id := new_layer_id env name; Store.name := name; source := tableName;
        providerType := provider; isValid := vectorValid s; error := vectorError s;
        crs := vectorCrs s; extent := vectorExtent s;
        geometryType := vectorGeometry s; temporalRange := None;
        styling := VectorStyling (vectorRenderer s); styleManager := new_manager |}.

(** The layer object that [add_layer] builds for a raster datasource,
    or the failure of the overview build *)
Definition raster_layer (datasource name provider : string) (overview : bool)
    (datetime : option QDateTime) : QgsMapLayer + string :=
  let s := raster_source env datasource provider in
  let lyr :=
    {| id := new_layer_id env name; Store.name := name; source := datasource;
       providerType := provider; isValid := rasterValid s; error := rasterError s;
       crs := rasterCrs s; extent := rasterExtent s;
       geometryType := Unknown; temporalRange := None;
       styling := RasterStyling
                    (setContrastEnhancement StretchToMinimumMaximum MinMax
                       (rasterLayer s));
       styleManager := new_manager |} in
  let ovr := rasterOverview s in
  if overview && negb (is_valid ovr) && negb (fst (build ovr))
  then inr (snd (build ovr))
  else inl (match datetime with
            | Some dt => setFixedTemporalRange (dt, dt) lyr
            | None => lyr
            end).

(** The "add layer in mapproxy config file" block of [add_layer] *)
Definition mirror_layer (lyr : QgsMapLayer) (name : string) (t : LayerType)
    (datetime : option QDateTime) : st World.t (bool * string) :=
  bbox ← lift (_layer_bbox lyr);
  epsg_code ← lift (_layer_epsg_code lyr);
  if (epsg_code <? 0)%Z then mret (false, "Invalid CRS " +:+ crs lyr)
  else
    '(mp, (rc, err)) ← QSAMapProxy.read QSAMapProxy.init;
    if negb rc then mret (false, err)
    else
      let '(mp, (rc, err)) :=
        QSAMapProxy.add_layer mp name bbox epsg_code (bool_decide (t = Raster)) datetime in
      if negb rc then mret (false, err)
      else
        QSAMapProxy.write env mp;;
        mret (true, "").

(** [add_layer] *)
Definition add_layer (datasource layer_type name : string) (epsg_code : Z)
    (overview : bool) (datetime : option QDateTime) : st World.t (bool * string) :=
  match _layer_type layer_type with
  | None => mret (false, "Invalid layer type")
  | Some t =>
      w ← get;
      if bool_decide (name ∈ layers w)
      then mret (false, "A layer " +:+ name +:+ " already exists")
      else
        let provider := _layer_provider t datasource in
        built ← match t with
                | Vector =>
                    lyr ← lift (vector_layer datasource name provider);
                    mret (inl lyr)
                | Raster =>
                    mret (raster_layer datasource name provider overview datetime)
                end;
        match built with
        | inr err => mret (false, err)
        | inl lyr =>
            if negb (isValid lyr)
            then mret (false, "Invalid layer (" +:+ error lyr +:+ ")")
            else
              let lyr :=
                if (0 <? epsg_code)%Z
                then setCrs (crs_from_string env ("EPSG:" +:+ pretty epsg_code)) lyr
                else lyr in
              if negb (isValid lyr)
              then mret (false, "Invalid layer (" +:+ error lyr +:+ ")")
              else
                w ← get;
                write (addMapLayer lyr (read w));;
                (match t with
                 | Vector =>
                     default_style ← style_default (geometry_name (geometryType lyr));
                     layer_update_style name default_style true;;
                     mret tt
                 | Raster => mret tt
                 end);;
                if _mapproxy_enabled
                then mirror_layer lyr name t datetime
                else mret (true, "")
        end
  end.

(** [default_styles] *)
Definition default_styles : st World.t json :=
  polygon ← style_default "polygon";
  line ← style_default "line";
  point ← style_default "point";
  mret (JDict [("polygon", JStr polygon); ("line", JStr line); ("point", JStr point)]).

(** [shutil.rmtree(self._qgis_project_dir, ignore_errors=True)]: the
    directory goes with what it holds, that is the style files,
    [qsa.db] and, on the filesystem backend, the descriptor. *)
Definition rmtree_project_dir : st World.t unit :=
  modify (fun w =>
    {| project_dir := false; projects_dir := projects_dir w; listed := listed w;
       descriptor := match storage_backend env with
                     | FILESYSTEM => None
                     | POSTGRESQL => descriptor w
                     end;
       qml := ∅; qsa_db := None; mirror := mirror w; tiles := tiles w |}).

(** [storage.removeProject(uri)] *)
Definition removeProject : st World.t unit :=
  modify (fun w =>
    if storage_writable env
    then set_descriptor None (set_dirs (project_dir w) (projects_dir w) false w)
    else w).

(** [remove]: the loop runs over the names that the [layers] property
    lists when it starts. *)
Definition remove : st World.t unit :=
  w ← get;
  foldr (fun layer rest => remove_layer layer;; rest) (mret tt) (layers w);;
  (if _mapproxy_enabled then QSAMapProxy.remove env else mret tt);;
  rmtree_project_dir;;
  match storage_backend env with
  | POSTGRESQL => removeProject
  | FILESYSTEM => mret tt
  end.

(** The loop of [cache_reset]; [mp] is the cache synchronizer, which
    keeps what it has loaded from one iteration to the next. *)
Fixpoint reset_layers (mp : QSAMapProxy.t) (ls : list QgsMapLayer) : st World.t unit :=
  match ls with
  | [] => mret tt
  | layer :: ls' =>
      let t := type layer in
      bbox ← lift (_layer_bbox layer);
      epsg_code ← lift (_layer_epsg_code layer);
      let mp := QSAMapProxy.remove_layer mp (name layer) in
      let '(mp, _) :=
        QSAMapProxy.add_layer mp (name layer) bbox epsg_code (bool_decide (t = Raster))
          None in
      QSAMapProxy.write env mp;;
      reset_layers mp ls'
  end.

(** [cache_reset] *)
Definition cache_reset : st World.t (bool * string) :=
  if _mapproxy_enabled then
    '(mp, (rc, err)) ← QSAMapProxy.read QSAMapProxy.init;
    if negb rc then mret (false, err)
    else
      w ← get;
      reset_layers mp (mapLayers (read w));;
      mret (true, "")
  else mret (false, "Cache is disabled").

End Engine.

End QSAProject.

(** ** [api/projects.py] *)

Module Api.
Import Qgs Store World QSAProject.

(** The types a schema property can ask for. *)
Inductive schema_type : Type :=
| TString
| TNumber
| TBoolean
| TObject.

Definition has_type (ty : schema_type) (v : json) : bool :=
  match ty, v with
  | TString, JStr _ => true
  | TNumber, (JInt _ | JReal _) => true
  | TBoolean, JBool _ => true
  | TObject, JDict _ => true
  | _, _ => false
  end.

(** [validate(data, schema)] for the schemas of the handlers: an object
    with required keys and typed properties. *)
Definition validate (data : json) (required : list string)
    (properties : list (string * schema_type)) : res (list (string * json)) :=
  match data with
  | JDict d =>
      if forallb (fun k => has_key k d) required &&
         forallb (fun kv => match assoc (fst kv) d with
                            | Some v => has_type (snd kv) v
                            | None => true
                            end) properties
      then Ok d
      else Raise ValidationError
  | _ => Raise ValidationError
  end.

(** [str(e)]; for the built-in exceptions a generic wording, the exact
    text depending on the operation that raised. *)
Definition exc_str (e : exc) : string :=
  match e with
  | KeyError k => "'" +:+ k +:+ "'"
  | IndexError => "list index out of range"
  | TypeError => "unsupported operand"
  | ValueError => "invalid literal"
  | AttributeError => "'NoneType' object has no attribute"
  | OverflowError => "value out of range"
  | ValidationError => "validation failed"
  | Exception msg => msg
  end.

(** A response: body and status code. *)
Definition response : Type := json * Z.

(** [try: ... except Exception as e: return {"error": str(e)}, 415] *)
Definition try_except (body : st World.t response) : World.t → response * World.t :=
  fun w =>
    match body w with
    | (Ok r, w') => (r, w')
    | (Raise e, w') => ((JDict [("error", JStr (exc_str e))], 415%Z), w')
    end.

(** [QSAProject(name, schema)] unpacks what [create] returns into two
    names. *)
Definition unpack (r : ret) : res (bool * string) :=
  match r with
  | Pair rc err => Ok (rc, err)
  | Bare _ => Raise TypeError
  end.

(** A validated property of type [object], as the dictionary it is. *)
Definition py_object (v : json) : res (list (string * json)) :=
  match v with
  | JDict d => Ok d
  | _ => Raise TypeError
  end.

(** A validated property of type [boolean], as the condition it is. *)
Definition truthy (v : json) : bool :=
  match v with
  | JBool b => b
  | _ => false
  end.

Section Handlers.

Context (env : Env).

(** In the four handlers below that take a [body], it stands for
    [request.get_json()]: the document of the request, or the exception
    that reading it raises; the handler evaluates it where the source
    calls it. *)

(** [project_add], for a request with a JSON body *)
Definition project_add (data : json) : World.t → response * World.t :=
  try_except (
    d ← lift (validate data ["name"; "author"]
                [("name", TString); ("author", TString); ("schema", TString)]);
    name ← lift (dict_get d "name");
    author ← lift (dict_get d "author" ≫= py_string);
    present ← exists_ env;
    if present : bool then raise (Exception "Project already exists")
    else
      r ← create env author;
      '(rc, err) ← lift (unpack r);
      if negb rc then raise (Exception err)
      else mret (JBool true, 201%Z)).

(** [project_add_layer]; the body is read a first time for the log,
    before the project is looked at *)
Definition project_add_layer (body : res json) : World.t → response * World.t :=
  try_except (
    lift body;;
    present ← exists_ env;
    if negb present then raise (Exception "Project does not exist")
    else
      data ← lift body;
      d ← lift (validate data ["name"; "datasource"; "type"]
                  [("name", TString); ("datasource", TString); ("crs", TNumber);
                   ("type", TString); ("overview", TBoolean); ("datetime", TString)]);
      crs ← lift (if has_key "crs" d then dict_get d "crs" ≫= py_int else Ok (-1)%Z);
      overview ← lift (if has_key "overview" d
                       then v ← dict_get d "overview";
                            Ok (match v with JBool b => b | _ => false end)
                       else Ok false);
      datetime ←
        (if has_key "datetime" d then
           s ← lift (dict_get d "datetime" ≫= py_string);
           match fromString env s "yyyy-MM-dd HH:mm:ss" with
           | Some dt => mret (Some dt)
           | None => raise (Exception "Invalid datetime")
           end
         else mret None);
      datasource ← lift (dict_get d "datasource" ≫= py_string);
      layer_type ← lift (dict_get d "type" ≫= py_string);
      name ← lift (dict_get d "name" ≫= py_string);
      '(rc, err) ← add_layer env datasource layer_type name crs overview datetime;
      if negb rc then raise (Exception err)
      else mret (JBool rc, 201%Z)).

(** [project_del_style] *)
Definition project_del_style (style : string) : st World.t response :=
  present ← exists_ env;
  if present : bool then
    w ← get;
    if bool_decide (style ∈ styles w) then
      '(rc, msg) ← remove_style env style;
      if negb rc then mret (JDict [("error", JStr msg)], 415%Z)
      else mret (JBool rc, 201%Z)
    else mret (JDict [("error", JStr "Style does not exist")], 415%Z)
  else mret (JDict [("error", JStr "Project does not exist")], 415%Z).

(** [project_layer_update_style] *)
Definition project_layer_update_style (layer_name : string) (body : res json)
    : World.t → response * World.t :=
  try_except (
    present ← exists_ env;
    if negb present then raise (Exception "Project does not exist")
    else
      data ← lift body;
      d ← lift (validate data ["name"; "current"]
                  [("name", TString); ("current", TBoolean)]);
      current ← lift (dict_get d "current");
      style_name ← lift (dict_get d "name" ≫= py_string);
      '(rc, msg) ← layer_update_style env layer_name style_name (truthy current);
      if negb rc then raise (Exception msg)
      else mret (JBool true, 201%Z)).

(** [project_add_style]; the log line names the method without calling
    it *)
Definition project_add_style (body : res json) : World.t → response * World.t :=
  try_except (
    present ← exists_ env;
    if negb present then raise (Exception "Project does not exist")
    else
      data ← lift body;
      d ← lift (validate data ["name"; "type"; "rendering"; "symbology"]
                  [("name", TString); ("type", TString); ("symbology", TObject);
                   ("rendering", TObject)]);
      name ← lift (dict_get d "name" ≫= py_string);
      layer_type ← lift (dict_get d "type" ≫= py_string);
      symbology ← lift (dict_get d "symbology" ≫= py_object);
      rendering ← lift (dict_get d "rendering" ≫= py_object);
      '(rc, err) ← add_style env name layer_type symbology rendering;
      if negb rc then raise (Exception err)
      else mret (JBool rc, 201%Z)).

(** [project_default_styles] *)
Definition project_default_styles : st World.t response :=
  present ← exists_ env;
  if present : bool then
    infos ← default_styles;
    mret (infos, 201%Z)
  else mret (JDict [("error", JStr "Project does not exist")], 415%Z).

(** [project_update_default_style]; the body is read a first time for
    the log, before the project is looked at *)
Definition project_update_default_style (body : res json)
    : World.t → response * World.t :=
  try_except (
    lift body;;
    present ← exists_ env;
    if negb present then raise (Exception "Project does not exist")
    else
      data ← lift body;
      d ← lift (validate data ["geometry"; "style"]
                  [("geometry", TString); ("style", TString)]);
      geometry ← lift (dict_get d "geometry" ≫= py_string);
      style ← lift (dict_get d "style" ≫= py_string);
      style_update geometry style;;
      mret (JBool true, 201%Z)).

(** [project_layers] *)
Definition project_layers : st World.t response :=
  present ← exists_ env;
  if present : bool then
    w ← get;
    mret (JList (JStr <$> layers w), 201%Z)
  else mret (JDict [("error", JStr "Project does not exist")], 415%Z).

(** [project_del_layer] *)
Definition project_del_layer (layer_name : string) : st World.t response :=
  present ← exists_ env;
  if present : bool then
    w ← get;
    if layer_exists layer_name w then
      rc ← remove_layer env layer_name;
      mret (JBool rc, 201%Z)
    else mret (JDict [("error", JStr "Layer does not exist")], 415%Z)
  else mret (JDict [("error", JStr "Project does not exist")], 415%Z).

End Handlers.

End Api.

(** ** Properties *)

Import Qgs Store World.

(** Unfolding of the monadic plumbing. *)
Ltac st_unfold :=
  unfold mbind, mret, st_bind, st_ret, res_bind, res_ret, fmap, res_fmap,
    get, put, modify, lift, raise in *.

(** *** Concrete deployments and projects, for the examples *)

Module Fixture.

Definition provider : DataProvider :=
  {| bandStatistics := fun b => (float_of_Z b, float_of_Z (100 + b));
     stdDevRange := fun _ => (float_of_Z 0, float_of_Z 1);
     cumulativeCut := fun _ => (float_of_Z 0, float_of_Z 1) |}.

Definition enhancement (a : ContrastEnhancementAlgorithm) : QgsContrastEnhancement :=
  {| minimumValue := float_of_Z 0; maximumValue := float_of_Z 255;
     contrastEnhancementAlgorithm := a |}.

Definition gray_layer (a : ContrastEnhancementAlgorithm) (l : Limits) : QgsRasterLayer :=
  {| Qgs.renderer := Gray {| grayBand := 1; gradient := BlackToWhite;
                             contrastEnhancement := Some (enhancement a);
                             grayLimits := l |};
     brightness := 0; contrast := 0; gamma := float_of_Z 1; saturation := 0;
     dataProvider := provider |}.

Definition empty_layer : QgsRasterLayer :=
  {| Qgs.renderer := Multi new_multi;
     brightness := 0; contrast := 0; gamma := float_of_Z 1; saturation := 0;
     dataProvider := provider |}.

Definition polygons : VectorSource :=
  {| vectorValid := true; vectorError := ""; vectorCrs := "EPSG:4326";
     vectorExtent := "0 0, 10 10"; vectorGeometry := Polygon;
     vectorRenderer := QgsSingleSymbolRenderer (FillSymbol []) |}.

(** A raster whose reference system is unknown. *)
Definition landsat : RasterSource :=
  {| rasterValid := true; rasterError := ""; rasterCrs := "";
     rasterExtent := "0 0, 10 10"; rasterLayer := gray_layer NoEnhancement None_;
     rasterOverview := {| is_valid := true; build := (true, "") |} |}.

(** A deployment on the filesystem; [cache] is the directory of the
    cache mirror, empty for none. *)
Definition env (cache : string) (mirror_ok : bool) : Env :=
  {| storage_backend := FILESYSTEM;
     mapproxy_projects_dir := cache;
     datasource_uri := fun t => "dbname=qsa table=" +:+ t;
     vector_source := fun _ _ => polygons;
     raster_source := fun _ _ => landsat;
     new_layer_id := fun n => n +:+ "_0001";
     crs_from_string := fun d => if String.eqb d "EPSG:4326" || String.eqb d "EPSG:3857"
                                 then d else "";
     empty_tif := empty_layer;
     storage_writable := true;
     storage_error := "Unable to save project";
     mirror_writable := mirror_ok;
     fromString := fun s _ => if String.eqb s "2024-01-01 00:00:00" then Some 0%Z else None;
     zero_member_truthy := false |}.

(** A project that was created and has no layer yet; [m] is its cache
    mirror. *)
Definition created (m : option (list (string * CacheMirrorEntry))) : World.t :=
  {| project_dir := true; projects_dir := true; listed := false;
     descriptor := Some {| mapLayers := []; projectCrs := "EPSG:3857"; author := "alice" |};
     qml := ∅;
     qsa_db := Some {| line := "default"; polygon := "default"; point := "default" |};
     mirror := m; tiles := [] |}.

(** A vector layer with its initial style manager. *)
Definition layer0 : QgsMapLayer :=
  {| id := "layer0_0001"; name := "layer0"; source := "d.gpkg|layername=polygons";
     providerType := "ogr"; isValid := true; error := ""; crs := "EPSG:4326";
     extent := "0 0, 10 10"; geometryType := Polygon; temporalRange := None;
     styling := VectorStyling (QgsSingleSymbolRenderer (FillSymbol []));
     styleManager := new_manager |}.

(** A raster layer with its initial style manager. *)
Definition raster0 : QgsMapLayer :=
  {| id := "raster0_0001"; name := "raster0"; source := "landsat.tif";
     providerType := "gdal"; isValid := true; error := ""; crs := "EPSG:4326";
     extent := "0 0, 10 10"; geometryType := Unknown; temporalRange := None;
     styling := RasterStyling (gray_layer StretchToMinimumMaximum MinMax);
     styleManager := new_manager |}.

Definition with_project (ls : list QgsMapLayer) (w : World.t) : World.t :=
  set_descriptor
    (Some {| mapLayers := ls; projectCrs := "EPSG:3857"; author := "alice" |}) w.

(** A multi-band style with stretched, user-defined bounds. *)
Definition multiband_style : RasterStyle :=
  {| styleRenderer :=
       Multi {| redBand := 1; greenBand := 2; blueBand := 3;
                redContrastEnhancement := Some (enhancement StretchToMinimumMaximum);
                greenContrastEnhancement := Some (enhancement StretchToMinimumMaximum);
                blueContrastEnhancement := Some (enhancement StretchToMinimumMaximum);
                multiLimits := None_ |};
     styleBrightness := 10; styleContrast := 3; styleGamma := float_of_Z 1;
     styleSaturation := 2 |}.

Definition multiband : Qml := RasterQml multiband_style.

Definition with_style_file (n : string) (d : Qml) (w : World.t) : World.t :=
  set_qml (<[n := d]> (qml w)) w.

(** Scenario C: a project with one raster layer and the stored style
    ["s1"]. *)
Definition scenario_c : World.t :=
  with_style_file "s1" multiband (with_project [raster0] (created None)).

End Fixture.

(** *** Notions used in the statements *)

(** The contrast-enhancement algorithm in force on a renderer: the one
    of the gray enhancement, the one of the red enhancement for a
    multi-band renderer. *)
Definition current_algorithm (r : QgsRasterRenderer)
    : option ContrastEnhancementAlgorithm :=
  match r with
  | Gray g => contrastEnhancementAlgorithm <$> contrastEnhancement g
  | Multi m => contrastEnhancementAlgorithm <$> redContrastEnhancement m
  | _ => None
  end.

(** The deployment [env] with another answer to "does the cache mirror
    accept a write". *)
Definition with_mirror_writable (b : bool) (env : Env) : Env :=
  {| storage_backend := storage_backend env;
     mapproxy_projects_dir := mapproxy_projects_dir env;
     datasource_uri := datasource_uri env;
     vector_source := vector_source env;
     raster_source := raster_source env;
     new_layer_id := new_layer_id env;
     crs_from_string := crs_from_string env;
     empty_tif := empty_tif env;
     storage_writable := storage_writable env;
     storage_error := storage_error env;
     mirror_writable := b;
     fromString := fromString env;
     zero_member_truthy := zero_member_truthy env |}.

(** What [layer_update_style] does to the layer it found, before the
    bounds are refreshed: attach the style if it is not attached yet,
    then make it current. *)
Definition attach (style_name : string) (doc : option Qml) (layer : QgsMapLayer)
    : QgsMapLayer :=
  setCurrentStyle style_name
    (if negb (existsb (String.eqb style_name) (styles layer))
     then addStyle style_name (style "default" (loadNamedStyle doc (clone layer))) layer
     else layer).

(** Every band of the renderer has a contrast enhancement. *)
Definition enhanced (r : QgsRasterRenderer) : bool :=
  match r with
  | Gray g => bool_decide (is_Some (contrastEnhancement g))
  | Multi m =>
      bool_decide (is_Some (redContrastEnhancement m))
      && bool_decide (is_Some (greenContrastEnhancement m))
      && bool_decide (is_Some (blueContrastEnhancement m))
  | Pseudo _ => true
  | OtherRenderer _ _ => false
  end.

(** A styling whose bounds can be refreshed: a vector styling, or a
    raster one that has no limits or an enhancement on every band. *)
Definition refreshable (s : Styling) : Prop :=
  match s with
  | VectorStyling _ => True
  | RasterStyling rl =>
      limits (Qgs.renderer rl) = None_ ∨ enhanced (Qgs.renderer rl) = true
  end.

(** The style document that [add_style] derives from a description of
    kind [t], before it saves it: for a vector style the renderer (the
    opacity is read but is not part of the symbology that is saved),
    for a raster style the styling of the layer built on [empty.tif]. *)
Definition decoded (env : Env) (t : LayerType) (symbology rendering : list (string * json))
    : res (option Qml) :=
  match t with
  | Vector =>
      match QSAProject.vector_render symbology with
      | Ok r =>
          match (if has_key "opacity" rendering
                 then dict_get rendering "opacity" ≫= py_float
                 else Ok NaN) with
          | Ok _ => Ok (option_map VectorQml r)
          | Raise e => Raise e
          end
      | Raise e => Raise e
      end
  | Raster =>
      match QSAProject.raster_layer_of env symbology rendering with
      | Ok rl => Ok (option_map (λ l, RasterQml (raster_style_of l)) rl)
      | Raise e => Raise e
      end
  end.

(** Scenario B: the description of a multi-band style. *)
Definition scenario_b_symbology : list (string * json) :=
  [("type", JStr "multibandcolor");
   ("properties",
    JDict [("red", JDict [("band", JInt 1)]);
           ("green", JDict [("band", JInt 1)]);
           ("blue", JDict [("band", JInt 1)])])].

Definition scenario_b_rendering : list (string * json) :=
  [("brightness", JInt 10); ("gamma", JReal (float_of_Z 1));
   ("contrast", JInt 3); ("saturation", JInt 2)].





(** A single-symbol marker description with the given properties. *)
Definition marker_symbology (props : list (string * json)) : list (string * json) :=
  [("type", JStr "single_symbol"); ("symbol", JStr "marker");
   ("properties", JDict props)].

Definition as_dict (v : json) : res (list (string * json)) :=
  match v with
  | JDict d => Ok d
  | _ => Raise TypeError
  end.

(** [decode(encode(m))] for a raster style document [m]: the
    description that [style_to_json] reads back from [m] is handed, as
    a request would, to the decoding part of [add_style]. *)
Definition round_trip (env : Env) (n : string) (m : Qml) : res (option Qml) :=
  match RasterSymbologyRenderer.style_to_json (empty_tif env) n (Some m) with
  | Ok (j, _) =>
      match getitem j "symbology" ≫= as_dict, getitem j "rendering" ≫= as_dict with
      | Ok symbology, Ok rendering => decoded env Raster symbology rendering
      | Raise e, _ => Raise e
      | _, Raise e => Raise e
      end
  | Raise e => Raise e
  end.

(** The filter values of a style are values that the filters of a
    layer keep as they are. *)
Definition filters_held (m : RasterStyle) : Prop :=
  QSAProject.clamp (-255) 255 (styleBrightness m) = styleBrightness m
  ∧ QSAProject.clamp (-100) 100 (styleContrast m) = styleContrast m
  ∧ QSAProject.clamp_gamma (styleGamma m) = styleGamma m
  ∧ QSAProject.clamp (-100) 100 (styleSaturation m) = styleSaturation m.

(** A pseudocolour style on band 2 with a discrete ramp. *)
Definition pseudocolor_style : RasterStyle :=
  {| styleRenderer :=
       Pseudo {| band := 2;
                 shader := Some {| sourceColorRamp := "Viridis";
                                   colorRampType := Discrete |};
                 classificationMin := NaN; classificationMax := NaN;
                 pseudoLimits := None_ |};
     styleBrightness := 0; styleContrast := 0; styleGamma := float_of_Z 1;
     styleSaturation := 0 |}.

(** An enhancement with its bounds forgotten. *)
Definition forget_bounds (ce : QgsContrastEnhancement) : QgsContrastEnhancement :=
  {| minimumValue := NaN; maximumValue := NaN;
     contrastEnhancementAlgorithm := contrastEnhancementAlgorithm ce |}.

(** A raster layer with the bounds of the enhancements of its renderer
    forgotten: what is left is the renderer's kind, bands, gradient,
    shader, limits and algorithms, the filters and the provider. *)
Definition settings (l : QgsRasterLayer) : QgsRasterLayer :=
  setRenderer
    (match Qgs.renderer l with
     | Gray g =>
         Gray {| grayBand := grayBand g; gradient := gradient g;
                 contrastEnhancement := forget_bounds <$> contrastEnhancement g;
                 grayLimits := grayLimits g |}
     | Multi m =>
         Multi {| redBand := redBand m; greenBand := greenBand m; blueBand := blueBand m;
                  redContrastEnhancement := forget_bounds <$> redContrastEnhancement m;
                  greenContrastEnhancement := forget_bounds <$> greenContrastEnhancement m;
                  blueContrastEnhancement := forget_bounds <$> blueContrastEnhancement m;
                  multiLimits := multiLimits m |}
     | r => r
     end) l.

(** The contrast enhancements that a renderer carries. *)
Definition enhancements (r : QgsRasterRenderer) : list (option QgsContrastEnhancement) :=
  match r with
  | Gray g => [contrastEnhancement g]
  | Multi m => [redContrastEnhancement m; greenContrastEnhancement m;
                blueContrastEnhancement m]
  | _ => []
  end.

(** Two renderer wrappers whose renderers, if any, have the same kind,
    limits and enhancements. *)
Definition same_contrast (self self' : RasterSymbologyRenderer.t) : Prop :=
  match RasterSymbologyRenderer.renderer self, RasterSymbologyRenderer.renderer self' with
  | Some r, Some r' =>
      renderer_type r' = renderer_type r ∧ limits r' = limits r
      ∧ enhancements r' = enhancements r
  | None, None => True
  | _, _ => False
  end.

(** [same_contrast], and the same contrast settings on the wrappers. *)
Definition kept (self self' : RasterSymbologyRenderer.t) : Prop :=
  same_contrast self self'
  ∧ RasterSymbologyRenderer.contrast_algorithm self'
    = RasterSymbologyRenderer.contrast_algorithm self
  ∧ RasterSymbologyRenderer.contrast_limits self'
    = RasterSymbologyRenderer.contrast_limits self.


(** The default-style table of a new project, as [default_styles]
    returns it. *)
Definition initial_defaults : json :=
  JDict [("polygon", JStr "default"); ("line", JStr "default"); ("point", JStr "default")].

(** A project that does not exist: no directory, no descriptor. *)
Definition absent_project : World.t :=
  {| project_dir := false; projects_dir := true; listed := false;
     descriptor := None; qml := ∅; qsa_db := None; mirror := None; tiles := [] |}.

(** The answer of a handler that does not find the project. *)
Definition no_project : Api.response :=
  (JDict [("error", JStr "Project does not exist")], 415%Z).

(** The cache mirror has an entry for layer [n], and no entry for [n]
    has a temporal instant. *)
Definition mirrored_untimed (cfg : list (string * CacheMirrorEntry)) (n : string) : Prop :=
  (∃ e, (n, e) ∈ cfg) ∧ ∀ e, (n, e) ∈ cfg → temporal e = None.

(** The answer of the two handlers that read the body of the request
    before they look for the project. *)
Definition refused (body : res json) : Api.response :=
  match body with
  | Ok _ => no_project
  | Raise e => (JDict [("error", JStr (Api.exc_str e))], 415%Z)
  end.

(** A graduated fill style with two classes. *)
Definition graduated_symbology : list (string * json) :=
  let class (lo hi : Z) (color : string) :=
    JDict [("min", JInt lo); ("max", JInt hi); ("outline_width", JReal (float_of_Z 1));
           ("outline_style", JStr "solid"); ("outline_color", JStr "#000000");
           ("color", JStr color)] in
  [("type", JStr "graduated"); ("symbol", JStr "fill");
   ("properties",
    JDict [("attributs", JStr "population");
           ("list_graduated", JList [class 0%Z 10%Z "#ff0000"; class 10%Z 20%Z "#00ff00"])])].

(** A categorized line style with two categories. *)
Definition categorized_symbology : list (string * json) :=
  let class (value color : string) :=
    JDict [("value", JStr value); ("outline_width", JReal (float_of_Z 1));
           ("outline_style", JStr "solid"); ("outline_color", JStr color)] in
  [("type", JStr "categorized"); ("symbol", JStr "line");
   ("properties",
    JDict [("attributs", JStr "kind");
           ("list_categorized", JList [class "road" "#ff0000"; class "path" "#00ff00"])])].

(** A project with a vector and a raster layer; the stored style
    ["s1"] is attached to the vector layer, which draws with
    ["default"]. *)
Definition two_layers : World.t :=
  Fixture.with_style_file "s1" (VectorQml (QgsSingleSymbolRenderer (LineSymbol [])))
    (Fixture.with_project
       [addStyle "s1" (Some (VectorQml (QgsSingleSymbolRenderer (LineSymbol []))))
          Fixture.layer0;
        Fixture.raster0]
       (Fixture.created (Some []))).

(** *** The raster statistics refresher *)

Section Refresher.

Import RasterSymbologyRenderer.

Lemma refresh_gray_noop (layer : QgsRasterLayer) a :
  current_algorithm (Qgs.renderer layer) = Some a →
  nothing_to_stretch a = true →
  snd (_refresh_min_max_singlebandgray layer) = layer.
Proof.
  intros Ha Hn. unfold _refresh_min_max_singlebandgray. st_unfold.
  destruct (Qgs.renderer layer) as [g|m|p|n l]; simpl in *; try reflexivity.
  destruct (contrastEnhancement g) as [ce|]; simpl in *; [|reflexivity].
  injection Ha as ->. now rewrite Hn.
Qed.

Lemma refresh_multi_noop (layer : QgsRasterLayer) a :
  current_algorithm (Qgs.renderer layer) = Some a →
  nothing_to_stretch a = true →
  snd (_refresh_min_max_multibandcolor layer) = layer.
Proof.
  intros Ha Hn. unfold _refresh_min_max_multibandcolor. st_unfold.
  destruct (Qgs.renderer layer) as [g|m|p|n l]; simpl in *; try reflexivity.
  destruct (redContrastEnhancement m) as [r|]; simpl in *; [|reflexivity].
  injection Ha as ->.
  destruct (greenContrastEnhancement m); simpl; [|reflexivity].
  destruct (blueContrastEnhancement m); simpl; [|reflexivity].
  now rewrite Hn.
Qed.

(** C7.  Whatever renderer wrapper it is called on, [refresh_min_max]
    leaves the layer, and with it every bound, as it found it when the
    limits of the layer's renderer are [None_], and when the algorithm
    in force is [NoEnhancement] or [UserDefinedEnhancement]. *)
Theorem refresh_min_max_noop (self : RasterSymbologyRenderer.t) (layer : QgsRasterLayer) :
  limits (Qgs.renderer layer) = None_
  ∨ current_algorithm (Qgs.renderer layer) = Some NoEnhancement
  ∨ current_algorithm (Qgs.renderer layer) = Some UserDefinedEnhancement →
  snd (refresh_min_max self layer) = layer.
Proof.
  intros H. unfold refresh_min_max. st_unfold.
  destruct (decide (limits (Qgs.renderer layer) = None_)) as [|Hl]; [reflexivity|].
  destruct H as [H|H]; [contradiction|].
  destruct (type self) as [[[| |]|]|]; simpl; try reflexivity.
  - destruct H as [H|H]; eapply refresh_gray_noop; eauto.
  - destruct H as [H|H]; eapply refresh_multi_noop; eauto.
Qed.

End Refresher.

(** Outside these conditions the refresher does recompute: under
    [MinMax] limits a stretched gray band takes the statistics of band
    1. *)
Example refresh_min_max_recomputes :
  snd (RasterSymbologyRenderer.refresh_min_max
         (RasterSymbologyRenderer.init (JStr "singlebandgray"))
         (Fixture.gray_layer StretchToMinimumMaximum MinMax))
  = setRenderer
      (Gray {| grayBand := 1; gradient := BlackToWhite;
               contrastEnhancement :=
                 Some {| minimumValue := float_of_Z 1; maximumValue := float_of_Z 101;
                         contrastEnhancementAlgorithm := StretchToMinimumMaximum |};
               grayLimits := MinMax |})
      (Fixture.gray_layer StretchToMinimumMaximum MinMax).
Proof. reflexivity. Qed.

Lemma refresh_min_max_noop_witness :
  current_algorithm (Qgs.renderer (Fixture.gray_layer NoEnhancement MinMax))
    = Some NoEnhancement
  ∧ snd (RasterSymbologyRenderer.refresh_min_max
           (RasterSymbologyRenderer.init (JStr "singlebandgray"))
           (Fixture.gray_layer NoEnhancement MinMax))
    = Fixture.gray_layer NoEnhancement MinMax.
Proof.
  split; [reflexivity|].
  apply refresh_min_max_noop. right; left. reflexivity.
Defined.

(** *** Creation *)

(** C9.  On a project that exists, [create] hands back the bare
    boolean [False], not a (success, message) pair, and changes nothing
    beyond what [exists] itself did. *)
Theorem create_on_present_returns_bare (env : Env) (author : string) (w : World.t) :
  fst (QSAProject.exists_ env w) = Ok true →
  QSAProject.create env author w
    = (Ok (QSAProject.Bare false), snd (QSAProject.exists_ env w)).
Proof.
  intros H. unfold QSAProject.create. st_unfold.
  destruct (QSAProject.exists_ env w) as [[[|]|e] w']; simpl in *;
    try discriminate; reflexivity.
Qed.

Lemma create_on_present_returns_bare_witness :
  fst (QSAProject.exists_ (Fixture.env "" true) (Fixture.created None)) = Ok true
  ∧ QSAProject.create (Fixture.env "" true) "bob" (Fixture.created None)
    = (Ok (QSAProject.Bare false), Fixture.created None).
Proof.
  split; [reflexivity|].
  apply (create_on_present_returns_bare (Fixture.env "" true) "bob" (Fixture.created None)).
  reflexivity.
Defined.

(** The caller of [create] unpacks a pair: the bare boolean makes the
    unpacking raise. *)
Example create_on_present_unpack :
  Api.unpack (QSAProject.Bare false) = Raise TypeError.
Proof. reflexivity. Qed.

(** On an absent project [create] does return a pair. *)
Example create_on_absent_returns_pair :
  fst (QSAProject.create (Fixture.env "" true) "bob"
         (set_descriptor None (set_dirs false true false (Fixture.created None))))
  = Ok (QSAProject.Pair true "").
Proof. reflexivity. Qed.

(** *** Removing a layer *)

Lemma no_layer_after_remove (n : string) (p : QgsProject) :
  mapLayersByName n (removeMapLayers (map id (mapLayersByName n p)) p) = [].
Proof.
  apply elem_of_nil_inv. intros x Hx.
  unfold mapLayersByName, removeMapLayers in Hx. simpl in Hx.
  apply list_elem_of_filter in Hx as [Hn Hx].
  apply list_elem_of_filter in Hx as [Hid Hx].
  apply Is_true_true in Hid. apply negb_true_iff in Hid.
  assert (existsb (String.eqb (id x)) (map id (filter (λ l, String.eqb (name l) n) (mapLayers p))) = true) as E.
  { apply existsb_exists. exists (id x). split; [|apply String.eqb_refl].
    apply in_map. apply list_elem_of_In. apply list_elem_of_filter. auto. }
  congruence.
Qed.

Lemma write_descriptor (env : Env) (p : QgsProject) (w : World.t) :
  storage_writable env = true →
  fst (QSAProject.write env p w) = Ok true
  ∧ descriptor (snd (QSAProject.write env p w)) = Some p
  ∧ mirror (snd (QSAProject.write env p w)) = mirror w
  ∧ qml (snd (QSAProject.write env p w)) = qml w.
Proof.
  intros H. unfold QSAProject.write. rewrite H. st_unfold. simpl.
  destruct (storage_backend env); auto.
Qed.

(** C4, as the code has it.  [remove_layer] takes the layer out of the
    descriptor whenever the storage accepts the write, whatever happens
    to the cache mirror afterwards.  Without mirroring it returns the
    result of the descriptor write.  With mirroring, a mirror that
    cannot be read makes it return [False], the descriptor change
    staying committed; and whether the mirror accepts the write-back
    never changes what is returned. *)
Theorem remove_layer_result (env : Env) (n : string) (w : World.t) :
  (storage_writable env = true →
   mapLayersByName n (QSAProject.read (snd (QSAProject.remove_layer env n w))) = [])
  ∧ (QSAProject._mapproxy_enabled env = false →
     fst (QSAProject.remove_layer env n w) = Ok (storage_writable env))
  ∧ (QSAProject._mapproxy_enabled env = true → mirror w = None →
     fst (QSAProject.remove_layer env n w) = Ok false)
  ∧ (∀ b, fst (QSAProject.remove_layer (with_mirror_writable b env) n w)
          = fst (QSAProject.remove_layer env n w)).
Proof.
  set (p := removeMapLayers (map id (mapLayersByName n (QSAProject.read w)))
              (QSAProject.read w)).
  repeat split.
  - intros Hw. destruct (write_descriptor env p w Hw) as (Hr & Hd & Hm & _).
    unfold QSAProject.remove_layer. st_unfold. fold p.
    destruct (QSAProject.write env p w) as [[rc|e] w'] eqn:E; simpl in *;
      [|discriminate].
    assert (QSAProject.read w' = p) as Hp by (unfold QSAProject.read; now rewrite Hd).
    destruct (QSAProject._mapproxy_enabled env); simpl;
      [|rewrite Hp; apply no_layer_after_remove].
    unfold QSAMapProxy.read, QSAMapProxy.write. st_unfold.
    destruct (mirror w') as [cfg|] eqn:Em; simpl;
      [|rewrite Hp; apply no_layer_after_remove].
    destruct (mirror_writable env); simpl; unfold QSAProject.read; simpl;
      rewrite Hd; apply no_layer_after_remove.
  - intros Hm. unfold QSAProject.remove_layer. st_unfold. fold p. rewrite Hm.
    unfold QSAProject.write. st_unfold.
    destruct (storage_writable env); reflexivity.
  - intros Hm Hn. unfold QSAProject.remove_layer. st_unfold. fold p. rewrite Hm.
    unfold QSAProject.write, QSAMapProxy.read. st_unfold.
    destruct (storage_writable env); simpl.
    + destruct (storage_backend env); simpl; now rewrite Hn.
    + now rewrite Hn.
  - intros b. unfold QSAProject.remove_layer. st_unfold. fold p.
    unfold QSAProject._mapproxy_enabled, QSAProject.write. st_unfold. simpl.
    destruct (storage_writable env); simpl;
      destruct (negb (mapproxy_projects_dir env =? "")); simpl; try reflexivity;
      unfold QSAMapProxy.read, QSAMapProxy.write; st_unfold; simpl.
    + destruct (storage_backend env); simpl; destruct (mirror w); reflexivity.
    + destruct (mirror w); reflexivity.
Qed.

Lemma remove_layer_result_witness :
  storage_writable (Fixture.env "/cache" true) = true
  ∧ QSAProject._mapproxy_enabled (Fixture.env "/cache" true) = true
  ∧ mirror (Fixture.with_project [Fixture.layer0] (Fixture.created None)) = None
  ∧ mapLayersByName "layer0"
      (QSAProject.read
         (snd (QSAProject.remove_layer (Fixture.env "/cache" true) "layer0"
                 (Fixture.with_project [Fixture.layer0] (Fixture.created None))))) = []
  ∧ fst (QSAProject.remove_layer (Fixture.env "/cache" true) "layer0"
           (Fixture.with_project [Fixture.layer0] (Fixture.created None))) = Ok false.
Proof.
  pose proof (remove_layer_result (Fixture.env "/cache" true) "layer0"
                (Fixture.with_project [Fixture.layer0] (Fixture.created None)))
    as (H1 & _ & H3 & _).
  split; [reflexivity|]. split; [reflexivity|]. split; [reflexivity|].
  split; [apply H1; reflexivity | apply H3; reflexivity].
Defined.

(** C4 as stated fails: with mirroring on and no readable mirror, the
    descriptor write succeeds and the layer is gone, yet [remove_layer]
    reports failure. *)
Lemma remove_layer_reports_mirror_failure :
  let env := Fixture.env "/cache" true in
  let w := Fixture.with_project [Fixture.layer0] (Fixture.created None) in
  fst (QSAProject.write env
         (removeMapLayers (map id (mapLayersByName "layer0" (QSAProject.read w)))
            (QSAProject.read w)) w) = Ok true
  ∧ QSAProject.layers (snd (QSAProject.remove_layer env "layer0" w)) = []
  ∧ fst (QSAProject.remove_layer env "layer0" w) = Ok false.
Proof. repeat split. Qed.

(** *** Applying a style to a layer *)

Lemma contains_key_insert {A} (k : string) (v : A) (m : list (string * A)) :
  contains_key k (qmap_insert k v m) = true.
Proof.
  unfold contains_key, keys.
  induction m as [|[k' v'] m IH]; simpl.
  - now rewrite String.eqb_refl.
  - destruct (String.compare k k') eqn:E; simpl.
    + now rewrite String.eqb_refl.
    + now rewrite String.eqb_refl.
    + rewrite IH. apply orb_true_r.
Qed.

Lemma attach_current (s : string) (doc : option Qml) (l : QgsMapLayer) :
  currentStyle (attach s doc l) = s.
Proof.
  unfold attach.
  set (l1 := if negb (existsb (String.eqb s) (styles l)) then _ else l).
  assert (contains_key s (mStyles (styleManager l1)) = true) as Hc.
  { subst l1. unfold styles. fold (contains_key s (mStyles (styleManager l))).
    destruct (contains_key s (mStyles (styleManager l))) eqn:E; simpl; [exact E|].
    unfold addStyle. rewrite E. simpl. apply contains_key_insert. }
  unfold setCurrentStyle. rewrite Hc. simpl.
  destruct (String.eqb s (mCurrentStyle (styleManager l1))) eqn:E.
  - apply String.eqb_eq in E. unfold currentStyle. now rewrite <- E.
  - reflexivity.
Qed.

Lemma attach_name (s : string) (doc : option Qml) (l : QgsMapLayer) :
  name (attach s doc l) = name l.
Proof.
  unfold attach, setCurrentStyle, addStyle.
  repeat (match goal with |- context [if ?b then _ else _] => destruct b end; simpl);
    reflexivity.
Qed.

Lemma clone_styling (l : QgsMapLayer) :
  styling (clone l) = styling l ∧ currentStyle (clone l) = "default".
Proof.
  unfold clone.
  assert (∀ ns c, styling c = styling l → currentStyle c = "default" →
            styling (fold_left (λ c n, addStyle n (style n l) c) ns c) = styling l
            ∧ currentStyle (fold_left (λ c n, addStyle n (style n l) c) ns c) = "default")
    as H.
  { induction ns as [|n ns IH]; intros c Hs Hc; simpl; [auto|].
    apply IH; unfold addStyle;
      destruct (contains_key n (mStyles (styleManager c))); simpl; auto. }
  apply H; reflexivity.
Qed.

Lemma apply_read_apply (d : option Qml) (s : Styling) :
  apply_document (Some (readFromLayer (apply_document d s))) s = apply_document d s.
Proof.
  destruct s as [r|rl]; destruct d as [[r'|st]|]; simpl; try reflexivity.
  all: destruct rl; reflexivity.
Qed.

Lemma refresh_refreshable (l : QgsMapLayer) :
  refreshable (styling l) →
  ∃ l', QSAProject.refresh l = Ok l'
        ∧ name l' = name l ∧ styleManager l' = styleManager l.
Proof.
  unfold refreshable, QSAProject.refresh.
  destruct (styling l) as [r|rl]; [eauto|].
  intros H. unfold RasterSymbologyRenderer.refresh_min_max. st_unfold.
  destruct (decide (limits (Qgs.renderer rl) = None_)) as [|Hn]; simpl; [eauto|].
  destruct H as [H|H]; [contradiction|].
  destruct (Qgs.renderer rl) as [g|m|p|n lim] eqn:E; simpl in *; try discriminate.
  - unfold RasterSymbologyRenderer._refresh_min_max_singlebandgray. st_unfold.
    rewrite E. simpl.
    apply bool_decide_eq_true in H. destruct H as [ce Hce]. rewrite Hce. simpl.
    destruct (RasterSymbologyRenderer.nothing_to_stretch _); simpl; eauto.
  - unfold RasterSymbologyRenderer._refresh_min_max_multibandcolor. st_unfold.
    rewrite E. simpl.
    apply andb_true_iff in H as [H Hb]. apply andb_true_iff in H as [Hr Hg].
    apply bool_decide_eq_true in Hr, Hg, Hb.
    destruct Hr as [r ->], Hg as [g ->], Hb as [b ->]. simpl.
    destruct (RasterSymbologyRenderer.nothing_to_stretch _); simpl; eauto.
    destruct (decide (multiLimits m = MinMax)); simpl; eauto.
  - eauto.
Qed.

Lemma update_first_by_name (n : string) (l l' : QgsMapLayer) (ls rest : list QgsMapLayer) :
  name l' = n →
  filter (λ x, String.eqb (name x) n) ls = l :: rest →
  filter (λ x, String.eqb (name x) n) (update_first n l' ls) = l' :: rest.
Proof.
  intros Hn. induction ls as [|x ls IH]; [discriminate|].
  rewrite filter_cons. cbn [update_first].
  destruct (String.eqb (name x) n) eqn:E; simpl.
  - intros [= _ <-]. rewrite filter_cons, Hn, String.eqb_refl. reflexivity.
  - intros H. rewrite filter_cons, E. simpl. now apply IH.
Qed.

Lemma layer_update_style_current (env : Env) (w : World.t) (layer_name s : string)
    (l l' : QgsMapLayer) (rest : list QgsMapLayer) :
  storage_writable env = true →
  mapLayersByName (strip layer_name) (QSAProject.read w) = l :: rest →
  QSAProject.refresh (attach s (qml w !! s) l) = Ok l' →
  ∃ w', QSAProject.layer_update_style env layer_name s true w = (Ok (true, ""), w')
        ∧ qml w' = qml w
        ∧ qsa_db w' = qsa_db w
        ∧ mirror w' = mirror w
        ∧ QSAProject.read w'
          = with_layers (update_first (strip layer_name) l' (mapLayers (QSAProject.read w)))
              (QSAProject.read w).
Proof.
  intros Hw Hl Hr.
  unfold QSAProject.layer_update_style, QSAMapProxy.clear_cache. st_unfold.
  change (QSAProject.read (set_tiles _ w)) with (QSAProject.read w).
  rewrite Hl. simpl.
  change (qml (set_tiles _ w)) with (qml w).
  fold (attach s (qml w !! s) l). rewrite Hr.
  unfold QSAProject.write. rewrite Hw. st_unfold. simpl.
  eexists. split; [reflexivity|].
  destruct (storage_backend env); simpl; auto.
Qed.

Lemma compare_refl (s : string) : String.compare s s = Eq.
Proof.
  pose proof (String.compare_antisym s s) as H.
  destruct (String.compare s s); simpl in H; congruence.
Qed.

Lemma ltb_compare (a b : string) :
  String.ltb a b = true → String.compare b a = Gt ∧ String.eqb b a = false.
Proof.
  unfold String.ltb. intros H.
  destruct (String.compare a b) eqn:E; try discriminate.
  split.
  - rewrite String.compare_antisym, E. reflexivity.
  - apply String.eqb_neq. intros ->. rewrite compare_refl in E. discriminate.
Qed.

Lemma style_default_of_loaded (doc : option Qml) (l : QgsMapLayer) :
  style "default" (loadNamedStyle doc (clone l))
  = Some (readFromLayer (apply_document doc (styling l))).
Proof.
  destruct (clone_styling l) as [Hs Hc].
  unfold style, loadNamedStyle. unfold currentStyle in *. simpl.
  rewrite Hc, Hs. reflexivity.
Qed.

(** The layer after a style sorting after ["default"] was attached to
    the single style ["default"] and made current. *)
Lemma attach_to_default (s1 : string) (doc : option Qml) (l : QgsMapLayer) :
  styles l = ["default"] →
  currentStyle l = "default" →
  String.ltb "default" s1 = true →
  currentStyle (attach s1 doc l) = s1
  ∧ styles (attach s1 doc l) = ["default"; s1]
  ∧ styling (attach s1 doc l) = apply_document doc (styling l).
Proof.
  intros Hs Hc Hlt. apply ltb_compare in Hlt as [Hgt Hne].
  split; [apply attach_current|].
  unfold attach. rewrite Hs. simpl. rewrite Hne. simpl.
  rewrite style_default_of_loaded.
  unfold styles, currentStyle in *.
  destruct l as [i n src pt v e c x g tr sty [ms cur]]. simpl in *. subst cur.
  destruct ms as [|[k d] [|? ?]]; try discriminate. simpl in Hs.
  injection Hs as ->.
  unfold addStyle, setCurrentStyle, contains_key, keys. simpl.
  repeat (rewrite ?Hne, ?Hgt, ?String.eqb_refl, ?compare_refl; simpl).
  split; [reflexivity|]. apply apply_read_apply.
Qed.

Lemma ltb_compare_lt (a b : string) :
  String.ltb a b = true →
  String.compare a b = Lt ∧ String.compare b a = Gt
  ∧ String.eqb a b = false ∧ String.eqb b a = false.
Proof.
  intros H. destruct (ltb_compare a b H) as [Hgt Hne].
  unfold String.ltb in H. destruct (String.compare a b) eqn:E; try discriminate.
  rewrite String.eqb_sym. auto.
Qed.

(** The layer after a style sorting before ["default"] was attached to
    the single style ["default"] and made current. *)
Lemma attach_before_default (s : string) (doc : option Qml) (l : QgsMapLayer) :
  styles l = ["default"] →
  currentStyle l = "default" →
  String.ltb s "default" = true →
  currentStyle (attach s doc l) = s
  ∧ styles (attach s doc l) = [s; "default"]
  ∧ styling (attach s doc l) = apply_document doc (styling l).
Proof.
  intros Hs Hc Hlt. apply ltb_compare_lt in Hlt as (Hlt & Hgt & Hne & Hne').
  split; [apply attach_current|].
  unfold attach. rewrite Hs. simpl. rewrite Hne. simpl.
  rewrite style_default_of_loaded.
  unfold styles, currentStyle in *.
  destruct l as [i n src pt v e c x g tr sty [ms cur]]. simpl in *. subst cur.
  destruct ms as [|[k d] [|? ?]]; try discriminate. simpl in Hs.
  injection Hs as ->.
  unfold addStyle, setCurrentStyle, contains_key, keys. simpl.
  repeat (rewrite ?Hne, ?Hne', ?Hgt, ?Hlt, ?String.eqb_refl, ?compare_refl; simpl).
  split; [reflexivity|]. apply apply_read_apply.
Qed.

(** C5, as the code has it.  Take the layer that [layer_update_style]
    addresses, with the style set [["default"]], and a style name other
    than ["default"].  When the styling that results can be refreshed
    and the storage accepts the write, applying the style as current
    succeeds, leaves the stored style documents untouched, and the
    layer ends with that style current and a style list that holds
    ["default"] and the style in name order, as the style manager lists
    them: [["default"; s1]] for a name that sorts after ["default"],
    [[s1; "default"]] for one that sorts before. *)
Theorem apply_style_postcondition (env : Env) (w : World.t) (layer_name s1 : string)
    (l : QgsMapLayer) (rest : list QgsMapLayer) :
  storage_writable env = true →
  mapLayersByName (strip layer_name) (QSAProject.read w) = l :: rest →
  styles l = ["default"] →
  currentStyle l ∈ styles l →
  s1 ≠ "default" →
  refreshable (apply_document (qml w !! s1) (styling l)) →
  ∃ w' l',
    QSAProject.layer_update_style env layer_name s1 true w = (Ok (true, ""), w')
    ∧ qml w' = qml w
    ∧ mapLayersByName (strip layer_name) (QSAProject.read w') = l' :: rest
    ∧ currentStyle l' = s1
    ∧ styles l' = (if String.ltb s1 "default" then [s1; "default"] else ["default"; s1]).
Proof.
  intros Hw Hl Hs Hin Hne Hr.
  assert (currentStyle l = "default") as Hc.
  { rewrite Hs in Hin. apply list_elem_of_singleton in Hin. exact Hin. }
  assert (currentStyle (attach s1 (qml w !! s1) l) = s1
          ∧ styles (attach s1 (qml w !! s1) l)
            = (if String.ltb s1 "default" then [s1; "default"] else ["default"; s1])
          ∧ styling (attach s1 (qml w !! s1) l)
            = apply_document (qml w !! s1) (styling l)) as (Ha1 & Ha2 & Ha3).
  { destruct (String.ltb s1 "default") eqn:Elt.
    - apply attach_before_default; assumption.
    - apply attach_to_default; [assumption|assumption|].
      unfold String.ltb in *. rewrite String.compare_antisym.
      destruct (String.compare s1 "default") eqn:Ec; [|discriminate|reflexivity].
      apply String.compare_eq_iff in Ec. contradiction. }
  rewrite <- Ha3 in Hr.
  destruct (refresh_refreshable _ Hr) as (l' & Hl' & Hn' & Hm').
  destruct (layer_update_style_current env w layer_name s1 l l' rest Hw Hl Hl')
    as (w' & Hres & Hq & _ & _ & Hp).
  exists w', l'. split; [exact Hres|]. split; [exact Hq|].
  split.
  - rewrite Hp. unfold mapLayersByName. simpl.
    apply update_first_by_name with (l := l); [|exact Hl].
    rewrite Hn', attach_name.
    assert (l ∈ mapLayersByName (strip layer_name) (QSAProject.read w)) as Hx
      by (rewrite Hl; apply list_elem_of_here).
    apply list_elem_of_filter in Hx as [Hx _].
    apply Is_true_true in Hx. now apply String.eqb_eq in Hx.
  - unfold currentStyle, styles in *. rewrite Hm'. auto.
Qed.

Lemma apply_style_postcondition_witness :
  let env := Fixture.env "" true in
  let w := Fixture.scenario_c in
  storage_writable env = true
  ∧ mapLayersByName (strip "raster0") (QSAProject.read w) = [Fixture.raster0]
  ∧ styles Fixture.raster0 = ["default"]
  ∧ ∃ w' l',
      QSAProject.layer_update_style env "raster0" "s1" true w = (Ok (true, ""), w')
      ∧ qml w' = qml w
      ∧ mapLayersByName (strip "raster0") (QSAProject.read w') = [l']
      ∧ currentStyle l' = "s1"
      ∧ styles l' = ["default"; "s1"].
Proof.
  intros env w.
  split; [reflexivity|]. split; [reflexivity|]. split; [reflexivity|].
  apply (apply_style_postcondition env w "raster0" "s1" Fixture.raster0 []).
  - reflexivity.
  - reflexivity.
  - reflexivity.
  - apply list_elem_of_here.
  - discriminate.
  - right. reflexivity.
Defined.

(** C5 as stated fails: the stored style ["custom"], applied as current
    to a layer whose style set is [["default"]], leaves the style list
    [["custom"; "default"]], not [["default"; "custom"]]: the style
    manager lists its styles by name. *)
Lemma apply_style_lists_by_name :
  let env := Fixture.env "" true in
  let doc := VectorQml (QgsSingleSymbolRenderer (LineSymbol [])) in
  let w := Fixture.with_style_file "custom" doc
             (Fixture.with_project [Fixture.layer0] (Fixture.created None)) in
  let r := QSAProject.layer_update_style env "layer0" "custom" true w in
  styles Fixture.layer0 = ["default"]
  ∧ qml w !! "custom" = Some doc
  ∧ fst r = Ok (true, "")
  ∧ (λ l, (currentStyle l, styles l)) <$> mapLayers (QSAProject.read (snd r))
    = [("custom", ["custom"; "default"])].
Proof. vm_compute. repeat split. Qed.

(** Scenario C, run: the style manager of the layer afterwards. *)
Example scenario_c_run :
  (λ l, (currentStyle l, styles l)) <$>
    mapLayers (QSAProject.read
      (snd (QSAProject.layer_update_style (Fixture.env "" true) "raster0" "s1" true
              Fixture.scenario_c)))
  = [("s1", ["default"; "s1"])].
Proof. vm_compute. reflexivity. Qed.

(** *** Adding a layer *)

Lemma vector_layer_shape (env : Env) (ds n provider : string) (lyr : QgsMapLayer) :
  QSAProject.vector_layer env ds n provider = Ok lyr →
  name lyr = n ∧ styleManager lyr = new_manager ∧ ∃ r, styling lyr = VectorStyling r.
Proof.
  unfold QSAProject.vector_layer. st_unfold.
  destruct (contains "wkb_geometry" ds).
  - destruct (index (split "." ds) 1); [|discriminate].
    intros [= <-]. simpl. eauto.
  - intros [= <-]. simpl. eauto.
Qed.

Lemma style_update_state (g s : string) (w0 : World.t) :
  ∃ d, qsa_db (snd (QSAProject.style_update g s w0))
       = Some (QSAProject.update_style g s d)
       ∧ descriptor (snd (QSAProject.style_update g s w0)) = descriptor w0
       ∧ qml (snd (QSAProject.style_update g s w0)) = qml w0.
Proof.
  unfold QSAProject.style_update, QSAProject.sqlite_db, QSAProject.mkdir_project_dir.
  st_unfold. destruct (qsa_db w0) as [d|]; simpl; eauto.
Qed.

Lemma mirror_layer_descriptor (env : Env) (lyr : QgsMapLayer) (n : string)
    (t : LayerType) (dt : option QDateTime) (w : World.t) :
  descriptor (snd (QSAProject.mirror_layer env lyr n t dt w)) = descriptor w.
Proof.
  unfold QSAProject.mirror_layer, QSAMapProxy.read, QSAMapProxy.add_layer,
    QSAMapProxy.write. st_unfold.
  destruct (QSAProject._layer_bbox lyr); simpl; [|reflexivity].
  destruct (QSAProject._layer_epsg_code lyr); simpl; [|reflexivity].
  destruct (_ <? 0)%Z; simpl; [reflexivity|].
  destruct (mirror w); simpl; [|reflexivity].
  destruct (mirror_writable env); reflexivity.
Qed.

Lemma names_filter_nil (n : string) (ls : list QgsMapLayer) :
  n ∉ map name ls → filter (λ x, String.eqb (name x) n) ls = [].
Proof.
  intros H. apply elem_of_nil_inv. intros x Hx.
  apply list_elem_of_filter in Hx as [Hn Hx].
  apply Is_true_true, String.eqb_eq in Hn. apply H. subst n.
  apply list_elem_of_In, in_map, list_elem_of_In, Hx.
Qed.

Lemma update_first_app (n : string) (l l' : QgsMapLayer) (ls : list QgsMapLayer) :
  n ∉ map name ls → name l = n →
  update_first n l' (ls ++ [l]) = ls ++ [l'].
Proof.
  intros H Hn. induction ls as [|x ls IH]; simpl.
  - now rewrite Hn, String.eqb_refl.
  - destruct (String.eqb (name x) n) eqn:E.
    + exfalso. apply H. apply String.eqb_eq in E. rewrite <- E. simpl. left.
    + f_equal. apply IH. intros Hin. apply H. simpl. now right.
Qed.

(** C6.  After [style_update("polygon", "custom")], adding a valid
    vector layer of polygon geometry under a new name (one that
    [strip] leaves alone), on a storage that accepts writes, registers
    the layer with exactly the styles ["default"] and ["custom"],
    ["custom"] being current; without cache mirror the call reports
    success. *)
Theorem add_layer_applies_default_style (env : Env) (w0 : World.t)
    (datasource n : string) (epsg_code : Z) (overview : bool)
    (datetime : option QDateTime) (lyr : QgsMapLayer) :
  storage_writable env = true →
  strip n = n →
  n ∉ QSAProject.layers w0 →
  QSAProject.vector_layer env datasource n
    (QSAProject._layer_provider Vector datasource) = Ok lyr →
  isValid lyr = true →
  geometryType lyr = Polygon →
  let w := snd (QSAProject.style_update "polygon" "custom" w0) in
  let r := QSAProject.add_layer env datasource "vector" n epsg_code overview datetime w in
  (∃ l', mapLayersByName n (QSAProject.read (snd r)) = [l']
         ∧ currentStyle l' = "custom"
         ∧ styles l' ≡ₚ ["default"; "custom"])
  ∧ (QSAProject._mapproxy_enabled env = false → fst r = Ok (true, "")).
Proof.
  intros Hw Hstrip Hnew Hlyr Hvalid Hgeom w r.
  destruct (style_update_state "polygon" "custom" w0) as (d & Hdb & Hdesc & _).
  fold w in Hdb, Hdesc.
  assert (QSAProject.read w = QSAProject.read w0) as Hread
    by (unfold QSAProject.read; now rewrite Hdesc).
  destruct (vector_layer_shape _ _ _ _ _ Hlyr) as (Hname & Hman & r0 & Hsty).
  set (lyr' := if (0 <? epsg_code)%Z
               then setCrs (crs_from_string env ("EPSG:" +:+ pretty epsg_code)) lyr
               else lyr).
  assert (name lyr' = n ∧ styleManager lyr' = new_manager
          ∧ styling lyr' = VectorStyling r0 ∧ isValid lyr' = true
          ∧ geometryType lyr' = Polygon) as (Hname' & Hman' & Hsty' & Hvalid' & Hgeom').
  { subst lyr'. destruct (0 <? epsg_code)%Z; simpl; auto. }
  set (p1 := addMapLayer lyr' (QSAProject.read w)).
  set (w1 := snd (QSAProject.write env p1 w)).
  destruct (write_descriptor env p1 w Hw) as (Hrc1 & Hd1 & Hm1 & Hq1).
  fold w1 in Hd1, Hm1, Hq1.
  assert (QSAProject.read w1 = p1) as Hread1
    by (unfold QSAProject.read; now rewrite Hd1).
  assert (mapLayersByName (strip n) (QSAProject.read w1) = [lyr']) as Hfind.
  { rewrite Hread1, Hstrip. unfold mapLayersByName, p1. simpl.
    rewrite filter_app, names_filter_nil by (now rewrite Hread).
    rewrite filter_cons, Hname', String.eqb_refl. reflexivity. }
  assert (styles lyr' = ["default"] ∧ currentStyle lyr' = "default") as [Hs Hc]
    by (unfold styles, currentStyle; rewrite Hman'; auto).
  destruct (attach_before_default "custom" (qml w1 !! "custom") lyr' Hs Hc eq_refl)
    as (Ha1 & Ha2 & Ha3).
  assert (refreshable (styling (attach "custom" (qml w1 !! "custom") lyr'))) as Href.
  { rewrite Ha3, Hsty'. destruct (qml w1 !! "custom") as [[?|?]|]; exact I. }
  destruct (refresh_refreshable _ Href) as (l' & Hl' & Hn' & Hm').
  destruct (layer_update_style_current env w1 n "custom" lyr' l' [] Hw Hfind Hl')
    as (w2 & Hres & _ & _ & _ & Hp2).
  assert (QSAProject.add_layer env datasource "vector" n epsg_code overview datetime w
          = if QSAProject._mapproxy_enabled env
            then QSAProject.mirror_layer env lyr' n Vector datetime w2
            else (Ok (true, ""), w2)) as Hrun.
  { unfold QSAProject.add_layer.
    change (QSAProject._layer_type "vector") with (Some Vector). st_unfold.
    rewrite bool_decide_eq_false_2
      by (unfold QSAProject.layers; rewrite Hread; exact Hnew).
    rewrite Hlyr. simpl. rewrite Hvalid. simpl. fold lyr'. rewrite Hvalid'. simpl.
    fold p1. destruct (QSAProject.write env p1 w) as [[rc|e] w1'] eqn:Ew;
      simpl in Hrc1; [|discriminate]. simpl in w1. subst w1.
    unfold QSAProject.style_default, QSAProject.sqlite_db. st_unfold.
    assert (qsa_db w1' = Some (QSAProject.update_style "polygon" "custom" d)) as Hdb1.
    { pose proof (f_equal snd Ew) as Hsnd. simpl in Hsnd. rewrite <- Hsnd.
      unfold QSAProject.write. rewrite Hw. st_unfold. simpl.
      destruct (storage_backend env); exact Hdb. }
    rewrite Hdb1. simpl. rewrite Hgeom'. simpl. rewrite Hres. simpl.
    destruct (QSAProject._mapproxy_enabled env); reflexivity. }
  assert (mapLayersByName n (QSAProject.read w2) = [l']) as Hfinal.
  { rewrite Hp2, Hstrip, Hread1. unfold p1. simpl.
    rewrite update_first_app; [| now rewrite Hread | exact Hname'].
    unfold mapLayersByName. simpl.
    rewrite filter_app, names_filter_nil by (now rewrite Hread).
    rewrite filter_cons, Hn', attach_name, Hname', String.eqb_refl. reflexivity. }
  subst r. rewrite Hrun. split.
  - exists l'. split; [|split].
    + destruct (QSAProject._mapproxy_enabled env); [|exact Hfinal].
      unfold QSAProject.read. rewrite mirror_layer_descriptor. exact Hfinal.
    + unfold currentStyle in *. now rewrite Hm'.
    + unfold styles in *. rewrite Hm', Ha2. apply perm_swap.
  - intros ->. reflexivity.
Qed.

Lemma add_layer_applies_default_style_witness :
  let env := Fixture.env "" true in
  let w := snd (QSAProject.style_update "polygon" "custom" (Fixture.created None)) in
  let r := QSAProject.add_layer env "d.gpkg|layername=polygons" "vector" "layer0"
             4326 false None w in
  strip "layer0" = "layer0"
  ∧ QSAProject.vector_layer env "d.gpkg|layername=polygons" "layer0" "ogr"
    = Ok Fixture.layer0
  ∧ (∃ l', mapLayersByName "layer0" (QSAProject.read (snd r)) = [l']
           ∧ currentStyle l' = "custom"
           ∧ styles l' ≡ₚ ["default"; "custom"])
  ∧ (QSAProject._mapproxy_enabled env = false → fst r = Ok (true, "")).
Proof.
  intros env w r.
  split; [reflexivity|]. split; [reflexivity|].
  apply (add_layer_applies_default_style env (Fixture.created None)
           "d.gpkg|layername=polygons" "layer0" 4326 false None Fixture.layer0).
  - reflexivity.
  - reflexivity.
  - apply not_elem_of_nil.
  - reflexivity.
  - reflexivity.
  - reflexivity.
Defined.

(** Scenario E, run. *)
Example scenario_e_run :
  let w := snd (QSAProject.style_update "polygon" "custom" (Fixture.created None)) in
  (λ l, (name l, currentStyle l)) <$>
    mapLayers (QSAProject.read
      (snd (QSAProject.add_layer (Fixture.env "" true) "d.gpkg|layername=polygons"
              "vector" "layer0" 4326 false None w)))
  = [("layer0", "custom")].
Proof. vm_compute. reflexivity. Qed.

(** Before the layer is written, [add_layer] rejects without touching
    anything: an unknown kind, ... *)
Lemma add_layer_invalid_kind (env : Env) (datasource layer_type n : string)
    (epsg_code : Z) (overview : bool) (datetime : option QDateTime) (w : World.t) :
  QSAProject._layer_type layer_type = None →
  QSAProject.add_layer env datasource layer_type n epsg_code overview datetime w
  = (Ok (false, "Invalid layer type"), w).
Proof. intros H. unfold QSAProject.add_layer. now rewrite H. Qed.

(** ... a name already taken, ... *)
Lemma add_layer_duplicate (env : Env) (datasource layer_type n : string)
    (epsg_code : Z) (overview : bool) (datetime : option QDateTime) (w : World.t) :
  is_Some (QSAProject._layer_type layer_type) →
  n ∈ QSAProject.layers w →
  QSAProject.add_layer env datasource layer_type n epsg_code overview datetime w
  = (Ok (false, "A layer " +:+ n +:+ " already exists"), w).
Proof.
  intros [t Ht] Hin. unfold QSAProject.add_layer. rewrite Ht. st_unfold.
  now rewrite bool_decide_eq_true_2.
Qed.

(** ... a raster datasource that is invalid or whose overview cannot be
    built. *)
Lemma add_layer_invalid_raster (env : Env) (datasource layer_type n : string)
    (epsg_code : Z) (overview : bool) (datetime : option QDateTime) (w : World.t) :
  QSAProject._layer_type layer_type = Some Raster →
  n ∉ QSAProject.layers w →
  rasterValid (raster_source env datasource "gdal") = false →
  ∃ msg,
    QSAProject.add_layer env datasource layer_type n epsg_code overview datetime w
    = (Ok (false, msg), w).
Proof.
  intros Ht Hn Hv. unfold QSAProject.add_layer. rewrite Ht. st_unfold.
  rewrite bool_decide_eq_false_2 by exact Hn.
  unfold QSAProject.raster_layer. simpl.
  destruct (overview && _ && _); simpl; [eauto|].
  destruct datetime; simpl; rewrite Hv; simpl; eauto.
Qed.

(** An unparseable [datetime] stops the handler before [add_layer] is
    called: the answer is an error and the layer set is what it was. *)
Lemma project_add_layer_invalid_datetime (env : Env) (d : list (string * json))
    (text : string) (w : World.t) :
  fst (QSAProject.exists_ env w) = Ok true →
  Api.validate (JDict d) ["name"; "datasource"; "type"]
    [("name", Api.TString); ("datasource", Api.TString); ("crs", Api.TNumber);
     ("type", Api.TString); ("overview", Api.TBoolean); ("datetime", Api.TString)]
  = Ok d →
  assoc "crs" d = None →
  assoc "datetime" d = Some (JStr text) →
  fromString env text "yyyy-MM-dd HH:mm:ss" = None →
  fst (Api.project_add_layer env (Ok (JDict d)) w)
    = (JDict [("error", JStr "Invalid datetime")], 415%Z)
  ∧ QSAProject.layers (snd (Api.project_add_layer env (Ok (JDict d)) w)) = QSAProject.layers w.
Proof.
  intros He Hv Hc Hd Hf.
  assert (descriptor (snd (QSAProject.exists_ env w)) = descriptor w) as Hdesc.
  { unfold QSAProject.exists_. st_unfold.
    destruct (storage_backend env); simpl; [reflexivity|].
    destruct (listed w); reflexivity. }
  assert (∃ b, (if has_key "overview" d
                then v ← dict_get d "overview";
                     Ok (match v with JBool b => b | _ => false end)
                else Ok false) = Ok b) as [b Hb].
  { unfold has_key, dict_get. destruct (assoc "overview" d); simpl; eauto. }
  destruct (QSAProject.exists_ env w) as [[[|]|e] w'] eqn:E; simpl in He, Hdesc;
    try discriminate.
  assert (Api.project_add_layer env (Ok (JDict d)) w
          = ((JDict [("error", JStr "Invalid datetime")], 415%Z), w')) as ->.
  { unfold Api.project_add_layer, Api.try_except. st_unfold. rewrite E.
    cbn [negb]. rewrite Hv. cbn beta iota.
    unfold has_key at 1. rewrite Hc. cbn beta iota. rewrite Hb. cbn beta iota.
    unfold has_key, dict_get. rewrite Hd. cbn beta iota.
    cbn [QSAProject.py_string]. rewrite Hf. reflexivity. }
  split; [reflexivity|]. simpl.
  unfold QSAProject.layers, QSAProject.read. now rewrite Hdesc.
Qed.

(** C1, where it fails.  With the cache mirror enabled and a storage
    that accepts writes, adding under a new name a valid raster whose
    reference system has no authority identifier, without CRS override,
    is refused with "Invalid CRS" after the descriptor was written: the
    call reports failure and the layer is in the layer set. *)
Theorem add_layer_invalid_crs_keeps_layer (env : Env) (w : World.t)
    (datasource layer_type n : string) (epsg_code : Z)
    (datetime : option QDateTime) (bbox : list float) :
  QSAProject._mapproxy_enabled env = true →
  storage_writable env = true →
  QSAProject._layer_type layer_type = Some Raster →
  n ∉ QSAProject.layers w →
  rasterValid (raster_source env datasource "gdal") = true →
  rasterCrs (raster_source env datasource "gdal") = "" →
  QSAProject.floats_of_wkt (rasterExtent (raster_source env datasource "gdal")) = Ok bbox →
  (epsg_code <= 0)%Z →
  let r := QSAProject.add_layer env datasource layer_type n epsg_code false datetime w in
  fst r = Ok (false, "Invalid CRS ")
  ∧ QSAProject.layers (snd r) = QSAProject.layers w ++ [n].
Proof.
  intros Hm Hw Ht Hn Hv Hc Hb He r. subst r.
  unfold QSAProject.add_layer. rewrite Ht. st_unfold.
  rewrite bool_decide_eq_false_2 by exact Hn.
  unfold QSAProject.raster_layer. cbn [andb QSAProject._layer_provider].
  assert ((0 <? epsg_code)%Z = false) as -> by (apply Z.ltb_ge; exact He).
  destruct datetime as [dt|]; simpl; rewrite Hv; simpl.
  all: unfold QSAProject.write; rewrite Hw; st_unfold; simpl.
  all: rewrite Hm.
  all: unfold QSAProject.mirror_layer, QSAProject._layer_bbox,
         QSAProject._layer_epsg_code; st_unfold; simpl.
  all: rewrite Hb, Hc; simpl.
  all: unfold QSAProject.layers, QSAProject.read, addMapLayer.
  all: destruct (storage_backend env); simpl; rewrite map_app; auto.
Qed.

Lemma add_layer_invalid_crs_keeps_layer_witness :
  let env := Fixture.env "/cache" true in
  let w := Fixture.created (Some []) in
  let r := QSAProject.add_layer env "landsat.tif" "raster" "layer0" (-1) false None w in
  QSAProject._mapproxy_enabled env = true
  ∧ rasterCrs (raster_source env "landsat.tif" "gdal") = ""
  ∧ QSAProject.layers w = []
  ∧ fst r = Ok (false, "Invalid CRS ")
  ∧ QSAProject.layers (snd r) = ["layer0"].
Proof.
  intros env w r.
  split; [reflexivity|]. split; [reflexivity|]. split; [reflexivity|].
  apply (add_layer_invalid_crs_keeps_layer env w "landsat.tif" "raster" "layer0" (-1)
           None [float_of_Z 0; float_of_Z 0; float_of_Z 10; float_of_Z 10]).
  - reflexivity.
  - reflexivity.
  - reflexivity.
  - apply not_elem_of_nil.
  - reflexivity.
  - reflexivity.
  - vm_compute. reflexivity.
  - discriminate.
Defined.

(** The same defect with a mirror that cannot be read: a valid vector
    layer is registered, styled, and the call reports failure. *)
Example add_layer_unreadable_mirror_keeps_layer :
  let env := Fixture.env "/cache" true in
  let w := Fixture.created None in
  let r := QSAProject.add_layer env "d.gpkg|layername=polygons" "vector" "layer0"
             4326 false None w in
  fst r = Ok (false, "Cannot read the cache mirror")
  ∧ QSAProject.layers w = []
  ∧ QSAProject.layers (snd r) = ["layer0"].
Proof. vm_compute. repeat split. Qed.

(** *** Removing a style *)

Lemma elem_of_styles (n : string) (w : World.t) :
  n ∈ QSAProject.styles w ↔ is_Some (qml w !! n).
Proof.
  unfold QSAProject.styles. rewrite list_elem_of_fmap. split.
  - intros [[k v] [-> H]]. apply elem_of_map_to_list in H. simpl. eauto.
  - intros [v H]. exists (n, v). split; [reflexivity|].
    now apply elem_of_map_to_list.
Qed.

Lemma contains_key_elem_of {A} (k : string) (m : list (string * A)) :
  contains_key k m = true ↔ k ∈ keys m.
Proof.
  unfold contains_key. rewrite existsb_exists, list_elem_of_In. split.
  - intros [x [Hx He]]. apply String.eqb_eq in He. now subst.
  - intros H. exists k. split; [exact H|apply String.eqb_refl].
Qed.

Lemma keys_qmap_remove {A} (k : string) (m : list (string * A)) :
  k ∉ keys (qmap_remove k m).
Proof.
  unfold keys, qmap_remove. intros H.
  apply list_elem_of_In, in_map_iff in H as [[k' v] [Hk H]]. simpl in Hk. subst k'.
  apply list_elem_of_In, list_elem_of_filter in H as [H _]. simpl in H.
  rewrite String.eqb_refl in H. exact H.
Qed.

(** Removing a style that is not the current one detaches it. *)
Lemma removeStyle_detaches (n : string) (l : QgsMapLayer) :
  currentStyle l ≠ n →
  currentStyle l ∈ styles l →
  n ∉ styles (removeStyle n l).
Proof.
  intros Hne Hin. unfold removeStyle, styles, currentStyle in *.
  destruct (contains_key n (mStyles (styleManager l))) eqn:Ec; simpl.
  - destruct (_ =? 1)%nat eqn:El; simpl.
    + exfalso. apply Nat.eqb_eq in El.
      apply contains_key_elem_of in Ec.
      destruct (mStyles (styleManager l)) as [|[k v] [|? ?]]; try discriminate.
      unfold keys in *. simpl in *.
      apply list_elem_of_singleton in Ec, Hin. congruence.
    + destruct (String.eqb n (mCurrentStyle (styleManager l))) eqn:Ee.
      * apply String.eqb_eq in Ee. congruence.
      * simpl. apply keys_qmap_remove.
  - intros H. apply contains_key_elem_of in H. congruence.
Qed.

(** C3.  For a stored style [n]: if some layer has it as current style,
    [remove_style] fails and changes nothing; if no layer has, it
    succeeds and deletes the style document, and on a storage that
    accepts the write no layer of the project has [n] among its styles
    any more (each layer's current style being one of its styles). *)
Theorem remove_style_in_use_or_removed (env : Env) (n : string) (w : World.t) :
  n ∈ QSAProject.styles w →
  (∀ l, l ∈ mapLayers (QSAProject.read w) → currentStyle l ∈ styles l) →
  ((∃ l, l ∈ mapLayers (QSAProject.read w) ∧ currentStyle l = n) →
   ∃ l, l ∈ mapLayers (QSAProject.read w) ∧ currentStyle l = n
        ∧ QSAProject.remove_style env n w
          = (Ok (false, "Style is used by " +:+ name l), w))
  ∧ ((∀ l, l ∈ mapLayers (QSAProject.read w) → currentStyle l ≠ n) →
     ∃ w', QSAProject.remove_style env n w = (Ok (true, ""), w')
           ∧ qml w' = delete n (qml w)
           ∧ (n ∉ QSAProject.styles w')
           ∧ (storage_writable env = true →
              ∀ l, l ∈ mapLayers (QSAProject.read w') → n ∉ styles l)).
Proof.
  intros Hst Hwf.
  assert (bool_decide (n ∈ QSAProject.styles w) = true) as Hb
    by now apply bool_decide_eq_true.
  split.
  - intros [l [Hl Hc]].
    destruct (find (λ layer, String.eqb n (currentStyle layer))
                (mapLayers (QSAProject.read w))) as [l0|] eqn:Ef.
    + apply find_some in Ef as Hf. destruct Hf as [Hin He].
      apply String.eqb_eq in He. exists l0.
      split; [now apply list_elem_of_In|]. split; [auto|].
      unfold QSAProject.remove_style. st_unfold. rewrite Hb. simpl.
      now rewrite Ef.
    + exfalso. apply list_elem_of_In in Hl.
      pose proof (find_none _ _ Ef l Hl) as Hx. simpl in Hx.
      rewrite Hc, String.eqb_refl in Hx. discriminate.
  - intros Hfree.
    assert (find (λ layer, String.eqb n (currentStyle layer))
              (mapLayers (QSAProject.read w)) = None) as Ef.
    { destruct (find _ _) as [l0|] eqn:Ef; [|reflexivity].
      apply find_some in Ef as [Hin He]. apply String.eqb_eq in He.
      exfalso. apply (Hfree l0); [now apply list_elem_of_In|auto]. }
    unfold QSAProject.remove_style. st_unfold. rewrite Hb. simpl. rewrite Ef.
    unfold QSAProject.write. st_unfold.
    destruct (storage_writable env) eqn:Ew; simpl.
    + eexists. split; [reflexivity|].
      destruct (storage_backend env); simpl.
      all: split; [reflexivity|]; split;
        [rewrite elem_of_styles; simpl; rewrite lookup_delete_eq;
         intros [? ?]; discriminate|].
      all: intros _ l Hl; unfold QSAProject.read in Hl; simpl in Hl.
      all: apply list_elem_of_In, in_map_iff in Hl as [l0 [<- Hl0]].
      all: apply list_elem_of_In in Hl0.
      all: apply removeStyle_detaches; [apply Hfree|apply Hwf]; exact Hl0.
    + eexists. split; [reflexivity|]. split; [reflexivity|].
      split; [|discriminate].
      rewrite elem_of_styles. simpl. rewrite lookup_delete_eq.
      intros [? ?]; discriminate.
Qed.

Lemma remove_style_in_use_or_removed_witness :
  let env := Fixture.env "" true in
  let w := snd (QSAProject.layer_update_style env "raster0" "s1" true Fixture.scenario_c) in
  ("s1" ∈ QSAProject.styles w)
  ∧ fst (QSAProject.remove_style env "s1" w) = Ok (false, "Style is used by raster0")
  ∧ snd (QSAProject.remove_style env "s1" w) = w
  ∧ fst (QSAProject.remove_style env "s1" Fixture.scenario_c) = Ok (true, "")
  ∧ ("s1" ∉ QSAProject.styles (snd (QSAProject.remove_style env "s1" Fixture.scenario_c))).
Proof.
  intros env w.
  assert ("s1" ∈ QSAProject.styles w) as H1.
  { apply elem_of_styles. eexists. vm_compute. reflexivity. }
  assert ("s1" ∈ QSAProject.styles Fixture.scenario_c) as H1'.
  { apply elem_of_styles. eexists. vm_compute. reflexivity. }
  assert (∀ l, l ∈ mapLayers (QSAProject.read w) → currentStyle l ∈ styles l) as H2.
  { intros l Hl. vm_compute in Hl. apply list_elem_of_singleton in Hl. subst l.
    vm_compute. apply list_elem_of_further, list_elem_of_here. }
  assert (∀ l, l ∈ mapLayers (QSAProject.read Fixture.scenario_c) →
               currentStyle l ∈ styles l) as H2'.
  { intros l Hl. vm_compute in Hl. apply list_elem_of_singleton in Hl. subst l.
    vm_compute. apply list_elem_of_here. }
  destruct (remove_style_in_use_or_removed env "s1" w H1 H2) as [Huse _].
  destruct (remove_style_in_use_or_removed env "s1" Fixture.scenario_c H1' H2')
    as [_ Hfree].
  split; [exact H1|].
  destruct Huse as (l & Hl & Hc & Hr).
  { eexists. split; [vm_compute; apply list_elem_of_here|reflexivity]. }
  vm_compute in Hl. apply list_elem_of_singleton in Hl. subst l.
  destruct Hfree as (w' & Hr' & Hq & Hn & _).
  { intros l Hl. vm_compute in Hl. apply list_elem_of_singleton in Hl. subst l.
    discriminate. }
  rewrite Hr, Hr'. simpl. auto.
Defined.

(** Scenario D, run: the style is current on the raster layer and
    cannot be deleted; once ["default"] is current again it can, and the
    layer no longer lists it. *)
Example scenario_d_run :
  let env := Fixture.env "" true in
  let w1 := snd (QSAProject.layer_update_style env "raster0" "s1" true Fixture.scenario_c) in
  let w2 := snd (QSAProject.layer_update_style env "raster0" "default" true w1) in
  let w3 := snd (QSAProject.remove_style env "s1" w2) in
  fst (QSAProject.remove_style env "s1" w1) = Ok (false, "Style is used by raster0")
  ∧ fst (QSAProject.remove_style env "s1" w2) = Ok (true, "")
  ∧ QSAProject.styles w3 = []
  ∧ styles <$> mapLayers (QSAProject.read w3) = [["default"]].
Proof. vm_compute. repeat split. Qed.

(** *** Adding a style *)





(** *** Marker colours *)





(** A colour with three channels makes the decoder raise, and nothing
    is stored. *)
Example marker_color_three_channels :
  QSAProject.add_style (Fixture.env "" true) "m" "vector"
    (marker_symbology [("color", JStr "1,2,3"); ("symbol_path", JStr "star.svg");
                       ("size", JInt 6)]) [] (Fixture.created None)
  = (Raise IndexError, Fixture.created None).
Proof. vm_compute. reflexivity. Qed.

(** The categorized style reads its marker colours the same way. *)
Example categorized_marker_color_unchecked :
  QSAProject.vector_render
    [("type", JStr "categorized"); ("symbol", JStr "marker");
     ("properties",
      JDict [("attributs", JStr "kind");
             ("list_categorized",
              JList [JDict [("value", JStr "a"); ("symbol_path", JStr "star.svg");
                            ("color", JStr "1,2,3,400,5"); ("size", JInt 6)]])])]
  = Ok (Some (QgsCategorizedSymbolRenderer "kind"
                [{| categoryValue := JStr "a";
                    categorySymbol := MarkerSymbol (SvgMarker
                      {| svgPath := "star.svg"; svgColor := InvalidColor;
                         svgStrokeColor := InvalidColor; svgSize := float_of_Z 6;
                         svgSizeUnit := RenderMillimeters |});
                    categoryLabel := "test" |}])).
Proof. vm_compute. reflexivity. Qed.

(** *** The raster codec round trip *)

Lemma clamp_c_int (lo hi v : Z) :
  (- 2 ^ 31 <= lo)%Z → (hi < 2 ^ 31)%Z → QSAProject.clamp lo hi v = v → c_int v = Ok v.
Proof.
  unfold QSAProject.clamp, c_int. intros Hlo Hhi H.
  assert (lo <= v <= hi)%Z as Hr.
  { destruct (v <? lo)%Z eqn:E1; [lia|]. destruct (hi <? v)%Z eqn:E2; [lia|]. lia. }
  destruct (- 2 ^ 31 <=? v)%Z eqn:E1; [|lia].
  destruct (v <? 2 ^ 31)%Z eqn:E2; [reflexivity|lia].
Qed.

(** C2, where it fails.  The encoder writes empty properties for a
    pseudocolour renderer, so decoding the encoding of a pseudocolour
    style gives the style with the default renderer, band 1 without
    shader, whatever band and colour ramp the style had: no
    pseudocolour style other than the default one comes back from its
    encoding. *)
Theorem pseudocolor_round_trip_resets (env : Env) (n : string) (m : RasterStyle)
    (p : QgsSingleBandPseudoColorRenderer) :
  styleRenderer m = Pseudo p →
  filters_held m →
  round_trip env n (RasterQml m)
  = Ok (Some (RasterQml
                {| styleRenderer := Pseudo new_pseudo;
                   styleBrightness := styleBrightness m;
                   styleContrast := styleContrast m;
                   styleGamma := styleGamma m;
                   styleSaturation := styleSaturation m |}))
  ∧ (p ≠ new_pseudo → round_trip env n (RasterQml m) ≠ Ok (Some (RasterQml m))).
Proof.
  destruct m as [r b c g s]. simpl. intros -> (Hb & Hc & Hg & Hs). simpl in *.
  assert (round_trip env n
            (RasterQml {| styleRenderer := Pseudo p; styleBrightness := b;
                          styleContrast := c; styleGamma := g; styleSaturation := s |})
          = Ok (Some (RasterQml
                        {| styleRenderer := Pseudo new_pseudo; styleBrightness := b;
                           styleContrast := c; styleGamma := g;
                           styleSaturation := s |}))) as H.
  { unfold round_trip, RasterSymbologyRenderer.style_to_json. st_unfold. simpl.
    unfold decoded, QSAProject.raster_layer_of. st_unfold. simpl.
    unfold QSAProject.config_rendering, has_key, dict_get. st_unfold. simpl.
    unfold QSAProject.setBrightness, QSAProject.setContrast, QSAProject.setSaturation,
      QSAProject.setGamma. st_unfold.
    rewrite (clamp_c_int (-255) 255 b), (clamp_c_int (-100) 100 c),
      (clamp_c_int (-100) 100 s) by (try exact Hb; try exact Hc; try exact Hs; lia).
    simpl. rewrite Hb, Hc, Hg, Hs. reflexivity. }
  split; [exact H|]. rewrite H. intros Hp [= E]. apply Hp. symmetry. exact E.
Qed.

Lemma pseudocolor_round_trip_resets_witness :
  RasterSymbologyRenderer._singlebandpseudocolor_properties
    (styleRenderer pseudocolor_style) = Ok (JDict [])
  ∧ round_trip (Fixture.env "" true) "p" (RasterQml pseudocolor_style)
    = Ok (Some (RasterQml
                  {| styleRenderer := Pseudo new_pseudo;
                     styleBrightness := 0; styleContrast := 0;
                     styleGamma := float_of_Z 1; styleSaturation := 0 |}))
  ∧ round_trip (Fixture.env "" true) "p" (RasterQml pseudocolor_style)
    ≠ Ok (Some (RasterQml pseudocolor_style)).
Proof.
  split; [reflexivity|].
  destruct (pseudocolor_round_trip_resets (Fixture.env "" true) "p" pseudocolor_style
              {| band := 2;
                 shader := Some {| sourceColorRamp := "Viridis";
                                   colorRampType := Discrete |};
                 classificationMin := NaN; classificationMax := NaN;
                 pseudoLimits := None_ |}) as [H1 H2].
  - reflexivity.
  - repeat split; reflexivity.
  - split; [exact H1|]. apply H2. discriminate.
Defined.

(** The gray gradient is written as ["WhiteToBlack"] and looked for as
    ["whitetoblack"]: a white-to-black style comes back black-to-white. *)
Example gray_gradient_round_trip :
  let gray d :=
    RasterQml
      {| styleRenderer :=
           Gray {| grayBand := 1; gradient := d;
                   contrastEnhancement :=
                     Some (Fixture.enhancement StretchToMinimumMaximum);
                   grayLimits := None_ |};
         styleBrightness := 0; styleContrast := 0; styleGamma := float_of_Z 1;
         styleSaturation := 0 |} in
  round_trip (Fixture.env "" true) "g" (gray WhiteToBlack) = Ok (Some (gray BlackToWhite)).
Proof. vm_compute. reflexivity. Qed.

(** Under [MinMax] limits the bounds of the description are ignored:
    the decoded style has the statistics of [empty.tif]. *)
Example gray_min_max_round_trip :
  let gray ce :=
    RasterQml
      {| styleRenderer :=
           Gray {| grayBand := 1; gradient := BlackToWhite;
                   contrastEnhancement := Some ce; grayLimits := MinMax |};
         styleBrightness := 0; styleContrast := 0; styleGamma := float_of_Z 1;
         styleSaturation := 0 |} in
  round_trip (Fixture.env "" true) "g" (gray (Fixture.enhancement StretchToMinimumMaximum))
  = Ok (Some (gray {| minimumValue := float_of_Z 1; maximumValue := float_of_Z 101;
                      contrastEnhancementAlgorithm := StretchToMinimumMaximum |})).
Proof. vm_compute. reflexivity. Qed.

(** With a binding in which [NoEnhancement] counts as false, a
    description that asks for no enhancement installs none. *)
Example gray_no_enhancement_round_trip :
  round_trip (Fixture.env "" true) "g"
    (RasterQml
       {| styleRenderer :=
            Gray {| grayBand := 1; gradient := BlackToWhite;
                    contrastEnhancement := Some (Fixture.enhancement NoEnhancement);
                    grayLimits := None_ |};
          styleBrightness := 0; styleContrast := 0; styleGamma := float_of_Z 1;
          styleSaturation := 0 |})
  = Ok (Some (RasterQml
                {| styleRenderer :=
                     Gray {| grayBand := 1; gradient := BlackToWhite;
                             contrastEnhancement := None; grayLimits := None_ |};
                   styleBrightness := 0; styleContrast := 0;
                   styleGamma := float_of_Z 1; styleSaturation := 0 |})).
Proof. vm_compute. reflexivity. Qed.

(** ** Further properties of the code *)

(** *** The refresher, beyond its no-op cases *)

Ltac decide_all :=
  repeat (match goal with
          | |- context [decide ?P] => destruct (decide P); try contradiction; try congruence
          end; cbn).

Section RefresherMore.

Import RasterSymbologyRenderer.

(** X1.  Refreshing twice gives what refreshing once gives: on the
    layer that [refresh_min_max] leaves, a second [refresh_min_max]
    changes nothing, whatever the wrapper and the layer. *)
Theorem refresh_min_max_idempotent (self : RasterSymbologyRenderer.t)
    (layer : QgsRasterLayer) :
  snd (refresh_min_max self (snd (refresh_min_max self layer)))
  = snd (refresh_min_max self layer).
Proof.
  unfold refresh_min_max. st_unfold.
  destruct (RasterSymbologyRenderer.type self) as [[[| |]|]|] eqn:Et.
  all: destruct (decide (limits (Qgs.renderer layer) = None_)) as [Hl|Hl]; cbn [snd];
    try (destruct (decide _); [reflexivity|contradiction]).
  all: try (destruct (decide _); reflexivity).
  - unfold _refresh_min_max_singlebandgray. st_unfold.
    destruct layer as [r b c g s p]. cbn [Qgs.renderer] in *.
    destruct r as [gr|m|ps|n l]; cbn in *; try (decide_all; reflexivity).
    destruct gr as [gb gd [ce|] gl]; cbn in *; try (decide_all; reflexivity).
    destruct (nothing_to_stretch (contrastEnhancementAlgorithm ce)) eqn:En; cbn;
      decide_all; rewrite ?En; reflexivity.
  - unfold _refresh_min_max_multibandcolor. st_unfold.
    destruct layer as [r b c g s p]. cbn [Qgs.renderer] in *.
    destruct r as [gr|m|ps|n l]; cbn in *; try (decide_all; reflexivity).
    destruct m as [rb gb bb [rce|] [gce|] [bce|] ml]; cbn in *;
      try (decide_all; reflexivity).
    destruct (nothing_to_stretch (contrastEnhancementAlgorithm rce)) eqn:En; cbn;
      decide_all; rewrite ?En; reflexivity.
Qed.

(** X2.  [refresh_min_max] changes bounds and nothing else: the kind of
    the renderer, its bands, gradient, limits and algorithms, the
    brightness and saturation filters and the data provider are what
    they were, also when the call raises. *)
Theorem refresh_min_max_keeps_settings (self : RasterSymbologyRenderer.t)
    (layer : QgsRasterLayer) :
  settings (snd (refresh_min_max self layer)) = settings layer.
Proof.
  unfold refresh_min_max. st_unfold.
  destruct (decide (limits (Qgs.renderer layer) = None_)) as [Hl|Hl]; [reflexivity|].
  destruct (RasterSymbologyRenderer.type self) as [[[| |]|]|]; try reflexivity.
  - unfold _refresh_min_max_singlebandgray. st_unfold.
    destruct layer as [r b c g s p]. cbn [Qgs.renderer] in *.
    destruct r as [gr|m|ps|n l]; try reflexivity.
    destruct gr as [gb gd [ce|] gl]; try reflexivity. cbn.
    destruct (nothing_to_stretch _); [reflexivity|].
    destruct (decide _); reflexivity.
  - unfold _refresh_min_max_multibandcolor. st_unfold.
    destruct layer as [r b c g s p]. cbn [Qgs.renderer] in *.
    destruct r as [gr|m|ps|n l]; try reflexivity.
    destruct m as [rb gb bb [rce|] [gce|] [bce|] ml]; try reflexivity. cbn.
    destruct (nothing_to_stretch _); [reflexivity|].
    destruct (decide _); reflexivity.
Qed.

(** X3.  Under [MinMax] limits, the gray refresher gives the
    enhancement, unless its algorithm is [NoEnhancement] or
    [UserDefinedEnhancement], the minimum and maximum of band 1 of the
    layer, whatever band the renderer draws. *)
Theorem refresh_gray_takes_band_one (self : RasterSymbologyRenderer.t)
    (layer : QgsRasterLayer) (g : QgsSingleBandGrayRenderer) (ce : QgsContrastEnhancement) :
  RasterSymbologyRenderer.type self = Ok (Some SINGLE_BAND_GRAY) →
  Qgs.renderer layer = Gray g →
  grayLimits g = MinMax →
  contrastEnhancement g = Some ce →
  contrastEnhancementAlgorithm ce ≠ NoEnhancement →
  contrastEnhancementAlgorithm ce ≠ UserDefinedEnhancement →
  refresh_min_max self layer
  = (Ok tt,
     setRenderer
       (Gray {| grayBand := grayBand g; gradient := gradient g;
                contrastEnhancement :=
                  Some {| minimumValue := fst (bandStatistics (dataProvider layer) 1);
                          maximumValue := snd (bandStatistics (dataProvider layer) 1);
                          contrastEnhancementAlgorithm :=
                            contrastEnhancementAlgorithm ce |};
                grayLimits := MinMax |})
       layer).
Proof.
  intros Ht Hr Hl Hc Hn Hu.
  unfold refresh_min_max, _refresh_min_max_singlebandgray. st_unfold.
  repeat (rewrite ?Hr, ?Hl, ?Ht, ?Hc; cbn -[nothing_to_stretch]).
  destruct (decide (MinMax = None_)) as [|_]; [discriminate|].
  repeat (rewrite ?Hr, ?Hc; cbn -[nothing_to_stretch]).
  unfold nothing_to_stretch.
  rewrite (bool_decide_eq_false_2 _ Hn), (bool_decide_eq_false_2 _ Hu). cbn.
  unfold setGrayEnhancement, with_stats. cbn. rewrite Hl.
  destruct (decide (MinMax = MinMax)); [|contradiction]. reflexivity.
Qed.

(** X4.  Under [MinMax] limits, the multi-band refresher gives each of
    the three enhancements the minimum and maximum of the band its
    channel draws; whether it does so depends on the algorithm of the
    red enhancement alone. *)
Theorem refresh_multi_takes_own_bands (self : RasterSymbologyRenderer.t)
    (layer : QgsRasterLayer) (m : QgsMultiBandColorRenderer)
    (red green blue : QgsContrastEnhancement) :
  RasterSymbologyRenderer.type self = Ok (Some MULTI_BAND_COLOR) →
  Qgs.renderer layer = Multi m →
  multiLimits m = MinMax →
  redContrastEnhancement m = Some red →
  greenContrastEnhancement m = Some green →
  blueContrastEnhancement m = Some blue →
  contrastEnhancementAlgorithm red ≠ NoEnhancement →
  contrastEnhancementAlgorithm red ≠ UserDefinedEnhancement →
  let stats b ce :=
    Some {| minimumValue := fst (bandStatistics (dataProvider layer) b);
            maximumValue := snd (bandStatistics (dataProvider layer) b);
            contrastEnhancementAlgorithm := contrastEnhancementAlgorithm ce |} in
  refresh_min_max self layer
  = (Ok tt,
     setRenderer
       (Multi {| redBand := redBand m; greenBand := greenBand m; blueBand := blueBand m;
                 redContrastEnhancement := stats (redBand m) red;
                 greenContrastEnhancement := stats (greenBand m) green;
                 blueContrastEnhancement := stats (blueBand m) blue;
                 multiLimits := MinMax |})
       layer).
Proof.
  intros Ht Hr Hl Hcr Hcg Hcb Hn Hu stats.
  unfold refresh_min_max, _refresh_min_max_multibandcolor. st_unfold.
  repeat (rewrite ?Hr, ?Hl, ?Ht, ?Hcr, ?Hcg, ?Hcb; cbn -[nothing_to_stretch]).
  destruct (decide (MinMax = None_)) as [|_]; [discriminate|].
  repeat (rewrite ?Hr, ?Hcr, ?Hcg, ?Hcb; cbn -[nothing_to_stretch]).
  unfold nothing_to_stretch.
  rewrite (bool_decide_eq_false_2 _ Hn), (bool_decide_eq_false_2 _ Hu). cbn.
  unfold setEnhancements, with_stats. cbn. rewrite Hl.
  destruct (decide (MinMax = MinMax)); [|contradiction]. reflexivity.
Qed.

End RefresherMore.

Lemma refresh_gray_takes_band_one_witness :
  let layer :=
    setRenderer
      (Gray {| grayBand := 3; gradient := WhiteToBlack;
               contrastEnhancement := Some (Fixture.enhancement StretchToMinimumMaximum);
               grayLimits := MinMax |})
      Fixture.empty_layer in
  RasterSymbologyRenderer.refresh_min_max
    (RasterSymbologyRenderer.init (JStr "singlebandgray")) layer
  = (Ok tt,
     setRenderer
       (Gray {| grayBand := 3; gradient := WhiteToBlack;
                contrastEnhancement :=
                  Some {| minimumValue := float_of_Z 1; maximumValue := float_of_Z 101;
                          contrastEnhancementAlgorithm := StretchToMinimumMaximum |};
                grayLimits := MinMax |})
       layer).
Proof.
  intros layer.
  apply (refresh_gray_takes_band_one
           (RasterSymbologyRenderer.init (JStr "singlebandgray")) layer
           {| grayBand := 3; gradient := WhiteToBlack;
              contrastEnhancement := Some (Fixture.enhancement StretchToMinimumMaximum);
              grayLimits := MinMax |}
           (Fixture.enhancement StretchToMinimumMaximum));
    (reflexivity || discriminate).
Defined.

Lemma refresh_multi_takes_own_bands_witness :
  let m :=
    {| redBand := 3; greenBand := 2; blueBand := 1;
       redContrastEnhancement := Some (Fixture.enhancement StretchToMinimumMaximum);
       greenContrastEnhancement := Some (Fixture.enhancement NoEnhancement);
       blueContrastEnhancement := Some (Fixture.enhancement StretchToMinimumMaximum);
       multiLimits := MinMax |} in
  let layer := setRenderer (Multi m) Fixture.empty_layer in
  let stats b a :=
    Some {| minimumValue := float_of_Z b; maximumValue := float_of_Z (100 + b);
            contrastEnhancementAlgorithm := a |} in
  RasterSymbologyRenderer.refresh_min_max
    (RasterSymbologyRenderer.init (JStr "multibandcolor")) layer
  = (Ok tt,
     setRenderer
       (Multi {| redBand := 3; greenBand := 2; blueBand := 1;
                 redContrastEnhancement := stats 3%Z StretchToMinimumMaximum;
                 greenContrastEnhancement := stats 2%Z NoEnhancement;
                 blueContrastEnhancement := stats 1%Z StretchToMinimumMaximum;
                 multiLimits := MinMax |})
       layer).
Proof.
  intros m layer stats.
  apply (refresh_multi_takes_own_bands
           (RasterSymbologyRenderer.init (JStr "multibandcolor")) layer m
           (Fixture.enhancement StretchToMinimumMaximum)
           (Fixture.enhancement NoEnhancement)
           (Fixture.enhancement StretchToMinimumMaximum));
    (reflexivity || discriminate).
Defined.

(** *** The raster codec: loading and reading back *)

Section LoaderMore.

Import RasterSymbologyRenderer.

Lemma same_contrast_refl self : same_contrast self self.
Proof. unfold same_contrast. destruct (renderer self); auto. Qed.

Lemma same_contrast_trans a b c :
  same_contrast a b → same_contrast b c → same_contrast a c.
Proof.
  unfold same_contrast.
  destruct (renderer a), (renderer b), (renderer c); try tauto.
  intros (?&?&?) (?&?&?). repeat split; congruence.
Qed.

Lemma load_min_max_same self b mn mx self' :
  load_min_max self b mn mx = Ok self' →
  same_contrast self self'
  ∧ contrast_algorithm self' = contrast_algorithm self
  ∧ contrast_limits self' = contrast_limits self.
Proof.
  unfold load_min_max. st_unfold. intros H.
  assert (∀ n v, same_contrast self (with_bound n v self)) as Hb
    by (intros; unfold same_contrast; simpl; destruct (renderer self); auto).
  repeat (case_match; simplify_eq/=; try done);
    repeat split; try apply same_contrast_refl; try apply Hb;
    unfold same_contrast; simpl; destruct (renderer self); auto.
Qed.

Lemma kept_refl self : kept self self.
Proof. split; [apply same_contrast_refl|auto]. Qed.

Lemma kept_trans a b c : kept a b → kept b c → kept a c.
Proof.
  intros (?&?&?) (?&?&?). split; [eapply same_contrast_trans; eauto|].
  split; congruence.
Qed.

Lemma update_gray_kept f self self' :
  (∀ g, contrastEnhancement (f g) = contrastEnhancement g
        ∧ grayLimits (f g) = grayLimits g) →
  update_gray f self = Ok self' → kept self self'.
Proof.
  unfold update_gray, kept, same_contrast. intros Hf H.
  destruct (renderer self) as [[g|m|p|n l]|] eqn:E; simplify_eq/=.
  rewrite ?E. simpl. destruct (Hf g) as [-> ->]. auto.
Qed.

Lemma update_multi_kept f self self' :
  (∀ m, redContrastEnhancement (f m) = redContrastEnhancement m
        ∧ greenContrastEnhancement (f m) = greenContrastEnhancement m
        ∧ blueContrastEnhancement (f m) = blueContrastEnhancement m
        ∧ multiLimits (f m) = multiLimits m) →
  update_multi f self = Ok self' → kept self self'.
Proof.
  unfold update_multi, kept, same_contrast. intros Hf H.
  destruct (renderer self) as [[g|m|p|n l]|] eqn:E; simplify_eq/=.
  rewrite ?E. simpl. destruct (Hf m) as (-> & -> & -> & ->). auto.
Qed.

Lemma update_pseudo_kept f self self' :
  (∀ p, pseudoLimits (f p) = pseudoLimits p) →
  update_pseudo f self = Ok self' → kept self self'.
Proof.
  unfold update_pseudo, kept, same_contrast. intros Hf H.
  destruct (renderer self) as [[g|m|p|n l]|] eqn:E; simplify_eq/=.
  rewrite ?E. simpl. rewrite Hf. auto.
Qed.

Lemma load_channel_kept key f mn mx self props self' :
  (∀ b m, redContrastEnhancement (f b m) = redContrastEnhancement m
        ∧ greenContrastEnhancement (f b m) = greenContrastEnhancement m
        ∧ blueContrastEnhancement (f b m) = blueContrastEnhancement m
        ∧ multiLimits (f b m) = multiLimits m) →
  load_channel key f mn mx self props = Ok self' → kept self self'.
Proof.
  unfold load_channel. st_unfold. intros Hf H.
  repeat (case_match; simplify_eq/=; try done); try apply kept_refl.
  eapply kept_trans; [eapply update_multi_kept; [apply Hf|eassumption]|].
  eapply load_min_max_same; eassumption.
Qed.

Lemma multi_kept self props self' :
  _load_multibandcolor_properties self props = Ok self' → kept self self'.
Proof.
  unfold _load_multibandcolor_properties. st_unfold. intros H.
  repeat (case_match; simplify_eq/=; try done).
  eapply kept_trans; [eapply load_channel_kept; [|eassumption]; intros; simpl; auto|].
  eapply kept_trans; [eapply load_channel_kept; [|eassumption]; intros; simpl; auto|].
  eapply load_channel_kept; [|eassumption]; intros; simpl; auto.
Qed.

Lemma gray_kept self props self' :
  _load_singlebandgray_properties self props = Ok self' → kept self self'.
Proof.
  unfold _load_singlebandgray_properties. st_unfold. intros H.
  repeat (case_match; simplify_eq/=; try done); try apply kept_refl;
    repeat match goal with
    | H : update_gray _ _ = Ok _ |- _ =>
        apply update_gray_kept in H; [|intros; simpl; auto]
    | H : load_min_max _ _ _ _ = Ok _ |- _ => apply load_min_max_same in H
    end;
    eauto using kept_trans, kept_refl.
Qed.

Lemma pseudo_kept self props self' :
  _load_singlebandpseudocolor_properties self props = Ok self' → kept self self'.
Proof.
  unfold _load_singlebandpseudocolor_properties. st_unfold. intros H.
  repeat (case_match; simplify_eq/=; try done); try apply kept_refl;
    repeat match goal with
    | H : update_pseudo _ _ = Ok _ |- _ =>
        apply update_pseudo_kept in H; [|intros; simpl; auto]
    | H : load_min_max _ _ _ _ = Ok _ |- _ => apply load_min_max_same in H
    end;
    eauto using kept_trans, kept_refl.
Qed.

Lemma contrast_enhancement_same self props self' :
  _load_contrast_enhancement self props = Ok self' →
  same_contrast self self' ∧ bounds self' = bounds self.
Proof.
  unfold _load_contrast_enhancement. st_unfold. intros H.
  repeat (case_match; simplify_eq/=; try done);
    unfold same_contrast; simpl; destruct (renderer self); auto.
Qed.

(** X5.  [load] decodes band numbers, gradient and colour ramp into the
    renderer and the contrast settings into the attributes of the
    wrapper: whenever it returns, the renderer has the kind, the limits
    and the contrast enhancements it had before the call. *)
Theorem load_keeps_renderer_contrast (self self' : RasterSymbologyRenderer.t)
    (properties : json) (rc : bool * string) :
  load self properties = Ok (self', rc) → same_contrast self self'.
Proof.
  unfold load. st_unfold. intros H.
  destruct (renderer self) as [r|] eqn:Er; [|simplify_eq; apply same_contrast_refl].
  repeat (case_match; simplify_eq/=; try done);
    repeat match goal with
    | H : _load_contrast_enhancement _ _ = Ok _ |- _ =>
        apply contrast_enhancement_same in H as [H _]
    | H : _load_multibandcolor_properties _ _ = Ok _ |- _ => apply multi_kept in H as [H _]
    | H : _load_singlebandgray_properties _ _ = Ok _ |- _ => apply gray_kept in H as [H _]
    | H : _load_singlebandpseudocolor_properties _ _ = Ok _ |- _ =>
        apply pseudo_kept in H as [H _]
    end;
    eauto using same_contrast_trans, same_contrast_refl.
Qed.
End LoaderMore.

Lemma load_keeps_renderer_contrast_witness :
  let self := RasterSymbologyRenderer.init (JStr "multibandcolor") in
  let properties :=
    JDict [("contrast_enhancement",
            JDict [("algorithm", JStr "StretchToMinimumMaximum");
                   ("limits_min_max", JStr "UserDefined")]);
           ("red", JDict [("band", JInt 3); ("min", JInt 0); ("max", JInt 255)])] in
  ∃ self', RasterSymbologyRenderer.load self properties = Ok (self', (true, ""))
           ∧ same_contrast self self'.
Proof.
  intros self properties.
  destruct (RasterSymbologyRenderer.load self properties) as [[self' rc]|e] eqn:E;
    [|vm_compute in E; discriminate].
  assert (rc = (true, "")) as -> by (vm_compute in E; congruence).
  exists self'. split; [reflexivity|].
  apply (load_keeps_renderer_contrast self self' properties (true, "")). exact E.
Defined.









(** *** Styles: storing, defaults, removal *)
(** X8.  [add_style] touches one style document at most: for a name
    that is a file stem, the style documents of all other names and
    everything else that is persisted are what they were, and unless the
    call returns [(True, "")] the document of that name is what it was
    too. *)
Theorem add_style_all_or_nothing (env : Env) (n layer_type : string)
    (symbology rendering : list (string * json)) (w : World.t) :
  QSAProject.file_stem n = true →
  let r := QSAProject.add_style env n layer_type symbology rendering w in
  (∀ n', n' ≠ n → qml (snd r) !! n' = qml w !! n')
  ∧ snd r = set_qml (qml (snd r)) w
  ∧ (fst r ≠ Ok (true, "") → snd r = w).
Proof.
  intros _ r.
  assert ((fst r = Ok (true, "") ∧ ∃ doc, snd r = set_qml (<[n := doc]> (qml w)) w)
          ∨ (fst r ≠ Ok (true, "") ∧ snd r = w)) as H.
  { subst r. unfold QSAProject.add_style.
    destruct (QSAProject._layer_type layer_type) as [[|]|]; simpl.
    - unfold QSAProject._add_style_vector.
      generalize (dict_get rendering "opacity" ≫= py_float). intros op. st_unfold.
      destruct (has_key "type" symbology); simpl; [|right; split; [congruence|reflexivity]].
      destruct (has_key "symbol" symbology); simpl; [|right; split; [congruence|reflexivity]].
      destruct (has_key "properties" symbology); simpl;
        [|right; split; [congruence|reflexivity]].
      destruct (QSAProject.vector_render symbology) as [[r|]|e]; simpl;
        destruct (has_key "opacity" rendering); simpl;
        try destruct op; simpl;
        try (right; split; [congruence|reflexivity]);
        left; split; eauto.
    - unfold QSAProject._add_style_raster. st_unfold.
      destruct (has_key "type" symbology); simpl; [|right; split; [congruence|reflexivity]].
      destruct (has_key "properties" symbology); simpl;
        [|right; split; [congruence|reflexivity]].
      destruct (QSAProject.raster_layer_of env symbology rendering) as [[rl|]|e]; simpl;
        try (right; split; [congruence|reflexivity]).
      left; split; eauto.
    - right; split; [congruence|reflexivity]. }
  destruct H as [(Hok & doc & ->)|(Hno & ->)].
  - split; [|split].
    + intros n' Hn. simpl. apply lookup_insert_ne. congruence.
    + destruct w; reflexivity.
    + intros Hne. contradiction.
  - split; [|split]; auto. destruct w; reflexivity.
Qed.

Lemma add_style_all_or_nothing_witness :
  let env := Fixture.env "" true in
  let r := QSAProject.add_style env "s2" "raster" scenario_b_symbology scenario_b_rendering
             Fixture.scenario_c in
  qml (snd r) !! "s1" = qml Fixture.scenario_c !! "s1"
  ∧ snd r = set_qml (qml (snd r)) Fixture.scenario_c.
Proof.
  intros env r.
  destruct (add_style_all_or_nothing env "s2" "raster" scenario_b_symbology
              scenario_b_rendering Fixture.scenario_c eq_refl) as (H1 & H2 & _).
  split; [apply H1; discriminate|exact H2].
Defined.

(** X9.  For one of the geometries [line], [polygon] and [point] and a
    style name without quote or NUL character, [style_default] returns
    after [style_update] the style that was set, and the default of
    every other geometry (asked for under a name without quote or NUL
    character) is what it was. *)
Theorem style_update_then_default (g s : string) (w : World.t) :
  g ∈ ["line"; "polygon"; "point"] →
  QSAProject.sql_text s = true →
  let w' := snd (QSAProject.style_update g s w) in
  fst (QSAProject.style_default g w') = Ok s
  ∧ ∀ g', QSAProject.sql_text g' = true → g' ≠ g →
      fst (QSAProject.style_default g' w') = fst (QSAProject.style_default g' w).
Proof.
  intros Hg _.
  unfold QSAProject.style_update, QSAProject.style_default, QSAProject.sqlite_db,
    QSAProject.mkdir_project_dir, QSAProject.select_style, QSAProject.update_style.
  st_unfold.
  assert (g = "line" ∨ g = "polygon" ∨ g = "point") as Hc.
  { apply list_elem_of_In in Hg. simpl in Hg. intuition. }
  split.
  - destruct (qsa_db w); destruct Hc as [-> | [-> | ->]]; reflexivity.
  - intros g' _ Hne.
    destruct (qsa_db w) as [d|]; simpl;
      destruct Hc as [-> | [-> | ->]]; simpl;
      repeat (match goal with
              | |- context [String.eqb g' ?x] =>
                  let E := fresh in destruct (String.eqb g' x) eqn:E;
                  [apply String.eqb_eq in E; try congruence|]
              end; simpl); reflexivity.
Qed.

Lemma style_update_then_default_witness :
  let w' := snd (QSAProject.style_update "polygon" "custom" (Fixture.created None)) in
  fst (QSAProject.style_default "polygon" w') = Ok "custom"
  ∧ fst (QSAProject.style_default "line" w') = Ok "default".
Proof.
  intros w'.
  destruct (style_update_then_default "polygon" "custom" (Fixture.created None))
    as [H1 H2].
  - apply list_elem_of_further, list_elem_of_here.
  - reflexivity.
  - split; [exact H1|]. fold w' in H2.
    rewrite (H2 "line"); [reflexivity|reflexivity|discriminate].
Defined.

(** X10.  For any other geometry name, and a geometry and a style
    without quote or NUL character, [style_default] raises (it
    subscripts the row that the query did not find) and [style_update]
    changes no default. *)
Theorem style_update_unknown_geometry (g s : string) (w : World.t) :
  g ∉ ["line"; "polygon"; "point"] →
  QSAProject.sql_text g = true →
  QSAProject.sql_text s = true →
  fst (QSAProject.style_default g w) = Raise TypeError
  ∧ ∀ g', QSAProject.sql_text g' = true →
          fst (QSAProject.style_default g' (snd (QSAProject.style_update g s w)))
          = fst (QSAProject.style_default g' w).
Proof.
  intros Hg _ _.
  assert (String.eqb g "line" = false ∧ String.eqb g "polygon" = false
          ∧ String.eqb g "point" = false) as (E1 & E2 & E3).
  { repeat split; apply String.eqb_neq; intros ->; apply Hg;
      repeat ((apply list_elem_of_here) || (apply list_elem_of_further)). }
  unfold QSAProject.style_update, QSAProject.style_default, QSAProject.sqlite_db,
    QSAProject.mkdir_project_dir, QSAProject.select_style, QSAProject.update_style.
  st_unfold. split.
  - destruct (qsa_db w); simpl; rewrite E1, E2, E3; reflexivity.
  - intros g' _. destruct (qsa_db w) as [d|]; simpl; rewrite E1, E2, E3; reflexivity.
Qed.

Lemma style_update_unknown_geometry_witness :
  fst (QSAProject.style_default "multipolygon" (Fixture.created None)) = Raise TypeError
  ∧ fst (QSAProject.default_styles
           (snd (QSAProject.style_update "multipolygon" "custom" (Fixture.created None))))
    = Ok initial_defaults.
Proof.
  destruct (style_update_unknown_geometry "multipolygon" "custom" (Fixture.created None))
    as [H1 H2].
  - intros H. apply list_elem_of_In in H. simpl in H. intuition discriminate.
  - reflexivity.
  - reflexivity.
  - split; [exact H1|]. vm_compute. reflexivity.
Defined.

Lemma removeStyle_other (n : string) (l : QgsMapLayer) :
  String.eqb n (currentStyle l) = false →
  name (removeStyle n l) = name l
  ∧ currentStyle (removeStyle n l) = currentStyle l
  ∧ styling (removeStyle n l) = styling l.
Proof.
  intros H. unfold removeStyle, currentStyle in *.
  destruct (negb _); [auto|]. destruct (_ =? 1)%nat; [auto|].
  rewrite H. auto.
Qed.

(** X11.  When [remove_style] succeeds, on a storage that accepts the
    write, every other style document is untouched and every layer
    keeps its name, its current style and the styling it draws with. *)
Theorem remove_style_keeps_rest (env : Env) (n : string) (w : World.t) :
  storage_writable env = true →
  fst (QSAProject.remove_style env n w) = Ok (true, "") →
  let w' := snd (QSAProject.remove_style env n w) in
  (∀ n', n' ≠ n → qml w' !! n' = qml w !! n')
  ∧ (λ l, (name l, currentStyle l, styling l)) <$> mapLayers (QSAProject.read w')
    = (λ l, (name l, currentStyle l, styling l)) <$> mapLayers (QSAProject.read w).
Proof.
  intros Hw. unfold QSAProject.remove_style. st_unfold.
  destruct (negb (bool_decide (n ∈ QSAProject.styles w))); simpl; [discriminate|].
  destruct (find _ _) as [l|] eqn:Ef; simpl; [discriminate|].
  unfold QSAProject.write. rewrite Hw. st_unfold. simpl. intros _.
  split.
  - intros n' Hne. destruct (storage_backend env); simpl; now apply lookup_delete_ne.
  - pose proof (find_none _ _ Ef) as Hall.
    assert (∀ ls, (∀ x, In x ls → String.eqb n (currentStyle x) = false) →
              (λ l, (name l, currentStyle l, styling l)) <$> map (removeStyle n) ls
              = (λ l, (name l, currentStyle l, styling l)) <$> ls) as Hm.
    { induction ls as [|l ls IH]; intros Hls; [reflexivity|]. simpl.
      destruct (removeStyle_other n l) as (-> & -> & ->); [apply Hls; now left|].
      f_equal. apply IH. intros x Hx. apply Hls. now right. }
    destruct (storage_backend env); simpl; apply Hm, Hall.
Qed.


Lemma remove_style_keeps_rest_witness :
  let env := Fixture.env "" true in
  let w' := snd (QSAProject.remove_style env "s1" two_layers) in
  fst (QSAProject.remove_style env "s1" two_layers) = Ok (true, "")
  ∧ (∀ n', n' ≠ "s1" → qml w' !! n' = qml two_layers !! n')
  ∧ (λ l, (name l, currentStyle l, styling l)) <$> mapLayers (QSAProject.read w')
    = (λ l, (name l, currentStyle l, styling l)) <$> mapLayers (QSAProject.read two_layers).
Proof.
  intros env w'.
  assert (fst (QSAProject.remove_style env "s1" two_layers) = Ok (true, "")) as Hok
    by (vm_compute; reflexivity).
  split; [exact Hok|].
  apply (remove_style_keeps_rest env "s1" two_layers); [reflexivity|exact Hok].
Defined.

(** *** Creating and removing a project *)

Lemma create_from_absent (env : Env) (author : string) (w : World.t) :
  fst (QSAProject.exists_ env w) = Ok false →
  qsa_db w = None →
  storage_writable env = true →
  let r := QSAProject.create env author w in
  fst r = Ok (QSAProject.Pair true "")
  ∧ QSAProject.read (snd r)
    = {| mapLayers := []; projectCrs := crs_from_string env "EPSG:3857";
         Store.author := author |}
  ∧ fst (QSAProject.default_styles (snd r)) = Ok initial_defaults
  ∧ fst (QSAProject.exists_ env (snd r)) = Ok true.
Proof.
  intros He Hdb Hw.
  unfold QSAProject.create, QSAProject.exists_, QSAProject.write, QSAProject.sqlite_db,
    QSAProject.mkdir_project_dir, QSAMapProxy.create, QSAProject.default_styles,
    QSAProject.style_default, QSAProject.sqlite_db, QSAProject.read in *.
  rewrite Hw. st_unfold.
  destruct (storage_backend env); simpl in *.
  - injection He as He. rewrite He. simpl.
    destruct (QSAProject._mapproxy_enabled env); simpl;
      [destruct (mirror_writable env); simpl|]; rewrite Hdb; simpl; auto.
  - destruct (listed w) eqn:El; simpl in *.
    + rewrite El in He. discriminate.
    + rewrite El. simpl.
      destruct (QSAProject._mapproxy_enabled env); simpl;
        [destruct (mirror_writable env); simpl|]; rewrite Hdb; simpl; auto.
Qed.

Lemma remove_layer_returns (env : Env) (n : string) (w : World.t) :
  ∃ rc, fst (QSAProject.remove_layer env n w) = Ok rc.
Proof.
  unfold QSAProject.remove_layer, QSAProject.write, QSAMapProxy.read, QSAMapProxy.write.
  st_unfold.
  destruct (storage_writable env); simpl;
    destruct (QSAProject._mapproxy_enabled env); simpl; eauto;
    try destruct (storage_backend env); simpl;
    destruct (mirror w); simpl; eauto.
Qed.

Lemma remove_layers_returns (env : Env) (ns : list string) (w : World.t) :
  fst (foldr (λ layer rest, QSAProject.remove_layer env layer;; rest) (mret tt) ns w)
  = Ok tt.
Proof.
  revert w. induction ns as [|n ns IH]; intros w; [reflexivity|].
  simpl. st_unfold.
  destruct (remove_layer_returns env n w) as [rc H].
  destruct (QSAProject.remove_layer env n w) as [[rc'|e] w'] eqn:E; simpl in H;
    [|discriminate].
  apply IH.
Qed.

Lemma remove_leaves_nothing (env : Env) (w : World.t) :
  storage_backend env = FILESYSTEM ∨ storage_writable env = true →
  let r := QSAProject.remove env w in
  fst r = Ok tt
  ∧ fst (QSAProject.exists_ env (snd r)) = Ok false
  ∧ qml (snd r) = ∅
  ∧ descriptor (snd r) = None
  ∧ qsa_db (snd r) = None.
Proof.
  intros H. unfold QSAProject.remove.
  pose proof (remove_layers_returns env (QSAProject.layers w) w) as Hl.
  revert Hl. change (get ≫= ?k) with (λ s : World.t, k s s). cbv beta.
  generalize (foldr (λ layer rest, QSAProject.remove_layer env layer;; rest) (mret tt)
                (QSAProject.layers w)).
  intros m Hl. st_unfold.
  destruct (m w) as [[[]|e] w1]; simpl in Hl; [|discriminate].
  unfold QSAMapProxy.remove, QSAProject.rmtree_project_dir, QSAProject.removeProject,
    QSAProject.exists_.
  st_unfold.
  destruct (QSAProject._mapproxy_enabled env); simpl;
    destruct (storage_backend env) eqn:Eb; simpl; auto;
    destruct H as [H|H]; try discriminate; rewrite H; simpl; auto.
Qed.

(** X12.  On a project that does not exist and has no default-style
    table yet, [create] on a storage that accepts the write returns
    [(True, "")] and leaves a project that exists, has no layer, has
    the given author, and whose three default styles are
    ["default"]. *)
Theorem create_initialises (env : Env) (author : string) (w : World.t) :
  fst (QSAProject.exists_ env w) = Ok false →
  qsa_db w = None →
  storage_writable env = true →
  let r := QSAProject.create env author w in
  fst r = Ok (QSAProject.Pair true "")
  ∧ QSAProject.layers (snd r) = []
  ∧ Store.author (QSAProject.read (snd r)) = author
  ∧ fst (QSAProject.default_styles (snd r)) = Ok initial_defaults
  ∧ fst (QSAProject.exists_ env (snd r)) = Ok true.
Proof.
  intros He Hdb Hw r.
  destruct (create_from_absent env author w He Hdb Hw) as (H1 & H2 & H3 & H4).
  fold r in H1, H2, H3, H4.
  split; [exact H1|]. unfold QSAProject.layers. rewrite H2. auto.
Qed.

Lemma create_initialises_witness :
  let env := Fixture.env "" true in
  let r := QSAProject.create env "alice" absent_project in
  fst (QSAProject.exists_ env absent_project) = Ok false
  ∧ fst r = Ok (QSAProject.Pair true "")
  ∧ QSAProject.layers (snd r) = []
  ∧ Store.author (QSAProject.read (snd r)) = "alice"
  ∧ fst (QSAProject.default_styles (snd r)) = Ok initial_defaults
  ∧ fst (QSAProject.exists_ env (snd r)) = Ok true.
Proof.
  intros env r. split; [reflexivity|].
  apply (create_initialises env "alice" absent_project); reflexivity.
Defined.

(** X13.  On the filesystem backend, and on the relational one when
    the storage accepts the write, [remove] returns and leaves a
    project that does not exist any more, with no style and no
    layer. *)
Theorem remove_makes_absent (env : Env) (w : World.t) :
  storage_backend env = FILESYSTEM ∨ storage_writable env = true →
  let r := QSAProject.remove env w in
  fst r = Ok tt
  ∧ fst (QSAProject.exists_ env (snd r)) = Ok false
  ∧ QSAProject.styles (snd r) = []
  ∧ QSAProject.layers (snd r) = [].
Proof.
  intros H r.
  destruct (remove_leaves_nothing env w H) as (H1 & H2 & H3 & H4 & H5).
  fold r in H1, H2, H3, H4, H5.
  split; [exact H1|]. split; [exact H2|].
  unfold QSAProject.styles, QSAProject.layers, QSAProject.read.
  rewrite H3, H4. split; reflexivity.
Qed.

Lemma remove_makes_absent_witness :
  let env := Fixture.env "/cache" true in
  let r := QSAProject.remove env two_layers in
  fst r = Ok tt
  ∧ fst (QSAProject.exists_ env (snd r)) = Ok false
  ∧ QSAProject.styles (snd r) = []
  ∧ QSAProject.layers (snd r) = [].
Proof.
  intros env r.
  apply (remove_makes_absent env two_layers). left. reflexivity.
Defined.

(** X14.  The default styles do not outlive the project: creating a
    project again after [remove], on a storage that accepts the write,
    succeeds and gives a project without layer and without style whose
    three defaults are ["default"], whatever they were set to
    before. *)
Theorem remove_then_create_resets_defaults (env : Env) (author : string) (w : World.t) :
  storage_writable env = true →
  let r := QSAProject.create env author (snd (QSAProject.remove env w)) in
  fst r = Ok (QSAProject.Pair true "")
  ∧ QSAProject.layers (snd r) = []
  ∧ QSAProject.styles (snd r) = []
  ∧ fst (QSAProject.default_styles (snd r)) = Ok initial_defaults.
Proof.
  intros Hw r.
  destruct (remove_leaves_nothing env w (or_intror Hw)) as (_ & H2 & H3 & _ & H5).
  destruct (create_from_absent env author _ H2 H5 Hw) as (C1 & C2 & C3 & _).
  fold r in C1, C2, C3.
  split; [exact C1|]. split; [unfold QSAProject.layers; now rewrite C2|].
  split; [|exact C3].
  assert (qml (snd r) = qml (snd (QSAProject.remove env w))) as Hq.
  { subst r. generalize (snd (QSAProject.remove env w)). intros w0.
    unfold QSAProject.create, QSAProject.exists_, QSAProject.write, QSAProject.sqlite_db,
      QSAProject.mkdir_project_dir, QSAMapProxy.create.
    st_unfold.
    repeat (case_match; simplify_eq/=; try done). }
  unfold QSAProject.styles. rewrite Hq, H3. reflexivity.
Qed.

Lemma remove_then_create_resets_defaults_witness :
  let env := Fixture.env "" true in
  let w := snd (QSAProject.style_update "polygon" "custom" two_layers) in
  let r := QSAProject.create env "bob" (snd (QSAProject.remove env w)) in
  fst (QSAProject.style_default "polygon" w) = Ok "custom"
  ∧ fst r = Ok (QSAProject.Pair true "")
  ∧ QSAProject.layers (snd r) = []
  ∧ QSAProject.styles (snd r) = []
  ∧ fst (QSAProject.default_styles (snd r)) = Ok initial_defaults.
Proof.
  intros env w r. split; [reflexivity|].
  apply (remove_then_create_resets_defaults env "bob" w). reflexivity.
Defined.

(** *** Layers: restyling, removal, registration *)

Lemma update_first_names (n : string) (l' : QgsMapLayer) (ls : list QgsMapLayer) :
  name l' = n → map name (update_first n l' ls) = map name ls.
Proof.
  intros Hn. induction ls as [|x ls IH]; [reflexivity|]. simpl.
  destruct (String.eqb (name x) n) eqn:E; simpl.
  - apply String.eqb_eq in E. congruence.
  - now rewrite IH.
Qed.

Lemma write_layers (env : Env) (p : QgsProject) (w : World.t) :
  QSAProject.layers (snd (QSAProject.write env p w))
  = if storage_writable env then map name (mapLayers p) else QSAProject.layers w.
Proof.
  unfold QSAProject.write. st_unfold.
  destruct (storage_writable env); simpl; [|reflexivity].
  destruct (storage_backend env); reflexivity.
Qed.

Lemma setCurrentStyle_name (s : string) (l : QgsMapLayer) :
  name (setCurrentStyle s l) = name l.
Proof.
  unfold setCurrentStyle.
  destruct (negb (contains_key s (mStyles (styleManager l)))); [reflexivity|].
  destruct (String.eqb s (mCurrentStyle (styleManager l))); reflexivity.
Qed.

Lemma addStyle_name (s : string) (d : option Qml) (l : QgsMapLayer) :
  name (addStyle s d l) = name l.
Proof.
  unfold addStyle. destruct (contains_key s (mStyles (styleManager l))); reflexivity.
Qed.

Lemma refresh_name (l l' : QgsMapLayer) :
  QSAProject.refresh l = Ok l' → name l' = name l.
Proof.
  unfold QSAProject.refresh. destruct (styling l) as [r|rl]; [congruence|].
  destruct (RasterSymbologyRenderer.refresh_min_max _ rl) as [[[]|e] rl'];
    [|discriminate].
  intros [= <-]. reflexivity.
Qed.

Lemma first_by_name (n : string) (p : QgsProject) (l : QgsMapLayer) :
  index (mapLayersByName n p) 0 = Ok l → name l = n.
Proof.
  unfold index. destruct (_ !! 0%nat) as [x|] eqn:Ex; [|discriminate].
  intros [= ->]. apply list_elem_of_lookup_2 in Ex.
  apply list_elem_of_filter in Ex as [Ex _].
  apply Is_true_true in Ex. now apply String.eqb_eq in Ex.
Qed.

Lemma layer_update_style_layers (env : Env) (layer_name style_name : string)
    (current : bool) (w : World.t) :
  QSAProject.layers (snd (QSAProject.layer_update_style env layer_name style_name current w))
  = QSAProject.layers w.
Proof.
  unfold QSAProject.layer_update_style, QSAMapProxy.clear_cache. st_unfold.
  set (w0 := set_tiles _ w).
  change (QSAProject.read w0) with (QSAProject.read w).
  change (qml w0) with (qml w).
  assert (QSAProject.layers w0 = QSAProject.layers w) as H0 by reflexivity.
  destruct (index (mapLayersByName (strip layer_name) (QSAProject.read w)) 0)
    as [l|e] eqn:El; cbn [fst snd]; [|exact H0].
  apply first_by_name in El.
  set (l1 := if negb _ then _ else l).
  assert (name l1 = strip layer_name) as Hn1.
  { subst l1. destruct (negb _); [|exact El]. now rewrite addStyle_name. }
  clearbody l1.
  assert (∀ l2, name l2 = strip layer_name →
            QSAProject.layers
              (snd (QSAProject.write env
                      (with_layers
                         (update_first (strip layer_name) l2
                            (mapLayers (QSAProject.read w)))
                         (QSAProject.read w)) w0))
            = QSAProject.layers w) as Hwrite.
  { intros l2 Hn2. rewrite write_layers. destruct (storage_writable env); [|exact H0].
    simpl. now apply update_first_names. }
  destruct current.
  - destruct (QSAProject.refresh (setCurrentStyle style_name l1)) as [l2|e] eqn:Er;
      cbn [fst snd]; [|exact H0].
    apply refresh_name in Er. rewrite setCurrentStyle_name in Er.
    specialize (Hwrite l2 (eq_trans Er Hn1)).
    destruct (QSAProject.write env _ w0) as [[rc|e] w']; exact Hwrite.
  - specialize (Hwrite l1 Hn1).
    destruct (QSAProject.write env _ w0) as [[rc|e] w']; exact Hwrite.
Qed.

Lemma write_keeps (env : Env) (p : QgsProject) (w : World.t) :
  qml (snd (QSAProject.write env p w)) = qml w
  ∧ qsa_db (snd (QSAProject.write env p w)) = qsa_db w
  ∧ mirror (snd (QSAProject.write env p w)) = mirror w.
Proof.
  unfold QSAProject.write. st_unfold.
  destruct (storage_writable env); simpl; [|auto].
  destruct (storage_backend env); auto.
Qed.

(** X15.  [layer_update_style] never adds, removes or renames a layer,
    and never touches the stored style documents, the default-style
    table or the cache mirror, whatever it is called with and also
    when it raises. *)
Theorem layer_update_style_keeps_store (env : Env) (layer_name style_name : string)
    (current : bool) (w : World.t) :
  let w' := snd (QSAProject.layer_update_style env layer_name style_name current w) in
  QSAProject.layers w' = QSAProject.layers w
  ∧ qml w' = qml w
  ∧ qsa_db w' = qsa_db w
  ∧ mirror w' = mirror w.
Proof.
  intros w'. split; [apply layer_update_style_layers|]. subst w'.
  unfold QSAProject.layer_update_style, QSAMapProxy.clear_cache. st_unfold.
  set (w0 := set_tiles _ w).
  assert (qml w0 = qml w ∧ qsa_db w0 = qsa_db w ∧ mirror w0 = mirror w) as H0 by auto.
  destruct (index (mapLayersByName (strip layer_name) (QSAProject.read w0)) 0)
    as [l|e]; cbn [fst snd]; [|exact H0].
  set (l1 := if negb _ then _ else l). clearbody l1.
  assert (∀ p, let w1 := snd (QSAProject.write env p w0) in
               qml w1 = qml w ∧ qsa_db w1 = qsa_db w ∧ mirror w1 = mirror w) as Hwrite.
  { intros p. cbv zeta. destruct (write_keeps env p w0) as (-> & -> & ->). exact H0. }
  destruct current.
  - destruct (QSAProject.refresh (setCurrentStyle style_name l1)) as [l2|e];
      cbn [fst snd]; [|exact H0].
    match goal with
    | |- context [QSAProject.write env ?p w0] =>
        specialize (Hwrite p); destruct (QSAProject.write env p w0) as [[rc|e] w1]
    end; exact Hwrite.
  - match goal with
    | |- context [QSAProject.write env ?p w0] =>
        specialize (Hwrite p); destruct (QSAProject.write env p w0) as [[rc|e] w1]
    end; exact Hwrite.
Qed.

Lemma assoc_qmap_insert_eq {A} (k : string) (v : A) (m : list (string * A)) :
  assoc k (qmap_insert k v m) = Some v.
Proof.
  induction m as [|[k' v'] m IH]; simpl; [now rewrite String.eqb_refl|].
  destruct (String.compare k k') eqn:E; simpl; rewrite ?String.eqb_refl; auto.
  destruct (String.eqb k k') eqn:Ee; [|exact IH].
  apply String.eqb_eq in Ee. subst k'. rewrite compare_refl in E. discriminate.
Qed.

Lemma assoc_qmap_insert_ne {A} (k k0 : string) (v : A) (m : list (string * A)) :
  k0 ≠ k → assoc k0 (qmap_insert k v m) = assoc k0 m.
Proof.
  intros Hne. apply String.eqb_neq in Hne.
  induction m as [|[k' v'] m IH]; simpl; [now rewrite Hne|].
  destruct (String.compare k k') eqn:E; simpl.
  - apply String.compare_eq_iff in E. subst k'. now rewrite Hne.
  - now rewrite Hne.
  - now rewrite IH.
Qed.

Lemma existsb_contains_key (s : string) (l : QgsMapLayer) :
  existsb (String.eqb s) (styles l) = contains_key s (mStyles (styleManager l)).
Proof. reflexivity. Qed.

(** X16.  Applying a style with [current] false, to a layer that the
    project has, on a storage that accepts the write, succeeds and
    only attaches the style: the layer keeps its current style and the
    styling it draws with, and the style is among its styles. *)
Theorem layer_update_style_attaches_only (env : Env) (w : World.t)
    (layer_name s : string) (l : QgsMapLayer) (rest : list QgsMapLayer) :
  storage_writable env = true →
  mapLayersByName (strip layer_name) (QSAProject.read w) = l :: rest →
  ∃ w' l',
    QSAProject.layer_update_style env layer_name s false w = (Ok (true, ""), w')
    ∧ qml w' = qml w
    ∧ mapLayersByName (strip layer_name) (QSAProject.read w') = l' :: rest
    ∧ currentStyle l' = currentStyle l
    ∧ styling l' = styling l
    ∧ s ∈ styles l'.
Proof.
  intros Hw Hl.
  assert (name l = strip layer_name) as Hn.
  { apply (first_by_name _ (QSAProject.read w)). now rewrite Hl. }
  unfold QSAProject.layer_update_style, QSAMapProxy.clear_cache. st_unfold.
  set (w0 := set_tiles _ w).
  change (QSAProject.read w0) with (QSAProject.read w).
  change (qml w0) with (qml w).
  rewrite Hl. cbn [index lookup list_lookup].
  set (l1 := if negb _ then _ else l).
  assert (name l1 = strip layer_name ∧ currentStyle l1 = currentStyle l
          ∧ styling l1 = styling l ∧ s ∈ styles l1) as (Hn1 & Hc1 & Hs1 & Hin1).
  { subst l1. rewrite existsb_contains_key.
    destruct (contains_key s (mStyles (styleManager l))) eqn:Ec; simpl.
    - repeat split; auto. now apply contains_key_elem_of.
    - unfold addStyle. rewrite Ec. simpl. repeat split; auto.
      unfold styles. simpl. apply contains_key_elem_of, contains_key_insert. }
  clearbody l1.
  unfold QSAProject.write. rewrite Hw. st_unfold. cbn [fst snd].
  eexists _, l1. split; [reflexivity|].
  split; [destruct (storage_backend env); reflexivity|].
  split; [|auto].
  assert (∀ p w1, QSAProject.read (set_descriptor (Some p) w1) = p) as Hr by reflexivity.
  rewrite Hr. unfold mapLayersByName. simpl.
  now apply update_first_by_name with (l := l).
Qed.

Lemma layer_update_style_attaches_only_witness :
  let env := Fixture.env "" true in
  ∃ w' l',
    QSAProject.layer_update_style env "raster0" "s1" false Fixture.scenario_c
    = (Ok (true, ""), w')
    ∧ qml w' = qml Fixture.scenario_c
    ∧ mapLayersByName (strip "raster0") (QSAProject.read w') = [l']
    ∧ currentStyle l' = currentStyle Fixture.raster0
    ∧ styling l' = styling Fixture.raster0
    ∧ "s1" ∈ styles l'.
Proof.
  intros env.
  apply (layer_update_style_attaches_only env Fixture.scenario_c "raster0" "s1"
           Fixture.raster0 []); reflexivity.
Defined.

(** X17.  No check that the style is stored: applying as current, to
    a vector layer, a name under which no style document is stored and
    which the layer does not have, succeeds on a storage that accepts
    the write; the name becomes the layer's current style and the
    layer draws as before. *)
Theorem layer_update_style_unstored (env : Env) (w : World.t)
    (layer_name s : string) (l : QgsMapLayer) (rest : list QgsMapLayer)
    (r : QgsFeatureRenderer) :
  storage_writable env = true →
  mapLayersByName (strip layer_name) (QSAProject.read w) = l :: rest →
  styling l = VectorStyling r →
  qml w !! s = None →
  s ∉ styles l →
  ∃ w' l',
    QSAProject.layer_update_style env layer_name s true w = (Ok (true, ""), w')
    ∧ mapLayersByName (strip layer_name) (QSAProject.read w') = l' :: rest
    ∧ currentStyle l' = s
    ∧ s ∈ styles l'
    ∧ styling l' = VectorStyling r.
Proof.
  intros Hw Hl Hs Hq Hnot.
  assert (name l = strip layer_name) as Hn.
  { apply (first_by_name _ (QSAProject.read w)). now rewrite Hl. }
  assert (styling (attach s None l) = VectorStyling r ∧ s ∈ styles (attach s None l))
    as [Hsty Hin].
  { unfold attach. rewrite existsb_contains_key.
    destruct (contains_key s (mStyles (styleManager l))) eqn:Ec;
      [exfalso; apply Hnot; now apply contains_key_elem_of|].
    simpl. rewrite style_default_of_loaded.
    unfold addStyle. rewrite Ec.
    unfold setCurrentStyle. simpl. rewrite contains_key_insert. simpl.
    destruct (String.eqb s (mCurrentStyle (styleManager l))) eqn:Ee; simpl.
    - split; [exact Hs|]. unfold styles. simpl.
      apply contains_key_elem_of, contains_key_insert.
    - split.
      + rewrite assoc_qmap_insert_ne by (now apply String.eqb_neq).
        rewrite assoc_qmap_insert_eq. simpl. rewrite Hs. reflexivity.
      + unfold styles. simpl. apply contains_key_elem_of, contains_key_insert. }
  assert (QSAProject.refresh (attach s (qml w !! s) l) = Ok (attach s None l)) as Hr.
  { rewrite Hq. unfold QSAProject.refresh. now rewrite Hsty. }
  destruct (layer_update_style_current env w layer_name s l _ rest Hw Hl Hr)
    as (w' & Hres & _ & _ & _ & Hp).
  exists w', (attach s None l). split; [exact Hres|].
  split.
  - rewrite Hp. unfold mapLayersByName. simpl.
    apply update_first_by_name with (l := l); [|exact Hl].
    now rewrite attach_name.
  - split; [apply attach_current|]. auto.
Qed.

Lemma layer_update_style_unstored_witness :
  let env := Fixture.env "" true in
  let w := Fixture.with_project [Fixture.layer0] (Fixture.created None) in
  qml w !! "ghost" = None
  ∧ ∃ w' l',
      QSAProject.layer_update_style env "layer0" "ghost" true w = (Ok (true, ""), w')
      ∧ mapLayersByName (strip "layer0") (QSAProject.read w') = [l']
      ∧ currentStyle l' = "ghost"
      ∧ "ghost" ∈ styles l'
      ∧ styling l' = VectorStyling (QgsSingleSymbolRenderer (FillSymbol [])).
Proof.
  intros env w. split; [reflexivity|].
  apply (layer_update_style_unstored env w "layer0" "ghost" Fixture.layer0 []
           (QgsSingleSymbolRenderer (FillSymbol []))); try reflexivity.
  intros H. apply list_elem_of_In in H. simpl in H. intuition discriminate.
Defined.

Lemma NoDup_map_inj {A B} (f : A → B) (ls : list A) (x y : A) :
  NoDup (map f ls) → x ∈ ls → y ∈ ls → f x = f y → x = y.
Proof.
  induction ls as [|a ls IH]; intros Hnd Hx Hy Hf; [now apply not_elem_of_nil in Hx|].
  simpl in Hnd. apply NoDup_cons in Hnd as [Ha Hnd].
  apply elem_of_cons in Hx as [->|Hx], Hy as [->|Hy]; auto.
  - exfalso. apply Ha. rewrite Hf. apply list_elem_of_In, in_map, list_elem_of_In, Hy.
  - exfalso. apply Ha. rewrite <- Hf. apply list_elem_of_In, in_map, list_elem_of_In, Hx.
Qed.

Lemma filter_ext_elem {A} (P1 P2 : A → Prop) `{∀ x, Decision (P1 x)}
    `{∀ x, Decision (P2 x)} (l : list A) :
  (∀ x, x ∈ l → P1 x ↔ P2 x) → filter P1 l = filter P2 l.
Proof.
  induction l as [|a l IH]; intros Hl; [reflexivity|].
  rewrite !filter_cons.
  assert (P1 a ↔ P2 a) as Ha by (apply Hl; left).
  rewrite IH by (intros x Hx; apply Hl; now right).
  destruct (decide (P1 a)), (decide (P2 a)); tauto.
Qed.

(** X18.  [remove_layer] removes the layers of the given name and no
    other: on a storage that accepts the write, in a project whose
    layers have distinct identifiers, the layers left are, in order,
    those of another name. *)
Theorem remove_layer_keeps_others (env : Env) (n : string) (w : World.t) :
  storage_writable env = true →
  NoDup (map id (mapLayers (QSAProject.read w))) →
  mapLayers (QSAProject.read (snd (QSAProject.remove_layer env n w)))
  = filter (λ l, negb (String.eqb (name l) n)) (mapLayers (QSAProject.read w)).
Proof.
  intros Hw Hnd.
  set (p := removeMapLayers (map id (mapLayersByName n (QSAProject.read w)))
              (QSAProject.read w)).
  assert (QSAProject.read (snd (QSAProject.remove_layer env n w)) = p) as ->.
  { destruct (write_descriptor env p w Hw) as (Hr & Hd & _).
    unfold QSAProject.remove_layer. st_unfold. fold p.
    destruct (QSAProject.write env p w) as [[rc|e] w'] eqn:E; simpl in *; [|discriminate].
    assert (QSAProject.read w' = p) as Hp by (unfold QSAProject.read; now rewrite Hd).
    destruct (QSAProject._mapproxy_enabled env); simpl; [|exact Hp].
    unfold QSAMapProxy.read, QSAMapProxy.write. st_unfold.
    destruct (mirror w') as [cfg|]; simpl; [|exact Hp].
    destruct (mirror_writable env); simpl; unfold QSAProject.read; simpl; now rewrite Hd. }
  subst p. unfold removeMapLayers, mapLayersByName. simpl.
  set (ls := mapLayers (QSAProject.read w)) in *.
  apply filter_ext_elem. intros x Hx.
  rewrite !Is_true_true, !negb_true_iff.
  rewrite <- !not_true_iff_false, existsb_exists, String.eqb_eq.
  apply not_iff_compat. split.
  - intros (i & Hi & He). apply String.eqb_eq in He. subst i.
    apply in_map_iff in Hi as (y & Hy & Hin).
    apply list_elem_of_In, list_elem_of_filter in Hin as [Hn Hin].
    apply Is_true_true, String.eqb_eq in Hn.
    assert (y = x) as -> by (eapply NoDup_map_inj; eauto). exact Hn.
  - intros Hn. exists (id x). split; [|apply String.eqb_refl].
    apply in_map. apply list_elem_of_In, list_elem_of_filter. split; [|exact Hx].
    apply Is_true_true, String.eqb_eq, Hn.
Qed.

Lemma remove_layer_keeps_others_witness :
  let env := Fixture.env "" true in
  mapLayers (QSAProject.read (snd (QSAProject.remove_layer env "layer0" two_layers)))
  = [Fixture.raster0].
Proof.
  intros env.
  rewrite (remove_layer_keeps_others env "layer0" two_layers).
  - reflexivity.
  - reflexivity.
  - apply (bool_decide_unpack _). vm_compute. exact I.
Defined.

Lemma style_default_layers (g : string) (w : World.t) :
  QSAProject.read (snd (QSAProject.style_default g w)) = QSAProject.read w.
Proof.
  unfold QSAProject.style_default, QSAProject.sqlite_db, QSAProject.mkdir_project_dir.
  st_unfold. destruct (qsa_db w); reflexivity.
Qed.

Lemma mirror_layer_layers (env : Env) (lyr : QgsMapLayer) (n : string)
    (t : LayerType) (dt : option QDateTime) (w : World.t) :
  QSAProject.layers (snd (QSAProject.mirror_layer env lyr n t dt w)) = QSAProject.layers w.
Proof.
  unfold QSAProject.layers, QSAProject.read. now rewrite mirror_layer_descriptor.
Qed.

(** What [add_layer] runs once the layer object has passed its checks. *)
Lemma add_layer_tail_layers (env : Env) (lyr : QgsMapLayer) (n : string) (t : LayerType)
    (dt : option QDateTime) (w : World.t) :
  storage_writable env = true →
  name lyr = n →
  QSAProject.layers
    (snd ((w ← get;
           QSAProject.write env (addMapLayer lyr (QSAProject.read w));;
           (match t with
            | Vector =>
                default_style ← QSAProject.style_default
                                  (geometry_name (geometryType lyr));
                QSAProject.layer_update_style env n default_style true;;
                mret tt
            | Raster => mret tt
            end);;
           if QSAProject._mapproxy_enabled env
           then QSAProject.mirror_layer env lyr n t dt
           else mret (true, "")) w))
  = QSAProject.layers w ++ [n].
Proof.
  intros Hw Hn. st_unfold.
  pose proof (write_layers env (addMapLayer lyr (QSAProject.read w)) w) as H1.
  rewrite Hw in H1. simpl in H1. rewrite map_app in H1. simpl in H1. rewrite Hn in H1.
  fold (QSAProject.layers w) in H1.
  assert (∃ rc, fst (QSAProject.write env (addMapLayer lyr (QSAProject.read w)) w) = Ok rc)
    as [rc Hrc].
  { unfold QSAProject.write. rewrite Hw. st_unfold. eauto. }
  destruct (QSAProject.write env _ w) as [[rc'|e] w1]; simpl in H1, Hrc; [|discriminate].
  assert (∀ w2, QSAProject.layers w2 = QSAProject.layers w ++ [n] →
            QSAProject.layers
              (snd ((if QSAProject._mapproxy_enabled env
                     then QSAProject.mirror_layer env lyr n t dt
                     else λ s, (Ok (true, ""), s)) w2))
            = QSAProject.layers w ++ [n]) as Hm.
  { intros w2 H2. destruct (QSAProject._mapproxy_enabled env); [|exact H2].
    now rewrite mirror_layer_layers. }
  destruct t.
  - pose proof (style_default_layers (geometry_name (geometryType lyr)) w1) as H2.
    destruct (QSAProject.style_default _ w1) as [[ds|e] w2]; simpl in H2.
    + pose proof (layer_update_style_layers env n ds true w2) as H3.
      destruct (QSAProject.layer_update_style env n ds true w2) as [[rc3|e] w3];
        simpl in H3.
      * apply Hm. rewrite H3. unfold QSAProject.layers. now rewrite H2.
      * simpl. rewrite H3. unfold QSAProject.layers. now rewrite H2.
    + simpl. unfold QSAProject.layers. now rewrite H2.
  - apply Hm, H1.
Qed.

(** X19.  When [add_layer] reports success, on a storage that accepts
    the write, the layer names of the project are the previous ones and
    the new name, whatever the order in which the project lists them;
    adding the same layer again is then refused as a duplicate. *)
Theorem add_layer_registers (env : Env) (datasource layer_type n : string)
    (epsg_code : Z) (overview : bool) (datetime : option QDateTime) (w : World.t) :
  storage_writable env = true →
  fst (QSAProject.add_layer env datasource layer_type n epsg_code overview datetime w)
    = Ok (true, "") →
  QSAProject.layers
    (snd (QSAProject.add_layer env datasource layer_type n epsg_code overview datetime w))
  ≡ₚ n :: QSAProject.layers w
  ∧ fst (QSAProject.add_layer env datasource layer_type n epsg_code overview datetime
           (snd (QSAProject.add_layer env datasource layer_type n epsg_code overview
                   datetime w)))
    = Ok (false, "A layer " +:+ n +:+ " already exists").
Proof.
  intros Hw Hok.
  assert (QSAProject.layers
            (snd (QSAProject.add_layer env datasource layer_type n epsg_code overview
                    datetime w))
          = QSAProject.layers w ++ [n]) as Hl.
  { revert Hok. unfold QSAProject.add_layer.
    destruct (QSAProject._layer_type layer_type) as [t|]; [|discriminate].
    change (get ≫= ?k) with (λ s : World.t, k s s). cbv beta.
    destruct (bool_decide (n ∈ QSAProject.layers w)); [discriminate|].
    assert (∀ lyr, name lyr = n →
              name (if (0 <? epsg_code)%Z
                    then setCrs (crs_from_string env ("EPSG:" +:+ pretty epsg_code)) lyr
                    else lyr) = n) as Hcrs.
    { intros lyr Hn. destruct (0 <? epsg_code)%Z; exact Hn. }
    destruct t; st_unfold.
    - destruct (QSAProject.vector_layer env datasource n _) as [lyr|e] eqn:Ev;
        cbn [fst snd]; [|discriminate].
      apply vector_layer_shape in Ev as (Hn & _).
      destruct (negb (isValid lyr)); [discriminate|].
      destruct (negb (isValid _)); [discriminate|].
      intros _.
      exact (add_layer_tail_layers env _ n Vector datetime w Hw (Hcrs _ Hn)).
    - destruct (QSAProject.raster_layer env datasource n _ overview datetime)
        as [lyr|err] eqn:Er; cbn [fst snd]; [|discriminate].
      assert (name lyr = n) as Hn.
      { unfold QSAProject.raster_layer in Er.
        destruct (overview && _ && _); [discriminate|].
        injection Er as <-. destruct datetime; reflexivity. }
      destruct (negb (isValid lyr)); [discriminate|].
      destruct (negb (isValid _)); [discriminate|].
      intros _.
      exact (add_layer_tail_layers env _ n Raster datetime w Hw (Hcrs _ Hn)). }
  split; [rewrite Hl; symmetry; apply Permutation_cons_append|].
  assert (is_Some (QSAProject._layer_type layer_type)) as Hsome.
  { revert Hok. unfold QSAProject.add_layer.
    destruct (QSAProject._layer_type layer_type); [eauto|discriminate]. }
  rewrite add_layer_duplicate; [reflexivity|exact Hsome|].
  rewrite Hl. apply elem_of_app. right. apply list_elem_of_here.
Qed.

Lemma add_layer_registers_witness :
  let env := Fixture.env "" true in
  let w := Fixture.with_project [Fixture.raster0] (Fixture.created None) in
  let r := QSAProject.add_layer env "d.gpkg|layername=polygons" "vector" "parcels" (-1) false
             None w in
  fst r = Ok (true, "")
  ∧ QSAProject.layers (snd r) ≡ₚ ["parcels"; "raster0"]
  ∧ fst (QSAProject.add_layer env "d.gpkg|layername=polygons" "vector" "parcels" (-1)
           false None (snd r))
    = Ok (false, "A layer parcels already exists").
Proof.
  intros env w r.
  assert (fst r = Ok (true, "")) as Hok by (vm_compute; reflexivity).
  split; [exact Hok|].
  apply (add_layer_registers env "d.gpkg|layername=polygons" "vector" "parcels" (-1)
           false None w); [reflexivity|exact Hok].
Defined.

(** X20.  Adding a valid raster under a new name, without overview, on
    a storage that accepts the write, adds to the layers of the project
    (no order being claimed) a layer of that name that has the single
    style ["default"], draws with the datasource's
    renderer stretched to the minimum and maximum of its bands, and has
    the fixed temporal range [dt, dt] exactly when an instant [dt] was
    given; no style document changes, and without cache mirror the call
    reports success. *)
Theorem add_layer_raster_registers_stretched (env : Env) (datasource layer_type n : string)
    (epsg_code : Z) (overview : bool) (datetime : option QDateTime) (w : World.t) :
  storage_writable env = true →
  QSAProject._layer_type layer_type = Some Raster →
  n ∉ QSAProject.layers w →
  rasterValid (raster_source env datasource "gdal") = true →
  overview = false →
  let r := QSAProject.add_layer env datasource layer_type n epsg_code overview datetime w in
  (∃ lyr,
     mapLayers (QSAProject.read (snd r)) ≡ₚ lyr :: mapLayers (QSAProject.read w)
     ∧ name lyr = n
     ∧ styles lyr = ["default"]
     ∧ currentStyle lyr = "default"
     ∧ styling lyr
       = RasterStyling
           (setContrastEnhancement StretchToMinimumMaximum MinMax
              (rasterLayer (raster_source env datasource "gdal")))
     ∧ temporalRange lyr = (λ dt, (dt, dt)) <$> datetime)
  ∧ qml (snd r) = qml w
  ∧ (QSAProject._mapproxy_enabled env = false → fst r = Ok (true, "")).
Proof.
  intros Hw Ht Hnew Hv -> r. subst r.
  unfold QSAProject.add_layer. rewrite Ht. st_unfold.
  rewrite bool_decide_eq_false_2 by exact Hnew.
  unfold QSAProject.raster_layer. cbn [andb]. cbn [QSAProject._layer_provider].
  set (lyr0 := match datetime with Some dt => _ | None => _ end).
  assert (isValid lyr0 = true ∧ name lyr0 = n ∧ styles lyr0 = ["default"]
          ∧ currentStyle lyr0 = "default"
          ∧ styling lyr0
            = RasterStyling
                (setContrastEnhancement StretchToMinimumMaximum MinMax
                   (rasterLayer (raster_source env datasource "gdal")))
          ∧ temporalRange lyr0 = (λ dt, (dt, dt)) <$> datetime) as (Hv0 & Hprops).
  { subst lyr0. destruct datetime; simpl; rewrite Hv; auto 10. }
  clearbody lyr0. rewrite Hv0. cbn [negb].
  set (lyr := if (0 <? epsg_code)%Z then _ else lyr0).
  assert (isValid lyr = true ∧ name lyr = n ∧ styles lyr = ["default"]
          ∧ currentStyle lyr = "default"
          ∧ styling lyr
            = RasterStyling
                (setContrastEnhancement StretchToMinimumMaximum MinMax
                   (rasterLayer (raster_source env datasource "gdal")))
          ∧ temporalRange lyr = (λ dt, (dt, dt)) <$> datetime) as (Hv1 & Hprops1).
  { subst lyr. destruct (0 <? epsg_code)%Z; auto. }
  clearbody lyr. rewrite Hv1. cbn [negb].
  destruct (write_descriptor env (addMapLayer lyr (QSAProject.read w)) w Hw)
    as (Hr & Hd & _ & Hq).
  destruct (QSAProject.write env _ w) as [[rc|e] w1]; simpl in Hr, Hd, Hq; [|discriminate].
  destruct (QSAProject._mapproxy_enabled env) eqn:Em.
  - pose proof (mirror_layer_descriptor env lyr n Raster datetime w1) as Hmd.
    assert (qml (snd (QSAProject.mirror_layer env lyr n Raster datetime w1)) = qml w1)
      as Hmq.
    { unfold QSAProject.mirror_layer, QSAMapProxy.read, QSAMapProxy.add_layer,
        QSAMapProxy.write. st_unfold.
      destruct (QSAProject._layer_bbox lyr); simpl; [|reflexivity].
      destruct (QSAProject._layer_epsg_code lyr); simpl; [|reflexivity].
      destruct (_ <? 0)%Z; simpl; [reflexivity|].
      destruct (mirror w1); simpl; [|reflexivity].
      destruct (mirror_writable env); reflexivity. }
    split; [|split; [congruence|discriminate]].
    exists lyr. split; [|exact Hprops1].
    unfold QSAProject.read at 1. rewrite Hmd, Hd. simpl.
    symmetry. apply Permutation_cons_append.
  - split; [|split; [exact Hq|reflexivity]].
    exists lyr. split; [|exact Hprops1].
    simpl. unfold QSAProject.read at 1. rewrite Hd. simpl.
    symmetry. apply Permutation_cons_append.
Qed.

Lemma add_layer_raster_registers_stretched_witness :
  let env := Fixture.env "" true in
  let r := QSAProject.add_layer env "landsat.tif" "RASTER" "scene" (-1) false (Some 7%Z)
             (Fixture.created None) in
  (∃ lyr,
     mapLayers (QSAProject.read (snd r)) ≡ₚ [lyr]
     ∧ name lyr = "scene"
     ∧ styles lyr = ["default"]
     ∧ currentStyle lyr = "default"
     ∧ styling lyr
       = RasterStyling
           (setContrastEnhancement StretchToMinimumMaximum MinMax
              (Fixture.gray_layer NoEnhancement None_))
     ∧ temporalRange lyr = Some (7%Z, 7%Z))
  ∧ qml (snd r) = ∅
  ∧ (QSAProject._mapproxy_enabled env = false → fst r = Ok (true, "")).
Proof.
  intros env r.
  apply (add_layer_raster_registers_stretched env "landsat.tif" "RASTER" "scene" (-1)
           false (Some 7%Z) (Fixture.created None)); try reflexivity.
  intros H. apply list_elem_of_In in H. exact H.
Defined.

Lemma reset_layers_spec (env : Env) (ls : list QgsMapLayer) :
  mirror_writable env = true →
  (∀ l, l ∈ ls → ∃ b c, QSAProject._layer_bbox l = Ok b
                        ∧ QSAProject._layer_epsg_code l = Ok c) →
  ∀ cfg w, mirror w = Some cfg →
    ∃ cfg' w',
      QSAProject.reset_layers env (Some cfg) ls w = (Ok tt, w')
      ∧ mirror w' = Some cfg'
      ∧ descriptor w' = descriptor w ∧ qml w' = qml w ∧ qsa_db w' = qsa_db w
      ∧ (∀ n, mirrored_untimed cfg n → mirrored_untimed cfg' n)
      ∧ (∀ l, l ∈ ls → mirrored_untimed cfg' (name l)).
Proof.
  intros Hmw. induction ls as [|l ls IH]; intros Hp cfg w Hm.
  - exists cfg, w. simpl. split; [reflexivity|]. split; [exact Hm|].
    do 3 (split; [reflexivity|]). split; [auto|]. intros l Hl.
    now apply not_elem_of_nil in Hl.
  - destruct (Hp l) as (b & c & Hb & Hc); [left|].
    cbn [QSAProject.reset_layers]. st_unfold. rewrite Hb, Hc. cbn [fst snd].
    unfold QSAMapProxy.remove_layer, QSAMapProxy.add_layer, QSAMapProxy.write. st_unfold.
    cbn [fmap option_fmap option_map]. rewrite Hmw.
    set (e0 := {| bbox := b; epsg := c;
                  is_raster := bool_decide (type l = Raster); temporal := None |}).
    set (cfg1 := filter _ (filter _ cfg) ++ [(name l, e0)]).
    destruct (IH (λ x Hx, Hp x (list_elem_of_further _ _ _ Hx)) cfg1
                (set_mirror (Some cfg1) w) eq_refl)
      as (cfg' & w' & Hr & Hm' & Hd & Hq & Hdb & Hkeep & Hall).
    exists cfg', w'. split; [exact Hr|]. split; [exact Hm'|].
    split; [exact Hd|]. split; [exact Hq|]. split; [exact Hdb|].
    assert (∀ n e, (n, e) ∈ cfg1 →
              (n = name l ∧ e = e0) ∨ (n ≠ name l ∧ (n, e) ∈ cfg)) as Hin.
    { intros n e H. subst cfg1. apply elem_of_app in H as [H|H].
      - apply list_elem_of_filter in H as [H1 H]. apply list_elem_of_filter in H as [_ H].
        right. split; [|exact H]. simpl in H1. intros ->.
        rewrite String.eqb_refl in H1. exact H1.
      - apply list_elem_of_singleton in H. injection H as -> ->. left. auto. }
    assert (mirrored_untimed cfg1 (name l)) as Hnew.
    { split.
      - exists e0. subst cfg1. apply elem_of_app. right. apply list_elem_of_here.
      - intros e H. apply Hin in H as [[_ ->]|[Hne _]]; [reflexivity|contradiction]. }
    assert (∀ n, mirrored_untimed cfg n → mirrored_untimed cfg1 n) as Hstep.
    { intros n [(e & He) Ht].
      destruct (String.eqb (name l) n) eqn:E.
      - apply String.eqb_eq in E. subst n. exact Hnew.
      - split.
        + exists e. subst cfg1. apply elem_of_app. left.
          apply list_elem_of_filter. simpl. rewrite E. split; [exact I|].
          apply list_elem_of_filter. simpl. rewrite E. split; [exact I|exact He].
        + intros e' H. apply Hin in H as [[-> _]|[_ H]]; [|apply Ht, H].
          rewrite String.eqb_refl in E. discriminate. }
    split.
    + intros n Hn. apply Hkeep, Hstep, Hn.
    + intros x Hx. apply elem_of_cons in Hx as [->|Hx]; [apply Hkeep, Hnew|apply Hall, Hx].
Qed.

(** X21.  With the cache mirror enabled, readable and writable, and
    layers whose extent and reference system parse, [cache_reset]
    succeeds, leaves the descriptor alone, and the mirror then has for
    every layer of the project an entry, and no entry of such a layer
    has a temporal instant: instants recorded when the layers were
    added are not kept. *)
Theorem cache_reset_rebuilds (env : Env) (w : World.t)
    (cfg : list (string * CacheMirrorEntry)) :
  QSAProject._mapproxy_enabled env = true →
  mirror_writable env = true →
  mirror w = Some cfg →
  (∀ l, l ∈ mapLayers (QSAProject.read w) →
     ∃ b c, QSAProject._layer_bbox l = Ok b ∧ QSAProject._layer_epsg_code l = Ok c) →
  let r := QSAProject.cache_reset env w in
  fst r = Ok (true, "")
  ∧ descriptor (snd r) = descriptor w
  ∧ ∃ cfg', mirror (snd r) = Some cfg'
            ∧ ∀ n, n ∈ QSAProject.layers w → mirrored_untimed cfg' n.
Proof.
  intros He Hmw Hm Hp.
  destruct (reset_layers_spec env (mapLayers (QSAProject.read w)) Hmw Hp cfg w Hm)
    as (cfg' & w' & Hr & Hm' & Hd & _ & _ & _ & Hall).
  unfold QSAProject.cache_reset. rewrite He.
  unfold QSAMapProxy.read. st_unfold. rewrite Hm. cbn [negb fst snd]. rewrite Hr.
  cbn [fst snd]. split; [reflexivity|]. split; [exact Hd|].
  exists cfg'. split; [exact Hm'|].
  intros n Hn. unfold QSAProject.layers in Hn.
  apply list_elem_of_In, in_map_iff in Hn as (l & <- & Hl).
  apply Hall, list_elem_of_In, Hl.
Qed.

Lemma cache_reset_rebuilds_witness :
  let env := Fixture.env "/cache" true in
  let timed := {| bbox := []; epsg := 4326; is_raster := true; temporal := Some 7%Z |} in
  let w := set_mirror (Some [("raster0", timed)]) two_layers in
  let r := QSAProject.cache_reset env w in
  temporal timed ≠ None
  ∧ fst r = Ok (true, "")
  ∧ descriptor (snd r) = descriptor w
  ∧ ∃ cfg', mirror (snd r) = Some cfg'
            ∧ ∀ n, n ∈ QSAProject.layers w → mirrored_untimed cfg' n.
Proof.
  intros env timed w r. split; [discriminate|].
  apply (cache_reset_rebuilds env w [("raster0", timed)]); try reflexivity.
  intros l Hl. apply list_elem_of_In in Hl. simpl in Hl.
  destruct Hl as [<-|[<-|[]]]; eexists _, _; split; vm_compute; reflexivity.
Defined.

(** *** The vector codec: classes of graduated and categorized styles *)

Lemma for_each_Forall2 {A} (body : json → res A) (l : list json) (xs : list A) :
  QSAProject.for_each body l = Ok xs → Forall2 (λ v x, body v = Ok x) l xs.
Proof.
  revert xs. induction l as [|v l IH]; intros xs.
  - intros [= <-]. constructor.
  - change (QSAProject.for_each body (v :: l))
      with (x ← body v; xs ← QSAProject.for_each body l; Ok (x :: xs)).
    st_unfold. destruct (body v) as [x|e] eqn:Eb; [|discriminate].
    destruct (QSAProject.for_each body l) as [xs'|e]; [|discriminate].
    intros [= <-]. constructor; auto.
Qed.

Lemma range_bounds (v : json) (s : QgsSymbol) (rg : QgsRendererRange) :
  QSAProject.range v s = Ok rg →
  getitem v "min" ≫= QSAProject.py_number = Ok (lowerValue rg)
  ∧ getitem v "max" ≫= QSAProject.py_number = Ok (upperValue rg)
  ∧ rangeLabel rg = "test".
Proof.
  unfold QSAProject.range. st_unfold.
  destruct (getitem v "min") as [lo|]; [|discriminate].
  destruct (QSAProject.py_number lo); [|discriminate].
  destruct (getitem v "max") as [hi|]; [|discriminate].
  destruct (QSAProject.py_number hi); [|discriminate].
  intros [= <-]. auto.
Qed.

(** X22.  A graduated style that decodes has mode [Custom], the
    attribute [properties["attributs"]], and one range for each entry
    of [properties["list_graduated"]], in the order of the list: the
    bounds of a range are the [min] and [max] of its entry and its
    label is ["test"]. *)
Theorem graduated_ranges_follow_list (symbology : list (string * json))
    (r : QgsFeatureRenderer) :
  QSAProject._create_graduated_style symbology = Ok (Some r) →
  ∃ attr ranges vs,
    r = QgsGraduatedSymbolRenderer attr ranges Custom
    ∧ (dict_get symbology "properties" ≫= λ p,
         getitem p "attributs" ≫= QSAProject.py_string) = Ok attr
    ∧ (dict_get symbology "properties" ≫= λ p,
         getitem p "list_graduated" ≫= iter) = Ok vs
    ∧ Forall2 (λ v rg,
         getitem v "min" ≫= QSAProject.py_number = Ok (lowerValue rg)
         ∧ getitem v "max" ≫= QSAProject.py_number = Ok (upperValue rg)
         ∧ rangeLabel rg = "test") vs ranges.
Proof.
  unfold QSAProject._create_graduated_style. st_unfold.
  destruct (dict_get symbology "symbol") as [symbol|]; [|discriminate].
  destruct (dict_get symbology "properties") as [props|]; [|discriminate].
  destruct (getitem props "attributs") as [attribut|]; [|discriminate].
  assert (∀ (body : json → res QgsRendererRange),
            (∀ v rg, body v = Ok rg → ∃ s, QSAProject.range v s = Ok rg) →
            match
              match
                match getitem props "list_graduated" with
                | Ok a => iter a
                | Raise e => Raise e
                end
              with
              | Ok a => Some <$> QSAProject.for_each body a
              | Raise e => Raise e
              end
            with
            | Ok (Some ranges) =>
                match QSAProject.py_string attribut with
                | Ok a => Ok (Some (QgsGraduatedSymbolRenderer a ranges Custom))
                | Raise e => Raise e
                end
            | Ok None => Ok None
            | Raise e => Raise e
            end = Ok (Some r) →
            ∃ attr ranges vs,
              r = QgsGraduatedSymbolRenderer attr ranges Custom
              ∧ QSAProject.py_string attribut = Ok attr
              ∧ match getitem props "list_graduated" with
                | Ok a => iter a
                | Raise e => Raise e
                end = Ok vs
              ∧ Forall2 (λ v rg,
                   match getitem v "min" with
                   | Ok a => QSAProject.py_number a
                   | Raise e => Raise e
                   end = Ok (lowerValue rg)
                   ∧ match getitem v "max" with
                     | Ok a => QSAProject.py_number a
                     | Raise e => Raise e
                     end = Ok (upperValue rg)
                   ∧ rangeLabel rg = "test") vs ranges) as Hcase.
  { intros body Hbody.
    destruct (match getitem props "list_graduated" with
              | Ok a => iter a | Raise e => Raise e end) as [vs|]; [|discriminate].
    destruct (QSAProject.for_each body vs) as [ranges|] eqn:Ef; [|discriminate].
    simpl. destruct (QSAProject.py_string attribut) as [a|]; [|discriminate].
    intros [= <-]. exists a, ranges, vs. repeat split; auto.
    apply for_each_Forall2 in Ef.
    eapply Forall2_impl; [exact Ef|]. intros v rg Hb.
    destruct (Hbody v rg Hb) as [s Hs]. apply range_bounds in Hs. exact Hs. }
  destruct (is_str "fill" symbol).
  { apply Hcase. intros v rg.
    destruct (getitem v "outline_width"); [|discriminate].
    destruct (getitem v "outline_style"); [|discriminate].
    destruct (getitem v "outline_color"); [|discriminate].
    destruct (getitem v "color"); [|discriminate]. eauto. }
  destruct (is_str "line" symbol).
  { apply Hcase. intros v rg.
    destruct (getitem v "outline_width"); [|discriminate].
    destruct (getitem v "outline_style"); [|discriminate].
    destruct (getitem v "outline_color"); [|discriminate]. eauto. }
  destruct (is_str "marker" symbol); [|discriminate].
  apply Hcase. intros v rg.
  destruct (QSAProject.svg_marker _ _ _ _ _); [|discriminate]. eauto.
Qed.

Lemma graduated_ranges_follow_list_witness :
  ∃ r attr ranges,
    QSAProject._create_graduated_style graduated_symbology = Ok (Some r)
    ∧ r = QgsGraduatedSymbolRenderer attr ranges Custom
    ∧ attr = "population"
    ∧ (λ rg, (lowerValue rg, upperValue rg, rangeLabel rg)) <$> ranges
      = [(float_of_Z 0, float_of_Z 10, "test"); (float_of_Z 10, float_of_Z 20, "test")].
Proof.
  destruct (QSAProject._create_graduated_style graduated_symbology) as [[r|]|e] eqn:E;
    try (vm_compute in E; discriminate).
  destruct (graduated_ranges_follow_list graduated_symbology r E)
    as (attr & ranges & vs & -> & Ha & Hv & _).
  exists (QgsGraduatedSymbolRenderer attr ranges Custom), attr, ranges.
  split; [reflexivity|]. split; [reflexivity|].
  vm_compute in E. injection E as <- <-. split; reflexivity.
Defined.

Lemma category_value (v : json) (s : QgsSymbol) (c : QgsRendererCategory) :
  QSAProject.category v s = Ok c →
  getitem v "value" = Ok (categoryValue c) ∧ categoryLabel c = "test".
Proof.
  unfold QSAProject.category. st_unfold.
  destruct (getitem v "value"); [|discriminate]. intros [= <-]. auto.
Qed.

(** X23.  A categorized style that decodes has the attribute
    [properties["attributs"]] and one category for each entry of
    [properties["list_categorized"]], in the order of the list: the
    value of a category is the [value] of its entry and its label is
    ["test"]. *)
Theorem categorized_categories_follow_list (symbology : list (string * json))
    (r : QgsFeatureRenderer) :
  QSAProject._create_categorized_style symbology = Ok (Some r) →
  ∃ attr categories vs,
    r = QgsCategorizedSymbolRenderer attr categories
    ∧ (dict_get symbology "properties" ≫= λ p,
         getitem p "attributs" ≫= QSAProject.py_string) = Ok attr
    ∧ (dict_get symbology "properties" ≫= λ p,
         getitem p "list_categorized" ≫= iter) = Ok vs
    ∧ Forall2 (λ v c, getitem v "value" = Ok (categoryValue c)
                      ∧ categoryLabel c = "test") vs categories.
Proof.
  unfold QSAProject._create_categorized_style. st_unfold.
  destruct (dict_get symbology "symbol") as [symbol|]; [|discriminate].
  destruct (dict_get symbology "properties") as [props|]; [|discriminate].
  destruct (getitem props "attributs") as [attribut|]; [|discriminate].
  assert (∀ (body : json → res QgsRendererCategory),
            (∀ v c, body v = Ok c → ∃ s, QSAProject.category v s = Ok c) →
            match
              match
                match getitem props "list_categorized" with
                | Ok a => iter a
                | Raise e => Raise e
                end
              with
              | Ok a => Some <$> QSAProject.for_each body a
              | Raise e => Raise e
              end
            with
            | Ok (Some ranges) =>
                match QSAProject.py_string attribut with
                | Ok a => Ok (Some (QgsCategorizedSymbolRenderer a ranges))
                | Raise e => Raise e
                end
            | Ok None => Ok None
            | Raise e => Raise e
            end = Ok (Some r) →
            ∃ attr categories vs,
              r = QgsCategorizedSymbolRenderer attr categories
              ∧ QSAProject.py_string attribut = Ok attr
              ∧ match getitem props "list_categorized" with
                | Ok a => iter a
                | Raise e => Raise e
                end = Ok vs
              ∧ Forall2 (λ v c, getitem v "value" = Ok (categoryValue c)
                                ∧ categoryLabel c = "test") vs categories) as Hcase.
  { intros body Hbody.
    destruct (match getitem props "list_categorized" with
              | Ok a => iter a | Raise e => Raise e end) as [vs|]; [|discriminate].
    destruct (QSAProject.for_each body vs) as [cs|] eqn:Ef; [|discriminate].
    simpl. destruct (QSAProject.py_string attribut) as [a|]; [|discriminate].
    intros [= <-]. exists a, cs, vs. repeat split; auto.
    apply for_each_Forall2 in Ef.
    eapply Forall2_impl; [exact Ef|]. intros v c Hb.
    destruct (Hbody v c Hb) as [s Hs]. apply category_value in Hs. exact Hs. }
  destruct (is_str "fill" symbol).
  { apply Hcase. intros v c.
    destruct (getitem v "outline_width"); [|discriminate].
    destruct (getitem v "outline_style"); [|discriminate].
    destruct (getitem v "outline_color"); [|discriminate].
    destruct (getitem v "color"); [|discriminate]. eauto. }
  destruct (is_str "line" symbol).
  { apply Hcase. intros v c.
    destruct (getitem v "outline_width"); [|discriminate].
    destruct (getitem v "outline_style"); [|discriminate].
    destruct (getitem v "outline_color"); [|discriminate]. eauto. }
  destruct (is_str "marker" symbol); [|discriminate].
  apply Hcase. intros v c.
  destruct (QSAProject.svg_marker _ _ _ _ _); [|discriminate]. eauto.
Qed.

Lemma categorized_categories_follow_list_witness :
  ∃ r attr categories,
    QSAProject._create_categorized_style categorized_symbology = Ok (Some r)
    ∧ r = QgsCategorizedSymbolRenderer attr categories
    ∧ attr = "kind"
    ∧ (λ c, (categoryValue c, categoryLabel c)) <$> categories
      = [(JStr "road", "test"); (JStr "path", "test")].
Proof.
  destruct (QSAProject._create_categorized_style categorized_symbology) as [[r|]|e] eqn:E;
    try (vm_compute in E; discriminate).
  destruct (categorized_categories_follow_list categorized_symbology r E)
    as (attr & categories & vs & -> & Ha & Hv & _).
  exists (QgsCategorizedSymbolRenderer attr categories), attr, categories.
  split; [reflexivity|]. split; [reflexivity|].
  vm_compute in E. injection E as <- <-. split; reflexivity.
Defined.

(** *** The handlers *)

Lemma exists_absent (env : Env) (w : World.t) :
  fst (QSAProject.exists_ env w) = Ok false →
  QSAProject.exists_ env w = (Ok false, w).
Proof.
  unfold QSAProject.exists_. st_unfold.
  destruct (storage_backend env); simpl.
  - intros [= ->]. reflexivity.
  - destruct (listed w) eqn:El; simpl; rewrite El; simpl; [discriminate|reflexivity].
Qed.

Lemma exists_descriptor (env : Env) (w : World.t) :
  descriptor (snd (QSAProject.exists_ env w)) = descriptor w
  ∧ qml (snd (QSAProject.exists_ env w)) = qml w
  ∧ qsa_db (snd (QSAProject.exists_ env w)) = qsa_db w
  ∧ mirror (snd (QSAProject.exists_ env w)) = mirror w.
Proof.
  unfold QSAProject.exists_. st_unfold.
  destruct (storage_backend env); simpl; [auto|].
  destruct (listed w); auto.
Qed.

(** X24.  On a project that does not exist, the handlers that add a
    layer, apply a style to a layer, add a style, set a default style,
    delete a style, list the default styles, list the layers and delete
    a layer all answer 415 and change nothing, whatever the request.
    The error is "Project does not exist", except in the two handlers
    that read the body before they look for the project, the one that
    adds a layer and the one that sets a default style: when the body
    cannot be read, their error is that of the reading. *)
Theorem handlers_refuse_absent_project (env : Env) (w : World.t) :
  fst (QSAProject.exists_ env w) = Ok false →
  (∀ body, Api.project_add_layer env body w = (refused body, w))
  ∧ (∀ layer_name body,
       Api.project_layer_update_style env layer_name body w = (no_project, w))
  ∧ (∀ body, Api.project_add_style env body w = (no_project, w))
  ∧ (∀ body, Api.project_update_default_style env body w = (refused body, w))
  ∧ (∀ style, Api.project_del_style env style w = (Ok no_project, w))
  ∧ Api.project_default_styles env w = (Ok no_project, w)
  ∧ Api.project_layers env w = (Ok no_project, w)
  ∧ (∀ layer_name, Api.project_del_layer env layer_name w = (Ok no_project, w)).
Proof.
  intros H. apply exists_absent in H.
  unfold Api.project_add_layer, Api.project_layer_update_style, Api.project_add_style,
    Api.project_update_default_style, Api.project_del_style, Api.project_default_styles,
    Api.project_layers, Api.project_del_layer, Api.try_except, refused.
  st_unfold. rewrite H. simpl.
  repeat split; try reflexivity; intros [j|e]; simpl; rewrite ?H; reflexivity.
Qed.

Lemma handlers_refuse_absent_project_witness :
  let env := Fixture.env "" true in
  Api.project_add_style env (Ok (JDict [("name", JStr "s1")])) absent_project
  = (no_project, absent_project)
  ∧ Api.project_add_layer env (Raise (Exception "400 Bad Request")) absent_project
    = ((JDict [("error", JStr "400 Bad Request")], 415%Z), absent_project)
  ∧ Api.project_del_layer env "layer0" absent_project = (Ok no_project, absent_project).
Proof.
  intros env.
  destruct (handlers_refuse_absent_project env absent_project)
    as (H1 & _ & H3 & _ & _ & _ & _ & H8); [reflexivity|].
  split; [apply H3|]. split; [apply H1|apply H8].
Defined.

Lemma remove_layer_unreadable_mirror (env : Env) (n : string) (w : World.t) :
  QSAProject._mapproxy_enabled env = true → mirror w = None →
  fst (QSAProject.remove_layer env n w) = Ok false.
Proof.
  intros Hm Hn. unfold QSAProject.remove_layer. st_unfold. rewrite Hm.
  unfold QSAProject.write, QSAMapProxy.read. st_unfold.
  destruct (storage_writable env); simpl.
  - destruct (storage_backend env); simpl; now rewrite Hn.
  - now rewrite Hn.
Qed.

(** X25.  For a layer that the project has, the handler that deletes
    a layer answers 201 whatever [remove_layer] returns, the body being
    that boolean: with the cache mirror enabled and no readable mirror
    the answer is 201 with body [false]. *)
Theorem project_del_layer_answers_201 (env : Env) (layer_name : string) (w : World.t) :
  fst (QSAProject.exists_ env w) = Ok true →
  QSAProject.layer_exists layer_name w = true →
  (∃ rc, fst (Api.project_del_layer env layer_name w) = Ok (JBool rc, 201%Z))
  ∧ (QSAProject._mapproxy_enabled env = true → mirror w = None →
     fst (Api.project_del_layer env layer_name w) = Ok (JBool false, 201%Z)).
Proof.
  intros He Hl.
  destruct (exists_descriptor env w) as (Hd & _ & _ & Hm).
  unfold Api.project_del_layer. st_unfold.
  destruct (QSAProject.exists_ env w) as [[[|]|e] w1]; simpl in *; try discriminate.
  assert (QSAProject.layer_exists layer_name w1 = true) as ->.
  { unfold QSAProject.layer_exists, QSAProject.read in *. now rewrite Hd. }
  split.
  - destruct (remove_layer_returns env layer_name w1) as [rc Hrc].
    destruct (QSAProject.remove_layer env layer_name w1) as [[rc'|e] w2]; simpl in *;
      [|discriminate]. eauto.
  - intros Hmp Hn. rewrite <- Hm in Hn.
    pose proof (remove_layer_unreadable_mirror env layer_name w1 Hmp Hn) as H3.
    destruct (QSAProject.remove_layer env layer_name w1) as [[rc'|e] w2]; simpl in *;
      [|discriminate]. now injection H3 as ->.
Qed.

Lemma project_del_layer_answers_201_witness :
  let env := Fixture.env "/cache" true in
  let w := Fixture.with_project [Fixture.layer0] (Fixture.created None) in
  fst (Api.project_del_layer env "layer0" w) = Ok (JBool false, 201%Z).
Proof.
  intros env w.
  destruct (project_del_layer_answers_201 env "layer0" w) as [_ H];
    [reflexivity|reflexivity|].
  apply H; reflexivity.
Defined.

Lemma created_exists (env : Env) (author : string) (w : World.t) (msg : string) :
  fst (QSAProject.exists_ env w) = Ok false →
  fst (QSAProject.create env author w) = Ok (QSAProject.Pair true msg) →
  QSAProject.exists_ env (snd (QSAProject.create env author w))
  = (Ok true, snd (QSAProject.create env author w)).
Proof.
  intros He. apply exists_absent in He.
  unfold QSAProject.create. st_unfold. rewrite He. cbn [fst snd].
  unfold QSAProject.write, QSAProject.sqlite_db, QSAProject.mkdir_project_dir,
    QSAMapProxy.create, QSAProject.exists_.
  st_unfold.
  destruct (storage_writable env); simpl.
  - intros _.
    destruct (QSAProject._mapproxy_enabled env); simpl;
      destruct (storage_backend env); simpl;
      try destruct (mirror_writable env); simpl;
      destruct (qsa_db w); reflexivity.
  - destruct (QSAProject._mapproxy_enabled env); simpl;
      try destruct (mirror_writable env); simpl;
      destruct (qsa_db w); simpl; discriminate.
Qed.

(** X26.  A request that created a project (answer 201), sent again,
    is answered 415 with the error "Project already exists" and
    changes nothing. *)
Theorem project_add_twice (env : Env) (data : json) (w w1 : World.t) :
  Api.project_add env data w = ((JBool true, 201%Z), w1) →
  Api.project_add env data w1
  = ((JDict [("error", JStr "Project already exists")], 415%Z), w1).
Proof.
  unfold Api.project_add, Api.try_except. st_unfold.
  destruct (Api.validate data _ _) as [d|e]; cbn [fst snd]; [|discriminate].
  destruct (dict_get d "name") as [nm|e]; cbn [fst snd]; [|discriminate].
  destruct (match dict_get d "author" with Ok a => QSAProject.py_string a | Raise e => Raise e end)
    as [author|e]; cbn [fst snd]; [|discriminate].
  destruct (QSAProject.exists_ env w) as [[[|]|e] w0] eqn:Ee; cbn [fst snd];
    try discriminate.
  assert (w0 = w) as ->.
  { pose proof (exists_absent env w) as H. rewrite Ee in H. specialize (H eq_refl).
    congruence. }
  pose proof (created_exists env author w) as Hc. rewrite Ee in Hc.
  destruct (QSAProject.create env author w) as [[[b|b msg]|e] w2]; cbn [fst snd] in *;
    try discriminate.
  destruct b; cbn [negb]; [|discriminate].
  intros [= <-]. rewrite (Hc msg eq_refl eq_refl). reflexivity.
Qed.

Lemma project_add_twice_witness :
  let env := Fixture.env "" true in
  let data := JDict [("name", JStr "p"); ("author", JStr "alice")] in
  let w1 := snd (Api.project_add env data absent_project) in
  Api.project_add env data absent_project = ((JBool true, 201%Z), w1)
  ∧ Api.project_add env data w1
    = ((JDict [("error", JStr "Project already exists")], 415%Z), w1).
Proof.
  intros env data w1.
  assert (Api.project_add env data absent_project = ((JBool true, 201%Z), w1)) as H
    by (vm_compute; reflexivity).
  split; [exact H|].
  apply (project_add_twice env data absent_project w1). exact H.
Defined.

(** X27.  Applying a style to a layer that the project does not have
    is answered 415 with the message of the [IndexError] that the
    lookup of the first layer of that name raises; descriptor and
    style documents are unchanged. *)
Theorem project_layer_update_style_unknown_layer (env : Env) (layer_name s : string)
    (current : bool) (w : World.t) :
  fst (QSAProject.exists_ env w) = Ok true →
  mapLayersByName (strip layer_name) (QSAProject.read w) = [] →
  let r := Api.project_layer_update_style env layer_name
             (Ok (JDict [("name", JStr s); ("current", JBool current)])) w in
  fst r = (JDict [("error", JStr "list index out of range")], 415%Z)
  ∧ descriptor (snd r) = descriptor w
  ∧ qml (snd r) = qml w.
Proof.
  intros He Hl.
  destruct (exists_descriptor env w) as (Hd & Hq & _).
  unfold Api.project_layer_update_style, Api.try_except. st_unfold.
  destruct (QSAProject.exists_ env w) as [[[|]|e] w1]; simpl in He, Hd, Hq;
    try discriminate.
  cbn -[QSAProject.layer_update_style].
  unfold QSAProject.layer_update_style, QSAMapProxy.clear_cache. st_unfold.
  set (w0 := set_tiles _ w1).
  assert (QSAProject.read w0 = QSAProject.read w) as ->
    by (unfold QSAProject.read; simpl; now rewrite Hd).
  rewrite Hl. simpl. auto.
Qed.

Lemma project_layer_update_style_unknown_layer_witness :
  let env := Fixture.env "" true in
  let r := Api.project_layer_update_style env "nowhere"
             (Ok (JDict [("name", JStr "s1"); ("current", JBool true)])) two_layers in
  fst r = (JDict [("error", JStr "list index out of range")], 415%Z)
  ∧ descriptor (snd r) = descriptor two_layers
  ∧ qml (snd r) = qml two_layers.
Proof.
  intros env r.
  apply (project_layer_update_style_unknown_layer env "nowhere" "s1" true two_layers);
    reflexivity.
Defined.

(** X28.  Setting the default style of a geometry other than [line],
    [polygon] and [point], the geometry and the style being without
    quote or NUL character, is answered 201 with body [true], and the
    default styles are what they were. *)
Theorem project_update_default_style_unknown_geometry (env : Env) (g s : string)
    (w : World.t) :
  fst (QSAProject.exists_ env w) = Ok true →
  g ∉ ["line"; "polygon"; "point"] →
  QSAProject.sql_text g = true →
  QSAProject.sql_text s = true →
  let r := Api.project_update_default_style env
             (Ok (JDict [("geometry", JStr g); ("style", JStr s)])) w in
  fst r = (JBool true, 201%Z)
  ∧ fst (QSAProject.default_styles (snd r)) = fst (QSAProject.default_styles w).
Proof.
  intros He Hg _ _.
  assert (String.eqb g "line" = false ∧ String.eqb g "polygon" = false
          ∧ String.eqb g "point" = false) as (E1 & E2 & E3).
  { repeat split; apply String.eqb_neq; intros ->; apply Hg;
      repeat ((apply list_elem_of_here) || (apply list_elem_of_further)). }
  destruct (exists_descriptor env w) as (_ & _ & Hdb & _).
  unfold Api.project_update_default_style, Api.try_except. st_unfold.
  destruct (QSAProject.exists_ env w) as [[[|]|e] w1]; simpl in He, Hdb;
    try discriminate.
  cbn -[QSAProject.style_update].
  unfold QSAProject.style_update, QSAProject.default_styles, QSAProject.style_default,
    QSAProject.sqlite_db, QSAProject.mkdir_project_dir, QSAProject.update_style.
  st_unfold. rewrite Hdb.
  destruct (qsa_db w) as [[l p pt]|] eqn:Eq; simpl;
    repeat (rewrite ?Eq, ?E1, ?E2, ?E3; simpl); auto.
Qed.

Lemma project_update_default_style_unknown_geometry_witness :
  let env := Fixture.env "" true in
  let r := Api.project_update_default_style env
             (Ok (JDict [("geometry", JStr "multipolygon"); ("style", JStr "s1")]))
             two_layers in
  fst r = (JBool true, 201%Z)
  ∧ fst (QSAProject.default_styles (snd r)) = Ok initial_defaults.
Proof.
  intros env r.
  destruct (project_update_default_style_unknown_geometry env "multipolygon" "s1"
              two_layers) as [H1 H2].
  - reflexivity.
  - intros H. apply list_elem_of_In in H. simpl in H. intuition discriminate.
  - reflexivity.
  - reflexivity.
  - split; [exact H1|]. fold r in H2. rewrite H2. reflexivity.
Defined.
